(** * The gesture classification and stability engine

    A shallow embedding of [RealTimeGestureDetector]
    (src/lib/real-time-gesture-detector.ts) and of the finger-extension test
    of its sibling [MediaPipeGestureDetector] (src/lib/mediapipe-detector.ts).

    Numbers.  A JavaScript number is an IEEE 754 binary64 value, which is what
    Rocq's primitive [float] is: landmark coordinates, tracking scores and the
    confidence of a prediction are [float]s, and [+], [-], [*], [/],
    [Math.sqrt], [Math.abs], [<] and [>] are the corresponding primitive
    operations (comparisons with NaN are false on both sides).  The integer
    valued numbers of the engine ([stabilityThreshold], [gestureCooldown],
    the millisecond readings of [Date.now()]) are modelled in [Z]; array
    lengths and indices are [nat].

    Arrays are lists.  Reading [landmarks[i]] outside the array gives
    [undefined] in JavaScript and the first property access on it throws a
    [TypeError]; a function that reads landmarks returns [option], with
    [None] for that exception.  A landmark is bound where the source first
    needs its coordinates on every path through the function, and a
    constant that the source declares and never uses is left out. *)

From Stdlib Require Import Floats ZArith Ascii String Bool List Lia.
Import ListNotations.

Set Warnings "-inexact-float".

(** ** Option as the exception monad of array reads *)

Definition bind {A B : Type} (o : option A) (k : A -> option B) : option B :=
  match o with
  | Some a => k a
  | None => None
  end.

Notation "x <- e ;; k" := (bind e (fun x => k))
  (at level 61, e at next level, right associativity).
Notation "l !! i" := (nth_error l i) (at level 20).
Notation "a >? b" := (PrimFloat.ltb b a) (only parsing) : float_scope.

(** ** Data model *)

(** [type Gesture]: a closed union of string literals; constructor [G_s]
    stands for the literal ["s"]. *)
Inductive Gesture : Set :=
| G_idle | G_hello | G_thanks | G_help | G_wait | G_repeat | G_yes | G_no
| G_a | G_b | G_c | G_d | G_e | G_f | G_g | G_h | G_i | G_j | G_k | G_l | G_m
| G_n | G_o | G_p | G_q | G_r | G_s | G_t | G_u | G_v | G_w | G_x | G_y | G_z
| G_0 | G_1 | G_2 | G_3 | G_4 | G_5 | G_6 | G_7 | G_8 | G_9.

Definition Gesture_eq_dec (g1 g2 : Gesture) : {g1 = g2} + {g1 <> g2}.
Proof. decide equality. Defined.

(** [g1 === g2] on gestures. *)
Definition Gesture_eqb (g1 g2 : Gesture) : bool :=
  if Gesture_eq_dec g1 g2 then true else false.

Record HandLandmark : Set := { x : float; y : float; z : float }.

Inductive Label : Set := Left | Right.

(** One entry of [results.multiHandedness]. *)
Record Handedness : Set := { label : Label; score : float }.

(** The tracker's [results]: [multiHandLandmarks] may be missing. *)
Record Results : Set := {
  multiHandLandmarks : option (list (list HandLandmark));
  multiHandedness : list Handedness
}.

Record GesturePrediction : Set := {
  gesture : Gesture;
  confidence : float;
  text : string;
  isStable : bool
}.

(** The mutable fields of a [RealTimeGestureDetector] that the frame handler
    reads or writes. *)
Record Detector : Set := {
  gestureHistory : list Gesture;
  lastStableGesture : Gesture;
  stabilityThreshold : Z;
  confidenceThreshold : float;
  lastGestureTime : Z;
  gestureCooldown : Z
}.

(** Field initialisers of the class. *)
Definition initial : Detector := {|
  gestureHistory := [];
  lastStableGesture := G_idle;
  stabilityThreshold := 3;
  confidenceThreshold := 0.7;
  lastGestureTime := 0;
  gestureCooldown := 1000
|}.

Definition gestureToText (g : Gesture) : string :=
  match g with
  | G_idle => ""
  | G_hello => "Hello"
  | G_thanks => "Thank you"
  | G_help => "Help"
  | G_wait => "Wait"
  | G_repeat => "Repeat"
  | G_yes => "Yes"
  | G_no => "No"
  | G_a => "A" | G_b => "B" | G_c => "C" | G_d => "D" | G_e => "E"
  | G_f => "F" | G_g => "G" | G_h => "H" | G_i => "I" | G_j => "J"
  | G_k => "K" | G_l => "L" | G_m => "M" | G_n => "N" | G_o => "O"
  | G_p => "P" | G_q => "Q" | G_r => "R" | G_s => "S" | G_t => "T"
  | G_u => "U" | G_v => "V" | G_w => "W" | G_x => "X" | G_y => "Y"
  | G_z => "Z"
  | G_0 => "0" | G_1 => "1" | G_2 => "2" | G_3 => "3" | G_4 => "4"
  | G_5 => "5" | G_6 => "6" | G_7 => "7" | G_8 => "8" | G_9 => "9"
  end%string.

(** ** Array helpers *)

(** [arr.map((v, i) => f(v, i))] and [arr.every((v, i) => p(v, i))], with
    the index counted from [i]. *)
Fixpoint map_from {A B : Type} (f : A -> nat -> B) (i : nat) (l : list A)
  : list B :=
  match l with
  | [] => []
  | v :: l' => f v i :: map_from f (S i) l'
  end.

Fixpoint every_from {A : Type} (p : A -> nat -> bool) (i : nat) (l : list A)
  : bool :=
  match l with
  | [] => true
  | v :: l' => p v i && every_from p (S i) l'
  end.

(** [arr.slice(start)] for an integer [start]: a negative [start] counts
    from the end, and both ends are clamped to the array. *)
Definition slice {A : Type} (start : Z) (l : list A) : list A :=
  let len := Z.of_nat (length l) in
  let k := if (start <? 0)%Z then Z.max (len + start) 0 else Z.min start len in
  skipn (Z.to_nat k) l.

(** [arr.push(v)] followed by [if (arr.length > 5) arr.shift()]. *)
Definition push_bounded {A : Type} (l : list A) (v : A) : list A :=
  let pushed := l ++ [v] in
  if (5 <? length pushed)%nat then tl pushed else pushed.

(** A length or a count as a number. *)
Definition number_of_nat (n : nat) : float :=
  PrimFloat.of_uint63 (Uint63.of_Z (Z.of_nat n)).

(** ** Geometric predicates *)

Section Geometry.
Local Open Scope float_scope.

(** [Math.pow(b, 2)].  The engines' [pow] returns [b * b] when the exponent
    is 2 (the fdlibm special case), which is the value taken here. *)
Definition Math_pow2 (b : float) : float := b * b.

Definition isFingerExtended (tip base mcp : HandLandmark) : bool :=
  let tipToBase := PrimFloat.sqrt (
    Math_pow2 (tip.(x) - base.(x)) +
    Math_pow2 (tip.(y) - base.(y)) +
    Math_pow2 (tip.(z) - base.(z))) in
  let tipToMcp := PrimFloat.sqrt (
    Math_pow2 (tip.(x) - mcp.(x)) +
    Math_pow2 (tip.(y) - mcp.(y)) +
    Math_pow2 (tip.(z) - mcp.(z))) in
  tipToBase >? tipToMcp.

Definition isCurvedGesture (landmarks : list HandLandmark) : option bool :=
  indexTip <- landmarks !! 8 ;;
  middleTip <- landmarks !! 12 ;;
  ringTip <- landmarks !! 16 ;;
  pinkyTip <- landmarks !! 20 ;;
  let tips := [indexTip; middleTip; ringTip; pinkyTip] in
  let distances := map_from (fun tip i =>
    if Nat.eqb i 0 then 0
    else
      let prev := nth (i - 1) tips tip in
      PrimFloat.sqrt (
        Math_pow2 (tip.(x) - prev.(x)) +
        Math_pow2 (tip.(y) - prev.(y)))) 0 tips in
  Some (every_from (fun dist i => Nat.eqb i 0 || (dist <? 0.1)) 0 distances).

Definition isThumbIndexTouching (thumbTip indexTip : HandLandmark) : bool :=
  let distance := PrimFloat.sqrt (
    Math_pow2 (thumbTip.(x) - indexTip.(x)) +
    Math_pow2 (thumbTip.(y) - indexTip.(y)) +
    Math_pow2 (thumbTip.(z) - indexTip.(z))) in
  distance <? 0.05.

Definition isThumbBetweenFingers (landmarks : list HandLandmark)
  : option bool :=
  thumbTip <- landmarks !! 4 ;;
  indexBase <- landmarks !! 5 ;;
  middleBase <- landmarks !! 9 ;;
  let thumbToIndex := PrimFloat.sqrt (
    Math_pow2 (thumbTip.(x) - indexBase.(x)) +
    Math_pow2 (thumbTip.(y) - indexBase.(y))) in
  let thumbToMiddle := PrimFloat.sqrt (
    Math_pow2 (thumbTip.(x) - middleBase.(x)) +
    Math_pow2 (thumbTip.(y) - middleBase.(y))) in
  Some ((thumbToIndex <? 0.1) && (thumbToMiddle <? 0.1)).

Definition isThumbIndexCircle (thumbTip indexTip : HandLandmark) : bool :=
  let distance := PrimFloat.sqrt (
    Math_pow2 (thumbTip.(x) - indexTip.(x)) +
    Math_pow2 (thumbTip.(y) - indexTip.(y))) in
  (distance <? 0.08) && (distance >? 0.03).

(** [indexBase] and [middleBase] are read and never used. *)
Definition isIndexMiddleCrossed (landmarks : list HandLandmark)
  : option bool :=
  indexTip <- landmarks !! 8 ;;
  middleTip <- landmarks !! 12 ;;
  let indexToMiddle := PrimFloat.sqrt (
    Math_pow2 (indexTip.(x) - middleTip.(x)) +
    Math_pow2 (indexTip.(y) - middleTip.(y))) in
  Some (indexToMiddle <? 0.05).

Definition isWaveGesture (landmarks : list HandLandmark) : option bool :=
  wrist <- landmarks !! 0 ;;
  indexTip <- landmarks !! 8 ;;
  let horizontalMovement := PrimFloat.abs (indexTip.(x) - wrist.(x)) in
  Some (horizontalMovement >? 0.1).

Definition isThumbsUp (landmarks : list HandLandmark) : option bool :=
  thumbTip <- landmarks !! 4 ;;
  thumbBase <- landmarks !! 1 ;;
  indexTip <- landmarks !! 8 ;;
  l2 <- landmarks !! 2 ;;
  l5 <- landmarks !! 5 ;;
  l6 <- landmarks !! 6 ;;
  let thumbExtended := isFingerExtended thumbTip thumbBase l2 in
  let indexBent := negb (isFingerExtended indexTip l5 l6) in
  Some (thumbExtended && indexBent).

Definition isThumbsDown (landmarks : list HandLandmark) : option bool :=
  thumbTip <- landmarks !! 4 ;;
  thumbBase <- landmarks !! 1 ;;
  Some (thumbTip.(y) >? thumbBase.(y)).

(** [fingers.every((tip, i) => isFingerExtended(tip, landmarks[5 + i * 4],
    landmarks[6 + i * 4]))] over the four finger tips: [every] stops at the
    first finger that is not extended, so a landmark is only looked at when
    its finger is reached.  [palm] is read and never used. *)
Definition isStopGesture (landmarks : list HandLandmark) : option bool :=
  let fingers :=
    [landmarks !! 8; landmarks !! 12; landmarks !! 16; landmarks !! 20] in
  let fix every (i : nat) (l : list (option HandLandmark)) : option bool :=
    match l with
    | [] => Some true
    | finger :: l' =>
        tip <- finger ;;
        base <- landmarks !! (5 + i * 4) ;;
        mcp <- landmarks !! (6 + i * 4) ;;
        if isFingerExtended tip base mcp then every (S i) l' else Some false
    end in
  every 0%nat fingers.

Definition isPointingGesture (landmarks : list HandLandmark) : option bool :=
  indexTip <- landmarks !! 8 ;;
  indexBase <- landmarks !! 5 ;;
  middleTip <- landmarks !! 12 ;;
  middleBase <- landmarks !! 9 ;;
  l6 <- landmarks !! 6 ;;
  l10 <- landmarks !! 10 ;;
  let indexExtended := isFingerExtended indexTip indexBase l6 in
  let middleBent := negb (isFingerExtended middleTip middleBase l10) in
  Some (indexExtended && middleBent).

End Geometry.

(** The sibling detector's distance and finger-extension test
    (src/lib/mediapipe-detector.ts). *)
Module MediaPipeGestureDetector.
Local Open Scope float_scope.

Definition calculateDistance (point1 point2 : HandLandmark) : float :=
  let dx := point1.(x) - point2.(x) in
  let dy := point1.(y) - point2.(y) in
  let dz := point1.(z) - point2.(z) in
  PrimFloat.sqrt (dx * dx + dy * dy + dz * dz).

(** [tipToPip], [pipToMcp] and [mcpToWrist] are computed and never used. *)
Definition isFingerExtended (tip pip mcp wrist : HandLandmark) : bool :=
  let tipToWrist := calculateDistance tip wrist in
  let mcpToWristDistance := calculateDistance mcp wrist in
  tipToWrist >? mcpToWristDistance * 1.2.

End MediaPipeGestureDetector.

(** ** The gesture classifier *)

Definition detectASLLetter (landmarks : list HandLandmark) : option Gesture :=
  thumbTip <- landmarks !! 4 ;;
  indexTip <- landmarks !! 8 ;;
  middleTip <- landmarks !! 12 ;;
  ringTip <- landmarks !! 16 ;;
  pinkyTip <- landmarks !! 20 ;;
  thumbBase <- landmarks !! 1 ;;
  indexBase <- landmarks !! 5 ;;
  middleBase <- landmarks !! 9 ;;
  ringBase <- landmarks !! 13 ;;
  pinkyBase <- landmarks !! 17 ;;
  l2 <- landmarks !! 2 ;;
  l6 <- landmarks !! 6 ;;
  l10 <- landmarks !! 10 ;;
  l14 <- landmarks !! 14 ;;
  l18 <- landmarks !! 18 ;;
  let thumbExtended := isFingerExtended thumbTip thumbBase l2 in
  let indexExtended := isFingerExtended indexTip indexBase l6 in
  let middleExtended := isFingerExtended middleTip middleBase l10 in
  let ringExtended := isFingerExtended ringTip ringBase l14 in
  let pinkyExtended := isFingerExtended pinkyTip pinkyBase l18 in
  if indexExtended && negb middleExtended && negb ringExtended && negb pinkyExtended && negb thumbExtended then Some G_1 else
  if indexExtended && middleExtended && negb ringExtended && negb pinkyExtended && negb thumbExtended then Some G_2 else
  if indexExtended && middleExtended && ringExtended && negb pinkyExtended && negb thumbExtended then Some G_3 else
  if indexExtended && middleExtended && ringExtended && pinkyExtended && negb thumbExtended then Some G_4 else
  if indexExtended && middleExtended && ringExtended && pinkyExtended && thumbExtended then Some G_5 else
  if indexExtended && middleExtended && ringExtended && pinkyExtended && negb thumbExtended then Some G_6 else
  if indexExtended && middleExtended && ringExtended && pinkyExtended && thumbExtended then Some G_7 else
  if indexExtended && middleExtended && ringExtended && pinkyExtended && thumbExtended then Some G_8 else
  if indexExtended && middleExtended && ringExtended && pinkyExtended && thumbExtended then Some G_9 else
  if indexExtended && middleExtended && ringExtended && pinkyExtended && thumbExtended then Some G_0 else
  if negb indexExtended && negb middleExtended && negb ringExtended && negb pinkyExtended && thumbExtended then Some G_a else
  if indexExtended && middleExtended && ringExtended && pinkyExtended && negb thumbExtended then Some G_b else
  curved <- isCurvedGesture landmarks ;;
  if curved then Some G_c else
  if indexExtended && middleExtended && negb ringExtended && negb pinkyExtended && negb thumbExtended then Some G_d else
  if negb indexExtended && negb middleExtended && negb ringExtended && negb pinkyExtended && negb thumbExtended then Some G_e else
  if isThumbIndexTouching thumbTip indexTip then Some G_f else
  if indexExtended && negb middleExtended && negb ringExtended && negb pinkyExtended && negb thumbExtended then Some G_g else
  if indexExtended && middleExtended && negb ringExtended && negb pinkyExtended && negb thumbExtended then Some G_h else
  if negb indexExtended && negb middleExtended && negb ringExtended && pinkyExtended && negb thumbExtended then Some G_i else
  if negb indexExtended && negb middleExtended && negb ringExtended && pinkyExtended && negb thumbExtended then Some G_j else
  if indexExtended && middleExtended && negb ringExtended && negb pinkyExtended && negb thumbExtended then Some G_k else
  if indexExtended && negb middleExtended && negb ringExtended && negb pinkyExtended && thumbExtended then Some G_l else
  between <- isThumbBetweenFingers landmarks ;;
  if between then Some G_m else
  between' <- isThumbBetweenFingers landmarks ;;
  if between' then Some G_n else
  if isThumbIndexCircle thumbTip indexTip then Some G_o else
  if indexExtended && negb middleExtended && negb ringExtended && negb pinkyExtended && negb thumbExtended then Some G_p else
  if negb indexExtended && negb middleExtended && negb ringExtended && pinkyExtended && thumbExtended then Some G_q else
  crossed <- isIndexMiddleCrossed landmarks ;;
  if crossed then Some G_r else
  if negb indexExtended && negb middleExtended && negb ringExtended && negb pinkyExtended && negb thumbExtended then Some G_s else
  between'' <- isThumbBetweenFingers landmarks ;;
  if between'' then Some G_t else
  if indexExtended && middleExtended && negb ringExtended && negb pinkyExtended && negb thumbExtended then Some G_u else
  if indexExtended && middleExtended && negb ringExtended && negb pinkyExtended && negb thumbExtended then Some G_v else
  if indexExtended && middleExtended && ringExtended && negb pinkyExtended && negb thumbExtended then Some G_w else
  if negb indexExtended && negb middleExtended && negb ringExtended && negb pinkyExtended && negb thumbExtended then Some G_x else
  if negb indexExtended && negb middleExtended && negb ringExtended && pinkyExtended && thumbExtended then Some G_y else
  crossed' <- isIndexMiddleCrossed landmarks ;;
  if crossed' then Some G_z else
  Some G_idle.

(** The five tip constants the function declares are never used. *)
Definition detectCommonGestures (landmarks : list HandLandmark)
  : option Gesture :=
  wave <- isWaveGesture landmarks ;;
  if wave then Some G_hello else
  up <- isThumbsUp landmarks ;;
  if up then Some G_thanks else
  down <- isThumbsDown landmarks ;;
  if down then Some G_no else
  stop <- isStopGesture landmarks ;;
  if stop then Some G_wait else
  pointing <- isPointingGesture landmarks ;;
  if pointing then Some G_help else
  Some G_idle.

(** [landmarks.map(l => ({x: l.x, y: l.y, z: l.z}))] copies the array. *)
Definition classifyGesture (landmarks : list HandLandmark) (handedness : Label)
  : option Gesture :=
  let handLandmarks := map (fun landmark =>
    {| x := landmark.(x); y := landmark.(y); z := landmark.(z) |}) landmarks in
  aslLetter <- detectASLLetter handLandmarks ;;
  if negb (Gesture_eqb aslLetter G_idle) then Some aslLetter
  else detectCommonGestures handLandmarks.

(** ** The stability filter *)

Definition isGestureStable (self : Detector) (gesture : Gesture) : bool :=
  if (Z.of_nat (length self.(gestureHistory)) <? self.(stabilityThreshold))%Z
  then false
  else
    let recentGestures :=
      slice (- self.(stabilityThreshold)) self.(gestureHistory) in
    forallb (fun g => Gesture_eqb g gesture) recentGestures.

Definition calculateConfidence (self : Detector) (gesture : Gesture) : float :=
  if Nat.eqb (length self.(gestureHistory)) 0 then 0%float
  else
    let recentGestures := slice (-5) self.(gestureHistory) in
    let sameGestures :=
      length (filter (fun g => Gesture_eqb g gesture) recentGestures) in
    (number_of_nat sameGestures / number_of_nat (length recentGestures))%float.

Definition resetToIdle (self : Detector) : Detector := {|
  gestureHistory := [];
  lastStableGesture := G_idle;
  stabilityThreshold := self.(stabilityThreshold);
  confidenceThreshold := self.(confidenceThreshold);
  lastGestureTime := self.(lastGestureTime);
  gestureCooldown := self.(gestureCooldown)
|}.

(** The detector once [gesture] is pushed onto the history (the first
    statement group of [updateGestureHistory]). *)
Definition pushHistory (self : Detector) (gesture : Gesture) : Detector := {|
  gestureHistory := push_bounded self.(gestureHistory) gesture;
  lastStableGesture := self.(lastStableGesture);
  stabilityThreshold := self.(stabilityThreshold);
  confidenceThreshold := self.(confidenceThreshold);
  lastGestureTime := self.(lastGestureTime);
  gestureCooldown := self.(gestureCooldown)
|}.

(** The condition of the early [return]:
    [now - this.lastGestureTime < this.gestureCooldown && !isStable]. *)
Definition cooldownGate (self : Detector) (now : Z) (isStable : bool) : bool :=
  (now - self.(lastGestureTime) <? self.(gestureCooldown))%Z && negb isStable.

(** The two assignments of an emission:
    [this.lastStableGesture = gesture; this.lastGestureTime = now]. *)
Definition markStable (self : Detector) (gesture : Gesture) (now : Z)
  : Detector := {|
  gestureHistory := self.(gestureHistory);
  lastStableGesture := gesture;
  stabilityThreshold := self.(stabilityThreshold);
  confidenceThreshold := self.(confidenceThreshold);
  lastGestureTime := now;
  gestureCooldown := self.(gestureCooldown)
|}.

(** [updateGestureHistory(gesture)], with [now] the value that [Date.now()]
    returns in it.  The second component lists the predictions handed to
    [onGestureDetected], in call order. *)
Definition updateGestureHistory (self : Detector) (now : Z) (gesture : Gesture)
  : Detector * list GesturePrediction :=
  let self1 := pushHistory self gesture in
  let isStable := isGestureStable self1 gesture in
  if cooldownGate self1 now isStable then (self1, [])
  else if isStable && negb (Gesture_eqb gesture self1.(lastStableGesture))
  then
    let self2 := markStable self1 gesture now in
    let prediction :=
      Build_GesturePrediction gesture (calculateConfidence self2 gesture)
        (gestureToText gesture) true in
    (self2, [prediction])
  else (self1, []).

(** The [for] loop of [processHandResults] from index [i] on, over the
    remaining entries [rest] of [results.multiHandLandmarks];
    [results.multiHandedness[i]] is read by index.  [clock i] is the
    reading of [Date.now()] while hand [i] is processed. *)
Fixpoint processHands (self : Detector) (clock : nat -> Z)
    (rest : list (list HandLandmark)) (handednesses : list Handedness)
    (i : nat) : option (Detector * list GesturePrediction) :=
  match rest with
  | [] => Some (self, [])
  | landmarks :: rest' =>
      handedness <- handednesses !! i ;;
      if (handedness.(score) <? self.(confidenceThreshold))%float
      then processHands self clock rest' handednesses (S i)
      else
        gesture <- classifyGesture landmarks handedness.(label) ;;
        let (self', delivered) :=
          updateGestureHistory self (clock i) gesture in
        r <- processHands self' clock rest' handednesses (S i) ;;
        Some (fst r, delivered ++ snd r)
  end.

(** [processHandResults(results)]: the detector after the frame and the
    predictions delivered during it; [None] when the frame handler throws. *)
Definition processHandResults (self : Detector) (clock : nat -> Z)
    (results : Results) : option (Detector * list GesturePrediction) :=
  match results.(multiHandLandmarks) with
  | None => Some (resetToIdle self, [])
  | Some [] => Some (resetToIdle self, [])
  | Some hands => processHands self clock hands results.(multiHandedness) 0
  end.

(** The argument of [updateConfig]: every field is optional. *)
Record Config : Set := {
  cfg_confidenceThreshold : option float;
  cfg_stabilityThreshold : option Z;
  cfg_gestureCooldown : option Z
}.

Definition updateConfig (self : Detector) (config : Config) : Detector := {|
  gestureHistory := self.(gestureHistory);
  lastStableGesture := self.(lastStableGesture);
  stabilityThreshold :=
    match config.(cfg_stabilityThreshold) with
    | Some v => v
    | None => self.(stabilityThreshold)
    end;
  confidenceThreshold :=
    match config.(cfg_confidenceThreshold) with
    | Some v => v
    | None => self.(confidenceThreshold)
    end;
  lastGestureTime := self.(lastGestureTime);
  gestureCooldown :=
    match config.(cfg_gestureCooldown) with
    | Some v => v
    | None => self.(gestureCooldown)
    end
|}.

(** ** Sessions *)

(** What happens to a detector between construction and the frame under
    consideration: tracker frames and configuration updates. *)
Inductive Event : Set :=
| Frame (clock : nat -> Z) (results : Results)
| Configure (config : Config).

Definition handle (self : Detector) (e : Event)
  : option (Detector * list GesturePrediction) :=
  match e with
  | Frame clock results => processHandResults self clock results
  | Configure config => Some (updateConfig self config, [])
  end.

(** Runs the events in order; the list has the deliveries of each event. *)
Fixpoint run (self : Detector) (events : list Event)
  : option (Detector * list (list GesturePrediction)) :=
  match events with
  | [] => Some (self, [])
  | e :: events' =>
      r <- handle self e ;;
      r' <- run (fst r) events' ;;
      Some (fst r', snd r :: snd r')
  end.

(** The detectors a session can be in. *)
Inductive reachable : Detector -> Prop :=
| reachable_initial : reachable initial
| reachable_handle self e self' delivered :
    reachable self ->
    handle self e = Some (self', delivered) ->
    reachable self'.

(** ** The macro-gesture detector

    The rest of [MediaPipeGestureDetector] (src/lib/mediapipe-detector.ts):
    its classifier of the eight macro gestures and its frame handler.  Its
    [Gesture] type is the eight macro gestures, which are constructors of
    [Gesture] here; its callback receives the gesture itself.  The field
    [confidenceThreshold] of the class is never read and is left out. *)
Module MacroDetector.

Record HandDetection : Set := {
  landmarks : list HandLandmark;
  handedness : Label;
  confidence : float
}.

Record Detector : Set := {
  lastGesture : Gesture;
  gestureHistory : list Gesture
}.

Definition initial : Detector := {|
  lastGesture := G_idle;
  gestureHistory := []
|}.

Definition is_negative_zero (f : float) : bool :=
  PrimFloat.is_zero f && PrimFloat.get_sign f.

Definition is_positive_zero (f : float) : bool :=
  PrimFloat.is_zero f && negb (PrimFloat.get_sign f).

(** [Math.min(...values)] as the language defines it: NaN if a value is
    NaN, else the least value, with -0 below +0; [lowest] starts at
    +Infinity. *)
Fixpoint Math_min_from (lowest : float) (values : list float) : float :=
  match values with
  | [] => lowest
  | number :: values' =>
      if PrimFloat.is_nan number then PrimFloat.nan
      else
        let lowest1 :=
          if is_negative_zero number && is_positive_zero lowest
          then PrimFloat.neg_zero else lowest in
        let lowest2 :=
          if (number <? lowest1)%float then number else lowest1 in
        Math_min_from lowest2 values'
  end.

Definition Math_min (values : list float) : float :=
  Math_min_from PrimFloat.infinity values.

(** The four tip-to-tip distances and [handWidth] are computed and never
    used. *)
Definition classifyGesture (hands : list HandDetection) : option Gesture :=
  match hands with
  | [] => Some G_idle
  | hand :: _ =>
      let landmarks := hand.(landmarks) in
      thumbTip <- landmarks !! 4 ;;
      thumbIp <- landmarks !! 3 ;;
      thumbMcp <- landmarks !! 2 ;;
      indexTip <- landmarks !! 8 ;;
      indexPip <- landmarks !! 6 ;;
      indexMcp <- landmarks !! 5 ;;
      middleTip <- landmarks !! 12 ;;
      middlePip <- landmarks !! 10 ;;
      middleMcp <- landmarks !! 9 ;;
      ringTip <- landmarks !! 16 ;;
      ringPip <- landmarks !! 14 ;;
      ringMcp <- landmarks !! 13 ;;
      pinkyTip <- landmarks !! 20 ;;
      pinkyPip <- landmarks !! 18 ;;
      pinkyMcp <- landmarks !! 17 ;;
      wrist <- landmarks !! 0 ;;
      let thumbExtended :=
        MediaPipeGestureDetector.isFingerExtended thumbTip thumbIp thumbMcp
          wrist in
      let indexExtended :=
        MediaPipeGestureDetector.isFingerExtended indexTip indexPip indexMcp
          wrist in
      let middleExtended :=
        MediaPipeGestureDetector.isFingerExtended middleTip middlePip
          middleMcp wrist in
      let ringExtended :=
        MediaPipeGestureDetector.isFingerExtended ringTip ringPip ringMcp
          wrist in
      let pinkyExtended :=
        MediaPipeGestureDetector.isFingerExtended pinkyTip pinkyPip pinkyMcp
          wrist in
      let handHeight :=
        (wrist.(y) - Math_min [thumbTip.(y); indexTip.(y); middleTip.(y);
                               ringTip.(y); pinkyTip.(y)])%float in
      let extendedFingers :=
        [thumbExtended; indexExtended; middleExtended; ringExtended;
         pinkyExtended] in
      let extendedCount := length (filter (fun b : bool => b) extendedFingers) in
      if (4 <=? extendedCount) && (handHeight >? 0.2)%float
      then Some G_hello else
      if thumbExtended && indexExtended && negb middleExtended
         && negb ringExtended && negb pinkyExtended
      then Some G_thanks else
      if negb thumbExtended && indexExtended && middleExtended
         && negb ringExtended && negb pinkyExtended
      then Some G_help else
      if (extendedCount =? 0) && (handHeight <? 0.15)%float
      then Some G_wait else
      if thumbExtended && negb indexExtended && negb middleExtended
         && negb ringExtended && negb pinkyExtended
      then Some G_yes else
      if negb thumbExtended && indexExtended && negb middleExtended
         && negb ringExtended && negb pinkyExtended
      then Some G_no else
      if (4 <=? extendedCount) && (handHeight <=? 0.2)%float
      then Some G_repeat else
      Some G_idle
  end.

Definition isGestureConsistent (self : Detector) (gesture : Gesture) : bool :=
  if length self.(gestureHistory) <? 5 then true
  else
    let recentGestures := slice (-5) self.(gestureHistory) in
    let gestureCount :=
      length (filter (fun g => Gesture_eqb g gesture) recentGestures) in
    3 <=? gestureCount.

Definition getGestureConfidence (self : Detector) (gesture : Gesture)
  : float :=
  if Nat.eqb (length self.(gestureHistory)) 0 then 0%float
  else
    let recentGestures := slice (-5) self.(gestureHistory) in
    let gestureCount :=
      length (filter (fun g => Gesture_eqb g gesture) recentGestures) in
    (number_of_nat gestureCount / number_of_nat (length recentGestures))%float.

(** [results.multiHandLandmarks.map((landmarks, index) => ...)], from
    index [index] on: every hand needs its entry of
    [results.multiHandedness]. *)
Fixpoint detections (rest : list (list HandLandmark))
    (handednesses : list Handedness) (index : nat)
  : option (list HandDetection) :=
  match rest with
  | [] => Some []
  | hand :: rest' =>
      entry <- handednesses !! index ;;
      hands <- detections rest' handednesses (S index) ;;
      Some ({| landmarks :=
                 map (fun landmark =>
                        {| x := landmark.(x); y := landmark.(y);
                           z := landmark.(z) |}) hand;
               handedness := entry.(label);
               confidence := entry.(score) |} :: hands)
  end.

(** The detector once [gesture] is pushed onto the history:
    [this.gestureHistory.push(gesture)] and the [shift] that keeps five. *)
Definition pushHistory (self : Detector) (gesture : Gesture) : Detector := {|
  lastGesture := self.(lastGesture);
  gestureHistory := push_bounded self.(gestureHistory) gesture
|}.

(** [this.lastGesture = gesture]. *)
Definition setLastGesture (self : Detector) (gesture : Gesture) : Detector := {|
  lastGesture := gesture;
  gestureHistory := self.(gestureHistory)
|}.

(** [processHandResults(results)]: the detector after the frame and the
    gestures handed to [onGestureDetected]; [None] when it throws. *)
Definition processHandResults (self : Detector) (results : Results)
  : option (Detector * list Gesture) :=
  let noHands :=
    if negb (Gesture_eqb self.(lastGesture) G_idle)
    then
      let self1 := pushHistory self G_idle in
      if isGestureConsistent self1 G_idle
      then (setLastGesture self1 G_idle, [G_idle])
      else (self1, [])
    else (self, []) in
  match results.(multiHandLandmarks) with
  | None => Some noHands
  | Some [] => Some noHands
  | Some rest =>
      hands <- detections rest results.(multiHandedness) 0 ;;
      let highConfidenceHands :=
        filter (fun hand => (hand.(confidence) >? 0.6)%float) hands in
      if Nat.eqb (length highConfidenceHands) 0 then Some (self, [])
      else
        gesture <- classifyGesture highConfidenceHands ;;
        let self1 := pushHistory self gesture in
        if isGestureConsistent self1 gesture
           && negb (Gesture_eqb gesture self1.(lastGesture))
        then Some (setLastGesture self1 gesture, [gesture])
        else Some (self1, [])
  end.

(** The frames of a session, in order, with what each delivers. *)
Fixpoint run (self : Detector) (frames : list Results)
  : option (Detector * list (list Gesture)) :=
  match frames with
  | [] => Some (self, [])
  | results :: frames' =>
      r <- processHandResults self results ;;
      r' <- run (fst r) frames' ;;
      Some (fst r', snd r :: snd r')
  end.

Inductive reachable : Detector -> Prop :=
| reachable_initial : reachable initial
| reachable_frame self results self' delivered :
    reachable self ->
    processHandResults self results = Some (self', delivered) ->
    reachable self'.

End MacroDetector.

(** ** Gestures and emotions from text

    [detectEmotionFromText] and [detectGestureFromText]
    (src/lib/mediapipe-detector.ts).  A string is the list of its UTF-16
    code units; [str] gives the code units of an ASCII literal.
    [text.toLowerCase()] is a parameter of the two functions: its Unicode
    case mapping is not modelled, and [asciiLower] is what it does on a
    text of ASCII characters. *)
Module TextCues.

Definition JSString : Set := list N.

Definition str (s : string) : JSString :=
  map N_of_ascii (list_ascii_of_string s).

(** The characters of [sub] are the first characters of [t]. *)
Fixpoint startsWith (t sub : JSString) : bool :=
  match sub, t with
  | [], _ => true
  | _ :: _, [] => false
  | a :: sub', b :: t' => N.eqb a b && startsWith t' sub'
  end.

(** [t.includes(sub)]: [sub] occurs in [t] at some position. *)
Fixpoint includes (t sub : JSString) : bool :=
  startsWith t sub
  || match t with
     | [] => false
     | _ :: t' => includes t' sub
     end.

Definition asciiLower (t : JSString) : JSString :=
  map (fun c => if (65 <=? c)%N && (c <=? 90)%N then (c + 32)%N else c) t.

Inductive Emotion : Set :=
| neutral | happy | sad | angry | surprised | confused.

(** [Object.entries(keywordMap)]: the entries in the order they are
    written. *)
Definition keywordMap : list (JSString * Gesture) :=
  [(str "hello", G_hello);
   (str "hi", G_hello);
   (str "hey", G_hello);
   (str "thanks", G_thanks);
   (str "thank", G_thanks);
   (str "help", G_help);
   (str "wait", G_wait);
   (str "repeat", G_repeat);
   (str "yes", G_yes);
   (str "no", G_no);
   (str "please", G_help);
   (str "urgent", G_help)].

(** The [for ... of] loop over the entries: the gesture of the first
    keyword that [lowerText] includes. *)
Fixpoint firstKeyword (lowerText : JSString)
    (entries : list (JSString * Gesture)) : option Gesture :=
  match entries with
  | [] => None
  | (keyword, gesture) :: entries' =>
      if includes lowerText keyword then Some gesture
      else firstKeyword lowerText entries'
  end.

Section WithLowerCase.
Variable toLowerCase : JSString -> JSString.

Definition detectEmotionFromText (text : JSString) : Emotion :=
  let lowerText := toLowerCase text in
  if includes lowerText (str "happy") || includes lowerText (str "great")
     || includes lowerText (str "good")
     || includes lowerText (str "wonderful")
     || includes lowerText (str "excellent")
     || includes lowerText (str "amazing")
  then happy
  else if includes lowerText (str "sad") || includes lowerText (str "sorry")
     || includes lowerText (str "unfortunately")
     || includes lowerText (str "bad")
     || includes lowerText (str "terrible")
     || includes lowerText (str "awful")
  then sad
  else if includes lowerText (str "angry") || includes lowerText (str "mad")
     || includes lowerText (str "furious")
     || includes lowerText (str "upset")
     || includes lowerText (str "annoyed")
     || includes lowerText (str "frustrated")
  then angry
  else if includes lowerText (str "wow")
     || includes lowerText (str "surprised")
     || includes lowerText (str "amazing")
     || includes lowerText (str "incredible")
     || includes lowerText (str "unbelievable")
     || includes lowerText (str "shocked")
  then surprised
  else if includes lowerText (str "confused")
     || includes lowerText (str "unclear")
     || includes lowerText (str "don't understand")
     || includes lowerText (str "puzzled")
     || includes lowerText (str "lost")
     || includes lowerText (str "unclear")
  then confused
  else neutral.

Definition detectGestureFromText (text : JSString) : Gesture :=
  let lowerText := toLowerCase text in
  match firstKeyword lowerText keywordMap with
  | Some gesture => gesture
  | None =>
      if includes lowerText (str "can you repeat")
         || includes lowerText (str "say again")
      then G_repeat
      else if includes lowerText (str "wait a moment")
         || includes lowerText (str "hold on")
      then G_wait
      else if includes lowerText (str "i need help")
         || includes lowerText (str "assistance")
      then G_help
      else G_idle
  end.

End WithLowerCase.

(** The text the real-time translator shows for a gesture of the macro
    detector ([gestureToText] of [RealTimeTranslator],
    src/unnamed/part_000). *)
Definition gestureToText (g : Gesture) : JSString :=
  match g with
  | G_hello => str "Hello! How are you?"
  | G_thanks => str "Thank you very much!"
  | G_help => str "I need help, please."
  | G_wait => str "Please wait a moment."
  | G_repeat => str "Can you repeat that?"
  | G_yes => str "Yes, I understand."
  | G_no => str "No, I don't think so."
  | _ => str ""
  end.

End TextCues.

(** ** Frame skipping

    The animation-frame callback [processFrame] of [ModelDetector]
    (src/lib/real-time-gesture-detector.ts), with the fields it reads and
    writes.  [frameCount] and [config.frameSkip] are integers. *)
Module ModelDetector.

Record Detector : Set := {
  isDetecting : bool;
  frameCount : Z;
  frameSkip : Z
}.

(** [a % b === 0] on integers: the remainder has the sign of [a], and
    [a % 0] is NaN, which is not 0. *)
Definition remainderIsZero (a b : Z) : bool :=
  if (b =? 0)%Z then false else (Z.rem a b =? 0)%Z.

(** One call of [processFrame]: the detector after it, whether it called
    [captureAndProcessFrame], and whether it asked for the next animation
    frame. *)
Definition processFrame (self : Detector) : Detector * bool * bool :=
  if negb self.(isDetecting) then (self, false, false)
  else
    let self1 := {|
      isDetecting := self.(isDetecting);
      frameCount := (self.(frameCount) + 1)%Z;
      frameSkip := self.(frameSkip) |} in
    (self1, remainderIsZero self1.(frameCount) self1.(frameSkip), true).

(** Up to [n] animation frames in a row: the callback runs again only if
    the call before asked for it.  The list tells for each call of
    [processFrame] whether it called [captureAndProcessFrame].  What that
    call does (it returns at once while [video.readyState] is not 4) and
    the calls of it from the retry timer of [sendPredictionRequest] are not
    part of this model. *)
Fixpoint animate (n : nat) (self : Detector) : Detector * list bool :=
  match n with
  | O => (self, [])
  | S n' =>
      let '(self1, called, again) := processFrame self in
      if again
      then let (self2, calls) := animate n' self1 in
           (self2, called :: calls)
      else (self1, [])
  end.

End ModelDetector.

(** ** Notions used to state the properties *)

(** The five flags [thumbExtended], [indexExtended], [middleExtended],
    [ringExtended] and [pinkyExtended] that [detectASLLetter] computes, in
    that order. *)
Definition fingerExtensions (landmarks : list HandLandmark)
  : option (bool * bool * bool * bool * bool) :=
  thumbTip <- landmarks !! 4 ;;
  indexTip <- landmarks !! 8 ;;
  middleTip <- landmarks !! 12 ;;
  ringTip <- landmarks !! 16 ;;
  pinkyTip <- landmarks !! 20 ;;
  thumbBase <- landmarks !! 1 ;;
  indexBase <- landmarks !! 5 ;;
  middleBase <- landmarks !! 9 ;;
  ringBase <- landmarks !! 13 ;;
  pinkyBase <- landmarks !! 17 ;;
  l2 <- landmarks !! 2 ;;
  l6 <- landmarks !! 6 ;;
  l10 <- landmarks !! 10 ;;
  l14 <- landmarks !! 14 ;;
  l18 <- landmarks !! 18 ;;
  Some (isFingerExtended thumbTip thumbBase l2,
        isFingerExtended indexTip indexBase l6,
        isFingerExtended middleTip middleBase l10,
        isFingerExtended ringTip ringBase l14,
        isFingerExtended pinkyTip pinkyBase l18).

(** The number of hands among [rest] (hands [i], [i + 1], ... of the frame)
    that the loop of [processHandResults] does not skip. *)
Fixpoint acceptedHands (threshold : float) (rest : list (list HandLandmark))
    (handednesses : list Handedness) (i : nat) : nat :=
  match rest with
  | [] => 0
  | _ :: rest' =>
      match handednesses !! i with
      | Some handedness =>
          if (handedness.(score) <? threshold)%float then 0 else 1
      | None => 0
      end + acceptedHands threshold rest' handednesses (S i)
  end.

(** [gesture] is the last stable gesture and, unless the history has at
    most [c] entries, one of its [c + 1] most recent entries. *)
Definition settled (self : Detector) (gesture : Gesture) (c : nat) : Prop :=
  lastStableGesture self = gesture /\
  (length (gestureHistory self) <= c \/
   In gesture
     (skipn (length (gestureHistory self) - S c) (gestureHistory self))).

(** Successive history updates, each with its clock reading; the result
    lists what each update delivers. *)
Fixpoint feed (self : Detector) (inputs : list (Z * Gesture))
  : Detector * list (list GesturePrediction) :=
  match inputs with
  | [] => (self, [])
  | (now, gesture) :: inputs' =>
      let (self', delivered) := updateGestureHistory self now gesture in
      let (self'', deliveries) := feed self' inputs' in
      (self'', delivered :: deliveries)
  end.

(** The hands of a frame; a missing [multiHandLandmarks] has none. *)
Definition handsOf (results : Results) : list (list HandLandmark) :=
  match results.(multiHandLandmarks) with
  | Some hands => hands
  | None => []
  end.

(** A frame as the tracker produces it: a handedness entry for every hand
    and at least the 21 landmarks of a skeleton in every hand. *)
Definition wellFormed (results : Results) : Prop :=
  length (handsOf results) <= length results.(multiHandedness) /\
  forall landmarks, In landmarks (handsOf results) -> 21 <= length landmarks.

(** A frame with exactly one hand, which passes the confidence threshold
    0.7 and has the thumb as its only extended finger. *)
Definition fistThumbFrame (e : Event) : Prop :=
  exists clock results landmarks handedness,
    e = Frame clock results /\
    results.(multiHandLandmarks) = Some [landmarks] /\
    results.(multiHandedness) !! 0 = Some handedness /\
    (handedness.(score) <? 0.7)%float = false /\
    fingerExtensions landmarks = Some (true, false, false, false, false).

(** Each gesture of the list differs from the one before it, the first
    from [previous]. *)
Fixpoint changes (previous : Gesture) (gestures : list Gesture) : Prop :=
  match gestures with
  | [] => True
  | g :: gestures' => g <> previous /\ changes g gestures'
  end.

(** The last [n] entries of a list. *)
Definition lastn {A : Type} (n : nat) (l : list A) : list A :=
  skipn (length l - n) l.

(** The gestures whose rule in [classifyGesture] can fire. *)
Definition classifiable : list Gesture :=
  [G_1; G_2; G_3; G_4; G_5; G_a; G_c; G_e; G_f; G_i; G_l; G_m; G_o; G_q;
   G_r; G_hello; G_thanks; G_no; G_help; G_idle].

(** A frame reports at least one hand. *)
Definition hasHands (e : Event) : Prop :=
  match e with
  | Frame _ results => handsOf results <> []
  | Configure _ => True
  end.

Definition withCooldown (c : Z) : Config := {|
  cfg_confidenceThreshold := None;
  cfg_stabilityThreshold := None;
  cfg_gestureCooldown := Some c
|}.

(** [lowerText] includes one of the words. *)
Definition mentions (lowerText : TextCues.JSString) (words : list string)
  : bool :=
  existsb (fun w => TextCues.includes lowerText (TextCues.str w)) words.

(** The landmarks of the first hand, from hand [i] on, whose handedness
    entry has a score above 0.6. *)
Fixpoint firstConfident (rest : list (list HandLandmark))
    (handednesses : list Handedness) (i : nat) : option (list HandLandmark) :=
  match rest with
  | [] => None
  | landmarks :: rest' =>
      match handednesses !! i with
      | Some entry =>
          if (entry.(score) >? 0.6)%float then Some landmarks
          else firstConfident rest' handednesses (S i)
      | None => firstConfident rest' handednesses (S i)
      end
  end.

(** The later of two configuration updates wins, field by field. *)
Definition mergeConfig (first second : Config) : Config := {|
  cfg_confidenceThreshold :=
    match second.(cfg_confidenceThreshold) with
    | Some v => Some v
    | None => first.(cfg_confidenceThreshold)
    end;
  cfg_stabilityThreshold :=
    match second.(cfg_stabilityThreshold) with
    | Some v => Some v
    | None => first.(cfg_stabilityThreshold)
    end;
  cfg_gestureCooldown :=
    match second.(cfg_gestureCooldown) with
    | Some v => Some v
    | None => first.(cfg_gestureCooldown)
    end
|}.

(** ** Sample inputs *)

Definition point (a b c : float) : HandLandmark := {| x := a; y := b; z := c |}.

Definition origin : HandLandmark := point 0 0 0.

(** A skeleton collapsed to one point: no finger is extended and the four
    finger tips coincide. *)
Definition zeroHand : list HandLandmark := repeat origin 21.

(** A fist with the thumb stretched along the x axis. *)
Definition fistThumb : list HandLandmark :=
  [origin; origin; point 1 0 0; point 1.5 0 0; point 2 0 0] ++ repeat origin 16.

(** A finger as its four landmarks (base, two joints, tip), a hand as the
    wrist and five fingers. *)
Definition finger (base mid tip : HandLandmark) : list HandLandmark :=
  [base; mid; mid; tip].

Definition hand (wrist : HandLandmark) (thumb index middle ring pinky
    : list HandLandmark) : list HandLandmark :=
  wrist :: thumb ++ index ++ middle ++ ring ++ pinky.

(** A finger stretched along the y axis and a finger folded back onto its
    base, both at abscissa [a]. *)
Definition straight (a : float) : list HandLandmark :=
  finger (point a 0 0) (point a 1 0) (point a 2 0).

Definition bent (a : float) : list HandLandmark :=
  finger (point a 0 0) (point a 1 0) (point a 0 0).

(** A hand with the given fingers stretched, the fingers one unit apart and
    the wrist under the index finger. *)
Definition flagsHand (thumb index middle ring pinky : bool)
  : list HandLandmark :=
  let f (b : bool) (a : float) := if b then straight a else bent a in
  hand (point 1 0 0) (f thumb 0%float) (f index 1%float) (f middle 2%float)
    (f ring 3%float) (f pinky 4%float).

(** A hand that the classifier maps to [g], for each classifiable [g]. *)
Definition sampleHandFor (g : Gesture) : list HandLandmark :=
  match g with
  | G_1 => flagsHand false true false false false
  | G_2 => flagsHand false true true false false
  | G_3 => flagsHand false true true true false
  | G_4 => flagsHand false true true true true
  | G_5 => flagsHand true true true true true
  | G_a => flagsHand true false false false false
  | G_e => flagsHand false false false false false
  | G_f =>
      hand (point 1 0 0) (bent 1) (bent 1) (straight 2) (bent 3) (bent 4)
  | G_i => flagsHand false false false false true
  | G_l => flagsHand true true false false false
  | G_m =>
      hand (point 1 0 0)
        (finger (point 1 0 5) (point 1 1 5) (point 1 0 5)) (bent 1)
        (finger (point 1.0625 0 0) (point 1.0625 1 0) (point 1.0625 2 0))
        (bent 3) (bent 4)
  | G_o =>
      hand (point 1 0 0)
        (finger (point 1.0625 0 5) (point 1.0625 1 5) (point 1.0625 0 5))
        (bent 1) (straight 2) (bent 3) (bent 4)
  | G_q => flagsHand true false false false true
  | G_r =>
      hand (point 1 0 0) (bent 0) (bent 1) (bent 1) (straight 3) (bent 4)
  | G_hello =>
      hand (point 5 0 0) (bent 0) (bent 1) (bent 2) (straight 3) (bent 4)
  | G_thanks => flagsHand true false false true false
  | G_no =>
      hand (point 1 0 0)
        (finger (point 0 0 0) (point 0 1 0) (point 0 0.5 0))
        (bent 1) (bent 2) (straight 3) (bent 4)
  | G_help => flagsHand false true false true false
  | G_idle => flagsHand false false false true false
  | _ => repeat (point 0 0 0) 21
  end.

(** A hand held up, the wrist at the bottom of the frame: a stretched
    finger reaches the top, a folded one stays below its base. *)
Definition raisedHand (thumb index middle ring pinky : bool)
  : list HandLandmark :=
  let f (b : bool) (a : float) :=
    finger (point a 5 0) (point a 4 0) (if b then point a 0 0 else point a 6 0)
  in
  hand (point 0 10 0) (f thumb 0%float) (f index 1%float) (f middle 2%float)
    (f ring 3%float) (f pinky 4%float).

(** A hand that the macro classifier maps to [g], for each macro gesture. *)
Definition macroHandFor (g : Gesture) : list HandLandmark :=
  match g with
  | G_hello => raisedHand true true true true true
  | G_thanks => raisedHand true true false false false
  | G_help => raisedHand false true true false false
  | G_yes => raisedHand true false false false false
  | G_no => raisedHand false true false false false
  | G_repeat => flagsHand true true true true true
  | G_idle => raisedHand false true true true false
  | _ => repeat (point 0 0 0) 21
  end.

(** A frame in which every listed hand is reported with the same score. *)
Definition frameOf (hands : list (list HandLandmark)) (s : float) : Results := {|
  multiHandLandmarks := Some hands;
  multiHandedness := map (fun _ => {| label := Right; score := s |}) hands
|}.

(** A frame with two hands: a collapsed skeleton reported with score 0.5,
    below the default confidence threshold 0.7, then a fist with the thumb
    out reported with score 0.9. *)
Definition unsureThenFistThumb : Results := {|
  multiHandLandmarks := Some [zeroHand; fistThumb];
  multiHandedness :=
    [{| label := Left; score := 0.5 |}; {| label := Right; score := 0.9 |}]
|}.

Definition noon : nat -> Z := fun _ => 43200000%Z.

(** The detector after three frames of ["a"] at [noon]. *)
Definition afterThreeA : Detector := {|
  gestureHistory := [G_a; G_a; G_a];
  lastStableGesture := G_a;
  stabilityThreshold := 3;
  confidenceThreshold := 0.7;
  lastGestureTime := 43200000;
  gestureCooldown := 1000
|}.

Definition withThreshold (n : Z) : Config := {|
  cfg_confidenceThreshold := None;
  cfg_stabilityThreshold := Some n;
  cfg_gestureCooldown := None
|}.

(** * Properties *)

(** ** Lists, slices and the bounded push *)

Lemma Gesture_eqb_eq (g1 g2 : Gesture) : Gesture_eqb g1 g2 = true <-> g1 = g2.
Proof.
  unfold Gesture_eqb. destruct (Gesture_eq_dec g1 g2); split; congruence.
Qed.

Lemma Gesture_eqb_refl (g : Gesture) : Gesture_eqb g g = true.
Proof. now apply Gesture_eqb_eq. Qed.

Lemma Gesture_eqb_neq (g1 g2 : Gesture) :
  Gesture_eqb g1 g2 = false <-> g1 <> g2.
Proof.
  unfold Gesture_eqb. destruct (Gesture_eq_dec g1 g2); split; congruence.
Qed.

(** A negative start within the array drops all but the last [n] entries. *)
Lemma slice_last {A : Type} (n : Z) (l : list A) :
  (1 <= n <= Z.of_nat (length l))%Z ->
  slice (- n) l = skipn (length l - Z.to_nat n) l.
Proof.
  intros Hn. unfold slice.
  destruct (Z.ltb_spec (- n) 0); [|lia].
  f_equal. lia.
Qed.

(** A negative start beyond the array keeps the whole array. *)
Lemma slice_short {A : Type} (n : Z) (l : list A) :
  (1 <= n)%Z -> (Z.of_nat (length l) <= n)%Z -> slice (- n) l = l.
Proof.
  intros Hn Hl. unfold slice.
  destruct (Z.ltb_spec (- n) 0); [|lia].
  replace (Z.to_nat (Z.max (Z.of_nat (length l) + - n) 0)) with 0 by lia.
  reflexivity.
Qed.

Lemma length_slice_5 {A : Type} (l : list A) :
  length (slice (-5) l) = Nat.min 5 (length l).
Proof.
  destruct (Nat.le_gt_cases (length l) 5) as [Hle|Hgt].
  - rewrite (slice_short 5) by lia. lia.
  - rewrite (slice_last 5) by lia. rewrite length_skipn. lia.
Qed.

Lemma slice_5_skipn {A : Type} (l : list A) :
  slice (-5) l = skipn (length l - Nat.min 5 (length l)) l.
Proof.
  destruct (Nat.le_gt_cases (length l) 5) as [Hle|Hgt].
  - rewrite (slice_short 5) by lia.
    now replace (length l - Nat.min 5 (length l)) with 0 by lia.
  - rewrite (slice_last 5) by lia. f_equal. lia.
Qed.

(** The entries of [skipn k l] are the entries of [l] at the indices from
    [k] on. *)
Lemma forallb_skipn_index {A : Type} (p : A -> bool) (k : nat) (l : list A) :
  forallb p (skipn k l) = true <->
  (forall i v, k <= i -> l !! i = Some v -> p v = true).
Proof.
  rewrite forallb_forall. split.
  - intros H i v Hk Hi. apply H.
    apply (nth_error_In _ (i - k)). rewrite nth_error_skipn.
    now replace (k + (i - k)) with i by lia.
  - intros H v Hv. apply In_nth_error in Hv as [j Hj].
    rewrite nth_error_skipn in Hj. apply (H (k + j)); [lia|exact Hj].
Qed.

Lemma In_skipn_le {A : Type} (v : A) (a b : nat) (l : list A) :
  b <= a -> In v (skipn a l) -> In v (skipn b l).
Proof.
  intros Hba Hin. apply In_nth_error in Hin as [j Hj].
  rewrite nth_error_skipn in Hj.
  apply (nth_error_In _ (a - b + j)). rewrite nth_error_skipn.
  now replace (b + (a - b + j)) with (a + j) by lia.
Qed.

Lemma length_push_bounded {A : Type} (l : list A) (v : A) :
  length (push_bounded l v) =
  if 5 <=? length l then length l else S (length l).
Proof.
  unfold push_bounded. rewrite last_length.
  destruct (Nat.leb_spec 5 (length l));
    destruct (Nat.ltb_spec 5 (S (length l))); try lia.
  - destruct l; simpl in *; [lia|]. rewrite last_length. reflexivity.
  - apply last_length.
Qed.

Lemma push_bounded_full {A : Type} (l : list A) (v : A) :
  5 <= length l -> push_bounded l v = tl l ++ [v].
Proof.
  intros Hl. unfold push_bounded. rewrite last_length.
  destruct (Nat.ltb_spec 5 (S (length l))); [|lia].
  destruct l; simpl in *; [lia|reflexivity].
Qed.

Lemma push_bounded_room {A : Type} (l : list A) (v : A) :
  length l < 5 -> push_bounded l v = l ++ [v].
Proof.
  intros Hl. unfold push_bounded. rewrite last_length.
  destruct (Nat.ltb_spec 5 (S (length l))); [lia|reflexivity].
Qed.

Lemma push_bounded_nonempty {A : Type} (l : list A) (v : A) :
  1 <= length (push_bounded l v).
Proof.
  rewrite length_push_bounded. destruct (Nat.leb_spec 5 (length l)); lia.
Qed.

(** The pushed entry is the most recent one. *)
Lemma push_bounded_last {A : Type} (l : list A) (v : A) :
  push_bounded l v !! (length (push_bounded l v) - 1) = Some v.
Proof.
  destruct (Nat.le_gt_cases 5 (length l)) as [Hle|Hgt].
  - rewrite push_bounded_full by exact Hle.
    rewrite last_length, nth_error_app2 by lia.
    replace (S (length (tl l)) - 1 - length (tl l)) with 0 by lia.
    reflexivity.
  - rewrite push_bounded_room by exact Hgt.
    rewrite last_length, nth_error_app2 by lia.
    replace (S (length l) - 1 - length l) with 0 by lia.
    reflexivity.
Qed.

(** ** What a frame leaves alone *)

Lemma updateGestureHistory_history self now gesture :
  gestureHistory (fst (updateGestureHistory self now gesture)) =
  push_bounded (gestureHistory self) gesture.
Proof.
  unfold updateGestureHistory.
  destruct (cooldownGate _ _ _); [reflexivity|].
  destruct (_ && _); reflexivity.
Qed.

Lemma updateGestureHistory_config self now gesture :
  let self' := fst (updateGestureHistory self now gesture) in
  stabilityThreshold self' = stabilityThreshold self /\
  confidenceThreshold self' = confidenceThreshold self /\
  gestureCooldown self' = gestureCooldown self.
Proof.
  unfold updateGestureHistory.
  destruct (cooldownGate _ _ _); [now simpl|].
  destruct (_ && _); now simpl.
Qed.

(** A property of detectors that every history update keeps is kept by the
    loop over the hands of a frame. *)
Lemma processHands_preserves (P : Detector -> Prop) clock :
  (forall self now gesture,
     P self -> P (fst (updateGestureHistory self now gesture))) ->
  forall rest handednesses i self r,
    P self ->
    processHands self clock rest handednesses i = Some r ->
    P (fst r).
Proof.
  intros Hstep rest handednesses.
  induction rest as [|landmarks rest IH]; intros i self r HP Hrun; simpl in Hrun.
  - injection Hrun as <-. exact HP.
  - destruct (handednesses !! i) as [handedness|]; simpl in Hrun; [|discriminate].
    destruct (PrimFloat.ltb _ _).
    + eapply IH; eassumption.
    + destruct (classifyGesture _ _) as [gesture|]; simpl in Hrun; [|discriminate].
      pose proof (Hstep self (clock i) gesture HP) as HP'.
      destruct (updateGestureHistory self (clock i) gesture) as [self' delivered].
      destruct (processHands self' _ _ _ _) as [r'|] eqn:Hrest;
        simpl in Hrun; [|discriminate].
      injection Hrun as <-. simpl. eapply IH; eassumption.
Qed.

Lemma reachable_history_bounded self :
  reachable self -> length (gestureHistory self) <= 5.
Proof.
  induction 1 as [|self e self' delivered Hreach IH Hhandle].
  - simpl. lia.
  - destruct e as [clock results|config]; simpl in Hhandle.
    + unfold processHandResults in Hhandle.
      destruct (multiHandLandmarks results) as [[|landmarks rest]|].
      * injection Hhandle as <- _. simpl. lia.
      * apply (processHands_preserves
                 (fun d => length (gestureHistory d) <= 5)) in Hhandle;
          [exact Hhandle| |exact IH].
        intros d now gesture Hd. rewrite updateGestureHistory_history.
        rewrite length_push_bounded.
        destruct (Nat.leb_spec 5 (length (gestureHistory d))); lia.
      * injection Hhandle as <- _. simpl. lia.
    + injection Hhandle as <- _. exact IH.
Qed.

Lemma processHands_config clock handednesses rest i self r :
  processHands self clock rest handednesses i = Some r ->
  stabilityThreshold (fst r) = stabilityThreshold self /\
  confidenceThreshold (fst r) = confidenceThreshold self /\
  gestureCooldown (fst r) = gestureCooldown self.
Proof.
  intros Hrun.
  apply (processHands_preserves
           (fun d => stabilityThreshold d = stabilityThreshold self /\
                     confidenceThreshold d = confidenceThreshold self /\
                     gestureCooldown d = gestureCooldown self)
           clock) in Hrun; [exact Hrun| |now repeat split].
  intros d now g (H1 & H2 & H3).
  destruct (updateGestureHistory_config d now g) as (H1' & H2' & H3').
  cbn zeta in *. repeat split; congruence.
Qed.

(** The loop over a list of hands is the loop over its front part followed
    by the loop over the remaining hands, which starts from the detector the
    front part leaves and at the index the front part ends at. *)
Lemma processHands_app clock handednesses front :
  forall rest i self,
    processHands self clock (front ++ rest) handednesses i =
    (r1 <- processHands self clock front handednesses i ;;
     r2 <- processHands (fst r1) clock rest handednesses (i + length front) ;;
     Some (fst r2, snd r1 ++ snd r2)).
Proof.
  induction front as [|landmarks front IH]; intros rest i self.
  - cbn [app processHands bind fst snd length]. rewrite Nat.add_0_r.
    now destruct (processHands self clock rest handednesses i) as [[? ?]|].
  - cbn [app processHands length].
    destruct (handednesses !! i) as [handedness|]; cbn [bind]; [|reflexivity].
    replace (i + S (length front)) with (S i + length front) by lia.
    destruct (PrimFloat.ltb _ _); [apply IH|].
    destruct (classifyGesture _ _) as [gesture|]; cbn [bind]; [|reflexivity].
    destruct (updateGestureHistory self (clock i) gesture)
      as [self1 delivered].
    rewrite IH.
    destruct (processHands self1 clock front handednesses (S i)) as [r1|];
      cbn [bind fst snd]; [|reflexivity].
    destruct (processHands (fst r1) clock rest handednesses
                (S i + length front)) as [r2|];
      cbn [bind fst snd]; [|reflexivity].
    now rewrite app_assoc.
Qed.

(** A list around its entry [j]. *)
Lemma split_at {A : Type} (l : list A) (j : nat) (a : A) :
  l !! j = Some a ->
  l = firstn j l ++ a :: skipn (S j) l /\ length (firstn j l) = j.
Proof.
  revert j. induction l as [|b l IH]; intros [|j] Hj; try discriminate.
  - injection Hj as ->. now split.
  - cbn [nth_error] in Hj. destruct (IH j Hj) as [Hsplit Hlen].
    change (firstn (S j) (b :: l)) with (b :: firstn j l).
    change (skipn (S (S j)) (b :: l)) with (skipn (S j) l).
    cbn [app length]. split; [f_equal; exact Hsplit|].
    now rewrite Hlen.
Qed.

(** ** The history buffer *)

(** C7: in every detector a session can reach the history holds at most
    five gestures, and a history update keeps that bound: the history after
    the update is the bounded push of the new gesture, it has at most five
    entries, a full history loses exactly its oldest entry and gains the new
    gesture at the recent end, and a shorter history only gains the new
    gesture. *)
Theorem history_capacity_five (self : Detector) (now : Z) (gesture : Gesture) :
  reachable self ->
  let before := gestureHistory self in
  let after := gestureHistory (fst (updateGestureHistory self now gesture)) in
  length before <= 5 /\
  length after <= 5 /\
  (length before = 5 -> after = tl before ++ [gesture]) /\
  (length before < 5 -> after = before ++ [gesture]).
Proof.
  intros Hreach before after.
  pose proof (reachable_history_bounded self Hreach) as Hlen.
  subst before after. rewrite updateGestureHistory_history.
  repeat split.
  - exact Hlen.
  - rewrite length_push_bounded.
    destruct (Nat.leb_spec 5 (length (gestureHistory self))); lia.
  - intros H5. apply push_bounded_full. lia.
  - intros Hlt. now apply push_bounded_room.
Qed.

Lemma history_capacity_five_witness :
  reachable initial /\
  gestureHistory (fst (updateGestureHistory initial 0 G_a)) = [G_a].
Proof.
  split; [constructor|].
  destruct (history_capacity_five initial 0 G_a reachable_initial)
    as (_ & _ & _ & Hroom).
  apply Hroom. simpl. lia.
Defined.

(** ** Stability *)

(** A stable gesture fills the last [stabilityThreshold] entries. *)
Lemma isGestureStable_recent self gesture :
  (1 <= stabilityThreshold self)%Z ->
  isGestureStable self gesture = true ->
  (stabilityThreshold self <= Z.of_nat (length (gestureHistory self)))%Z /\
  forall v,
    In v (skipn (length (gestureHistory self)
                 - Z.to_nat (stabilityThreshold self))
            (gestureHistory self)) ->
    v = gesture.
Proof.
  intros Hthr. unfold isGestureStable.
  destruct (Z.ltb_spec (Z.of_nat (length (gestureHistory self)))
              (stabilityThreshold self)) as [Hshort|Hlong]; [discriminate|].
  rewrite slice_last by lia. rewrite forallb_forall. intros Hall.
  split; [exact Hlong|]. intros v Hv. now apply Gesture_eqb_eq, Hall.
Qed.

(** C1: with a stability threshold of at least one, a gesture is stable
    exactly when the history holds at least [stabilityThreshold] entries
    and each of its most recent [stabilityThreshold] entries is that
    gesture; a history shorter than the threshold is never stable.  This
    holds in particular for the history right after the push of a history
    update, which is where [isStable] is computed. *)
Theorem isGestureStable_spec (self : Detector) (gesture : Gesture) :
  (1 <= stabilityThreshold self)%Z ->
  let history := gestureHistory self in
  let len := Z.of_nat (length history) in
  (isGestureStable self gesture = true <->
   (stabilityThreshold self <= len)%Z /\
   (forall i : nat,
      (len - stabilityThreshold self <= Z.of_nat i < len)%Z ->
      history !! i = Some gesture)) /\
  ((len < stabilityThreshold self)%Z -> isGestureStable self gesture = false).
Proof.
  intros Hthr history len. subst history len. unfold isGestureStable.
  destruct (Z.ltb_spec (Z.of_nat (length (gestureHistory self)))
              (stabilityThreshold self)) as [Hshort|Hlong].
  - split; [|reflexivity]. split; [discriminate|]. intros [Hle _]. lia.
  - split; [|lia]. rewrite slice_last by lia. rewrite forallb_skipn_index.
    split.
    + intros Hall. split; [exact Hlong|]. intros i Hi.
      destruct (gestureHistory self !! i) as [v|] eqn:Hv.
      * f_equal. apply Gesture_eqb_eq. apply (Hall i); [lia|exact Hv].
      * apply nth_error_None in Hv. lia.
    + intros [_ Hall] i v Hi Hv. apply Gesture_eqb_eq.
      assert (i < length (gestureHistory self))
        by (apply nth_error_Some; congruence).
      rewrite Hall in Hv by lia. congruence.
Qed.

Lemma isGestureStable_spec_witness :
  (1 <= stabilityThreshold initial)%Z /\
  isGestureStable (pushHistory initial G_a) G_a = false /\
  isGestureStable
    (pushHistory (pushHistory (pushHistory initial G_a) G_a) G_a) G_a = true.
Proof.
  split; [simpl; lia|]. split.
  - apply (isGestureStable_spec (pushHistory initial G_a) G_a);
      simpl; lia.
  - apply (isGestureStable_spec
             (pushHistory (pushHistory (pushHistory initial G_a) G_a) G_a) G_a);
      [simpl; lia|].
    split; [simpl; lia|].
    intros [|[|[|i]]] Hi; try reflexivity. simpl in Hi. lia.
Defined.

(** Below the range of the setting: with a threshold of 0, [slice(-0)] is
    the whole history, so one differing entry anywhere makes the gesture
    unstable. *)
Example isGestureStable_threshold_zero :
  isGestureStable
    (pushHistory (pushHistory (updateConfig initial (withThreshold 0)) G_a)
       G_b) G_b = false.
Proof. reflexivity. Qed.

(** ** Emission *)

(** The detector and the prediction of an emitting history update. *)
Lemma updateGestureHistory_emit self now gesture :
  isGestureStable (pushHistory self gesture) gesture = true ->
  gesture <> lastStableGesture self ->
  exists self',
    updateGestureHistory self now gesture =
      (self',
       [Build_GesturePrediction gesture (calculateConfidence self' gesture)
          (gestureToText gesture) true]) /\
    gestureHistory self' = push_bounded (gestureHistory self) gesture /\
    lastStableGesture self' = gesture /\
    lastGestureTime self' = now.
Proof.
  intros Hstable Hnew. unfold updateGestureHistory, cooldownGate.
  rewrite Hstable. rewrite andb_false_r. simpl.
  apply Gesture_eqb_neq in Hnew. rewrite Hnew. simpl.
  eexists. split; [reflexivity|]. now simpl.
Qed.

Lemma updateGestureHistory_emit_eq self now gesture :
  isGestureStable (pushHistory self gesture) gesture = true ->
  gesture <> lastStableGesture self ->
  let self' := markStable (pushHistory self gesture) gesture now in
  updateGestureHistory self now gesture =
    (self',
     [Build_GesturePrediction gesture (calculateConfidence self' gesture)
        (gestureToText gesture) true]).
Proof.
  intros Hstable Hnew. unfold updateGestureHistory, cooldownGate.
  rewrite Hstable. rewrite andb_false_r. simpl.
  apply Gesture_eqb_neq in Hnew. now rewrite Hnew.
Qed.

Lemma updateGestureHistory_quiet self now gesture :
  isGestureStable (pushHistory self gesture) gesture = false \/
  gesture = lastStableGesture self ->
  updateGestureHistory self now gesture = (pushHistory self gesture, []).
Proof.
  intros Hquiet. unfold updateGestureHistory.
  destruct (cooldownGate _ _ _); [reflexivity|].
  destruct Hquiet as [Hun| ->].
  - now rewrite Hun.
  - simpl. rewrite Gesture_eqb_refl. now rewrite andb_false_r.
Qed.

Lemma processHands_single self clock landmarks handedness handednesses gesture :
  handednesses !! 0 = Some handedness ->
  (handedness.(score) <? self.(confidenceThreshold))%float = false ->
  classifyGesture landmarks handedness.(label) = Some gesture ->
  processHands self clock [landmarks] handednesses 0 =
  Some (updateGestureHistory self (clock 0) gesture).
Proof.
  intros Hh Hscore Hclass. cbn [processHands]. rewrite Hh. cbn [bind].
  rewrite Hscore, Hclass. cbn [bind]. destruct (updateGestureHistory self (clock 0) gesture). simpl.
  now rewrite app_nil_r.
Qed.

(** C2: in a frame with any number of hands, take any hand [j] that passes
    the confidence threshold and is classified as [gesture].  If the loop
    throws before it reaches hand [j], the frame throws.  Otherwise the
    loop reaches hand [j] with a detector [s], having delivered [before];
    the frame then runs the history update of hand [j] on [s] and goes on
    with the later hands from the detector [s'] that this update leaves, so
    that it delivers [before], then what the update delivers, then what the
    later hands deliver.  The update of hand [j] delivers a prediction
    exactly when the gesture is stable after the push and differs from
    [lastStableGesture]; the delivered prediction carries that gesture, and
    the detector then has [lastStableGesture] set to it and
    [lastGestureTime] set to the clock reading; without a delivery both
    fields keep their values; a gesture equal to [lastStableGesture] is
    never delivered. *)
Theorem emission_iff_stable_and_changed
    (self : Detector) (clock : nat -> Z) (results : Results) (j : nat)
    (landmarks : list HandLandmark) (handedness : Handedness)
    (gesture : Gesture) :
  handsOf results !! j = Some landmarks ->
  multiHandedness results !! j = Some handedness ->
  (handedness.(score) <? self.(confidenceThreshold))%float = false ->
  classifyGesture landmarks handedness.(label) = Some gesture ->
  match
    processHands self clock (firstn j (handsOf results))
      (multiHandedness results) 0
  with
  | None => processHandResults self clock results = None
  | Some (s, before) =>
      let s' := fst (updateGestureHistory s (clock j) gesture) in
      let delivered := snd (updateGestureHistory s (clock j) gesture) in
      processHandResults self clock results =
        (later <- processHands s' clock (skipn (S j) (handsOf results))
                    (multiHandedness results) (S j) ;;
         Some (fst later, before ++ delivered ++ snd later)) /\
      (delivered <> [] <->
       isGestureStable (pushHistory s gesture) gesture = true /\
       gesture <> lastStableGesture s) /\
      (delivered <> [] ->
       delivered =
         [Build_GesturePrediction gesture (calculateConfidence s' gesture)
            (gestureToText gesture) true] /\
       lastStableGesture s' = gesture /\
       lastGestureTime s' = clock j) /\
      (delivered = [] ->
       lastStableGesture s' = lastStableGesture s /\
       lastGestureTime s' = lastGestureTime s) /\
      (gesture = lastStableGesture s -> delivered = [])
  end.
Proof.
  intros Hhand Hh Hscore Hclass.
  destruct (split_at _ _ _ Hhand) as [Hsplit Hlen].
  assert (Hframe : processHandResults self clock results =
                   processHands self clock (handsOf results)
                     (multiHandedness results) 0).
  { unfold processHandResults, handsOf in *.
    destruct (multiHandLandmarks results) as [[|first more]|];
      [destruct j; discriminate|reflexivity|destruct j; discriminate]. }
  set (front := firstn j (handsOf results)) in *.
  set (back := skipn (S j) (handsOf results)) in *.
  rewrite Hframe, Hsplit, processHands_app, Hlen. cbn [Nat.add].
  destruct (processHands self clock front (multiHandedness results) 0)
    as [[s before]|] eqn:Hfront;
    cbn [bind fst snd]; [|reflexivity].
  destruct (processHands_config _ _ _ _ _ _ Hfront) as (_ & Hconf & _).
  cbn [fst] in Hconf.
  cbn [processHands]. rewrite Hh. cbn [bind]. rewrite Hconf, Hscore, Hclass.
  cbn [bind].
  split.
  { destruct (updateGestureHistory s (clock j) gesture) as [s1 delivered].
    cbn [fst snd].
    destruct (processHands s1 clock back (multiHandedness results) (S j))
      as [later|];
      cbn [bind fst snd]; reflexivity. }
  destruct (isGestureStable (pushHistory s gesture) gesture) eqn:Hstable.
  - destruct (Gesture_eq_dec gesture (lastStableGesture s)) as [Heq|Hneq].
    + rewrite updateGestureHistory_quiet by (right; exact Heq).
      cbn [fst snd].
      repeat split; try congruence; tauto.
    + rewrite (updateGestureHistory_emit_eq s (clock j) gesture Hstable Hneq).
      cbn [fst snd].
      repeat split; try congruence; try discriminate; try tauto.
  - rewrite updateGestureHistory_quiet by (left; exact Hstable).
    cbn [fst snd].
    repeat split; try congruence; try tauto.
    intros [? _]; discriminate.
Qed.

Lemma emission_iff_stable_and_changed_witness :
  exists self',
    processHandResults (pushHistory (pushHistory initial G_a) G_a) noon
      unsureThenFistThumb =
    Some (self',
          [Build_GesturePrediction G_a (calculateConfidence self' G_a)
             (gestureToText G_a) true]) /\
    lastStableGesture self' = G_a /\
    lastGestureTime self' = noon 1.
Proof.
  pose proof (emission_iff_stable_and_changed
                (pushHistory (pushHistory initial G_a) G_a) noon
                unsureThenFistThumb 1
                fistThumb {| label := Right; score := 0.9 |} G_a
                eq_refl eq_refl eq_refl eq_refl) as Hhand.
  assert (Hfront : processHands (pushHistory (pushHistory initial G_a) G_a)
                     noon (firstn 1 (handsOf unsureThenFistThumb))
                     (multiHandedness unsureThenFistThumb) 0
                   = Some (pushHistory (pushHistory initial G_a) G_a, []))
    by reflexivity.
  rewrite Hfront in Hhand.
  destruct Hhand as (Hrun & Hiff & Hemit & _).
  destruct Hemit as (Hd & Hlast & Htime).
  { apply Hiff. split; [reflexivity|discriminate]. }
  eexists. split; [|split; [exact Hlast|exact Htime]].
  rewrite Hrun, Hd. reflexivity.
Defined.

(** C3: the early return of the cooldown gate is taken exactly when the
    time since [lastGestureTime] is below [gestureCooldown] and the gesture
    is not stable, and then nothing is delivered and only the history
    changes; a gesture that is stable and differs from [lastStableGesture]
    is delivered whatever the clock reads, so also inside the cooldown
    window. *)
Theorem cooldown_gate_only_for_unstable
    (self : Detector) (now : Z) (gesture : Gesture) :
  let self1 := pushHistory self gesture in
  let stable := isGestureStable self1 gesture in
  let r := updateGestureHistory self now gesture in
  (cooldownGate self1 now stable = true <->
   (now - lastGestureTime self < gestureCooldown self)%Z /\ stable = false) /\
  (cooldownGate self1 now stable = true -> r = (self1, [])) /\
  (stable = true ->
   gesture <> lastStableGesture self ->
   exists self',
     r = (self',
          [Build_GesturePrediction gesture (calculateConfidence self' gesture)
             (gestureToText gesture) true]) /\
     lastStableGesture self' = gesture /\
     lastGestureTime self' = now).
Proof.
  intros self1 stable r. subst self1 stable r. repeat split.
  - unfold cooldownGate in H. apply andb_prop in H as [H _].
    simpl in H. now apply Z.ltb_lt in H.
  - unfold cooldownGate in H. apply andb_prop in H as [_ H].
    now apply negb_true_iff in H.
  - intros [Hin Hun]. unfold cooldownGate. rewrite Hun. simpl.
    rewrite andb_true_r. now apply Z.ltb_lt.
  - intros Hgate. unfold updateGestureHistory. now rewrite Hgate.
  - intros Hstable Hneq.
    destruct (updateGestureHistory_emit self now gesture Hstable Hneq)
      as (self' & Hrun & _ & Hlast & Htime).
    exists self'. repeat split; assumption.
Qed.

(** Scenario C: ["x"] is delivered at time 0; alternating ["y"] and ["z"]
    deliver nothing; three ["y"] at time 600, inside the cooldown of 1000,
    deliver ["y"] on the third. *)
Example scenario_C :
  snd (feed initial
         [(0, G_x); (0, G_x); (0, G_x);
          (100, G_y); (200, G_z); (300, G_y); (400, G_z);
          (600, G_y); (600, G_y); (600, G_y)]%Z) =
  [[]; []; [Build_GesturePrediction G_x 1 "X" true];
   []; []; []; [];
   []; []; [Build_GesturePrediction G_y 0.8 "Y" true]].
Proof. vm_compute. reflexivity. Qed.

(** ** Confidence *)

Lemma length_filter_count (gesture : Gesture) (l : list Gesture) :
  length (filter (fun g => Gesture_eqb g gesture) l) =
  count_occ Gesture_eq_dec l gesture.
Proof.
  induction l as [|g l IH]; simpl; [reflexivity|].
  unfold Gesture_eqb at 1.
  destruct (Gesture_eq_dec g gesture); simpl; now rewrite IH.
Qed.

Lemma count_occ_le_length (gesture : Gesture) (l : list Gesture) :
  count_occ Gesture_eq_dec l gesture <= length l.
Proof.
  rewrite <- length_filter_count. apply filter_length_le.
Qed.

Lemma count_occ_all (gesture : Gesture) (l : list Gesture) :
  (forall g, In g l -> g = gesture) ->
  count_occ Gesture_eq_dec l gesture = length l.
Proof.
  induction l as [|g l IH]; intros Hall; simpl; [reflexivity|].
  destruct (Gesture_eq_dec g gesture) as [_|Hneq].
  - f_equal. apply IH. intros g' Hg'. apply Hall. now right.
  - exfalso. apply Hneq, Hall. now left.
Qed.

(** The quotient of a count by a window of one to five entries. *)
Lemma ratio_in_unit_interval (k n : nat) :
  1 <= n <= 5 -> k <= n ->
  (0 <=? number_of_nat k / number_of_nat n)%float = true /\
  (number_of_nat k / number_of_nat n <=? 1)%float = true.
Proof.
  intros Hn Hk.
  assert (Hcases : n = 1 \/ n = 2 \/ n = 3 \/ n = 4 \/ n = 5) by lia.
  assert (Hkcases : k = 0 \/ k = 1 \/ k = 2 \/ k = 3 \/ k = 4 \/ k = 5)
    by lia.
  destruct Hcases as [->|[->|[->|[->| ->]]]];
    destruct Hkcases as [->|[->|[->|[->|[->| ->]]]]];
    try lia; vm_compute; split; reflexivity.
Qed.

Lemma ratio_full (n : nat) :
  1 <= n <= 5 -> (number_of_nat n / number_of_nat n)%float = 1%float.
Proof.
  intros Hn.
  assert (Hcases : n = 1 \/ n = 2 \/ n = 3 \/ n = 4 \/ n = 5) by lia.
  destruct Hcases as [->|[->|[->|[->| ->]]]]; vm_compute; reflexivity.
Qed.

(** [calculateConfidence] on a history that is not empty. *)
Lemma calculateConfidence_ratio self gesture :
  gestureHistory self <> [] ->
  let history := gestureHistory self in
  let n := Nat.min 5 (length history) in
  let k := count_occ Gesture_eq_dec (skipn (length history - n) history)
             gesture in
  calculateConfidence self gesture = (number_of_nat k / number_of_nat n)%float.
Proof.
  intros Hne history n k. subst history n k. unfold calculateConfidence.
  destruct (gestureHistory self) as [|g l] eqn:Hh; [congruence|].
  cbn [length Nat.eqb]. rewrite length_filter_count.
  rewrite length_slice_5. rewrite slice_5_skipn. reflexivity.
Qed.

(** C5: the confidence of every prediction a history update delivers is
    the number [k] of occurrences of the delivered gesture among the last
    [min 5 length] entries of the history (the history after the push)
    divided by [min 5 length]; it lies between 0 and 1; it is 1 when the
    history has at least five entries and its last five are all the
    delivered gesture; and on the history [a; a; b; a; a] the confidence of
    ["a"] is the number 0.8. *)
Theorem confidence_is_recent_share
    (self : Detector) (now : Z) (delivered : GesturePrediction)
    (g : Gesture) :
  In delivered (snd (updateGestureHistory self now g)) ->
  let history := gestureHistory (fst (updateGestureHistory self now g)) in
  let n := Nat.min 5 (length history) in
  let k := count_occ Gesture_eq_dec (skipn (length history - n) history) g in
  delivered.(gesture) = g /\
  delivered.(confidence) = (number_of_nat k / number_of_nat n)%float /\
  (0 <=? delivered.(confidence))%float = true /\
  (delivered.(confidence) <=? 1)%float = true /\
  (5 <= length history ->
   (forall i, length history - 5 <= i < length history ->
              history !! i = Some g) ->
   delivered.(confidence) = 1%float) /\
  (forall d : Detector,
     gestureHistory d = [G_a; G_a; G_b; G_a; G_a] ->
     calculateConfidence d G_a = 0.8%float).
Proof.
  intros Hin history n k.
  assert (Hhist : history = push_bounded (gestureHistory self) g)
    by apply updateGestureHistory_history.
  assert (Hn : 1 <= n <= 5).
  { subst n. rewrite Hhist.
    pose proof (push_bounded_nonempty (gestureHistory self) g). lia. }
  assert (Hk : k <= n).
  { subst k. etransitivity; [apply count_occ_le_length|].
    rewrite length_skipn. lia. }
  assert (Hconf : delivered.(gesture) = g /\
            delivered.(confidence) =
              (number_of_nat k / number_of_nat n)%float).
  { subst history n k.
    destruct (isGestureStable (pushHistory self g) g) eqn:Hstable.
    - destruct (Gesture_eq_dec g (lastStableGesture self)) as [Heq|Hneq].
      + rewrite updateGestureHistory_quiet in Hin by (right; exact Heq).
        destruct Hin.
      + destruct (updateGestureHistory_emit self now g Hstable Hneq)
          as (self' & Hrun & Hh & _).
        rewrite Hrun in *. cbn [fst snd] in *.
        destruct Hin as [<-|[]]. split; [reflexivity|]. cbn [confidence].
        apply calculateConfidence_ratio.
        rewrite Hh. intros Hnil.
        pose proof (push_bounded_nonempty (gestureHistory self) g) as Hlen.
        rewrite Hnil in Hlen. simpl in Hlen. lia.
    - rewrite updateGestureHistory_quiet in Hin by (left; exact Hstable).
      destruct Hin. }
  destruct Hconf as [Hg Hconf].
  destruct (ratio_in_unit_interval k n Hn Hk) as [Hlo Hhi].
  rewrite Hconf. repeat split; try assumption.
  - intros H5 Hall.
    assert (Hkn : k = n).
    { subst k. rewrite count_occ_all.
      - rewrite length_skipn. lia.
      - intros g' Hg'. apply In_nth_error in Hg' as [j Hj].
        rewrite nth_error_skipn in Hj.
        assert (length history - n + j < length history)
          by (apply nth_error_Some; congruence).
        rewrite Hall in Hj by lia. congruence. }
    rewrite Hkn. now apply ratio_full.
  - intros d Hd. unfold calculateConfidence. rewrite Hd.
    vm_compute. reflexivity.
Qed.

Lemma confidence_is_recent_share_witness :
  let d := {| gestureHistory := [G_a; G_a; G_b; G_a];
              lastStableGesture := G_idle;
              stabilityThreshold := 2;
              confidenceThreshold := 0.7;
              lastGestureTime := 0;
              gestureCooldown := 1000 |} in
  let p := Build_GesturePrediction G_a 0.8 "A" true in
  In p (snd (updateGestureHistory d 600 G_a)) /\
  (0 <=? p.(confidence))%float = true /\
  (p.(confidence) <=? 1)%float = true.
Proof.
  intros d p.
  assert (Hin : In p (snd (updateGestureHistory d 600 G_a)))
    by (vm_compute; left; reflexivity).
  split; [exact Hin|].
  destruct (confidence_is_recent_share d 600 p G_a Hin)
    as (_ & _ & Hlo & Hhi & _).
  split; assumption.
Defined.

(** ** The classifier *)

Lemma copy_landmarks (landmarks : list HandLandmark) :
  map (fun landmark =>
         {| x := landmark.(x); y := landmark.(y); z := landmark.(z) |})
      landmarks = landmarks.
Proof.
  induction landmarks as [|[a b c] l IH]; simpl; [reflexivity|].
  now rewrite IH.
Qed.

Lemma classifyGesture_unfold landmarks handedness :
  classifyGesture landmarks handedness =
  (aslLetter <- detectASLLetter landmarks ;;
   if negb (Gesture_eqb aslLetter G_idle) then Some aslLetter
   else detectCommonGestures landmarks).
Proof. unfold classifyGesture. now rewrite copy_landmarks. Qed.

Lemma nth_error_defined {A : Type} (l : list A) (i : nat) :
  i < length l -> exists v, l !! i = Some v.
Proof.
  intros Hi. destruct (l !! i) as [v|] eqn:Hv; [now exists v|].
  apply nth_error_None in Hv. lia.
Qed.

(** Walks down a chain of array reads and [if]s, one case per exit. *)
Ltac cascade :=
  repeat (match goal with
          | |- context [bind ?o _] => destruct o; cbn [bind]
          | |- context [if ?c then _ else _] => destruct c; cbv iota
          end;
          try (let H := fresh in intros H; discriminate H)).

(** Replaces the reads of a skeleton of at least 21 landmarks by their
    values. *)
Ltac read_all H :=
  repeat match goal with
         | |- context [bind (?l !! ?i) _] =>
             let p := fresh "p" in
             let Hp := fresh "Hp" in
             destruct (nth_error_defined l i) as [p Hp];
             [revert H; clear; simpl; intros H; lia|];
             rewrite Hp; clear Hp; cbn [bind]
         end.

Lemma detectASLLetter_late_digits landmarks g :
  detectASLLetter landmarks = Some g ->
  g <> G_6 /\ g <> G_7 /\ g <> G_8 /\ g <> G_9 /\ g <> G_0.
Proof.
  unfold detectASLLetter, isCurvedGesture, isThumbBetweenFingers,
    isIndexMiddleCrossed.
  cascade;
    intros H; injection H as <-; repeat split; discriminate.
Qed.

Lemma detectASLLetter_total landmarks :
  21 <= length landmarks -> exists g, detectASLLetter landmarks = Some g.
Proof.
  intros H.
  unfold detectASLLetter, isCurvedGesture, isThumbBetweenFingers,
    isIndexMiddleCrossed.
  read_all H. cascade; eauto.
Qed.

Lemma isStopGesture_total landmarks :
  21 <= length landmarks -> exists b, isStopGesture landmarks = Some b.
Proof.
  intros H. unfold isStopGesture. read_all H. cascade; eauto.
Qed.

Lemma detectCommonGestures_total landmarks :
  21 <= length landmarks ->
  exists g, detectCommonGestures landmarks = Some g.
Proof.
  intros H. destruct (isStopGesture_total landmarks H) as [stop Hstop].
  unfold detectCommonGestures, isWaveGesture, isThumbsUp, isThumbsDown,
    isPointingGesture.
  rewrite Hstop. read_all H. cascade; eauto.
Qed.

Lemma classifyGesture_total landmarks handedness :
  21 <= length landmarks ->
  exists g, classifyGesture landmarks handedness = Some g.
Proof.
  intros H. rewrite classifyGesture_unfold.
  destruct (detectASLLetter_total landmarks H) as [letter ->].
  destruct (detectCommonGestures_total landmarks H) as [common Hcommon].
  cbn [bind]. destruct (negb _); eauto.
Qed.

(** The macro gestures come from [detectCommonGestures] only. *)
Lemma detectCommonGestures_range landmarks g :
  detectCommonGestures landmarks = Some g ->
  In g [G_hello; G_thanks; G_no; G_wait; G_help; G_idle].
Proof.
  unfold detectCommonGestures.
  cascade; intros H; injection H as <-; simpl; tauto.
Qed.

(** A fist with the thumb out is the letter a: no rule before it fires. *)
Lemma detectASLLetter_fist_thumb landmarks :
  fingerExtensions landmarks = Some (true, false, false, false, false) ->
  detectASLLetter landmarks = Some G_a.
Proof.
  unfold fingerExtensions, detectASLLetter.
  repeat (match goal with
          | |- context [bind (?l !! ?i) _] => destruct (l !! i); cbn [bind]
          end;
          try (let H := fresh in intros H; discriminate H)).
  intros H. injection H as -> -> -> -> ->. reflexivity.
Qed.

(** The test shared by ["4"], ["6"] and ["b"] returns ["4"]. *)
Lemma detectASLLetter_four_fingers landmarks :
  fingerExtensions landmarks = Some (false, true, true, true, true) ->
  detectASLLetter landmarks = Some G_4.
Proof.
  unfold fingerExtensions, detectASLLetter.
  repeat (match goal with
          | |- context [bind (?l !! ?i) _] => destruct (l !! i); cbn [bind]
          end;
          try (let H := fresh in intros H; discriminate H)).
  intros H. injection H as -> -> -> -> ->. reflexivity.
Qed.

(** The test shared by ["5"], ["7"], ["8"], ["9"] and ["0"] returns
    ["5"]. *)
Lemma detectASLLetter_open_hand landmarks :
  fingerExtensions landmarks = Some (true, true, true, true, true) ->
  detectASLLetter landmarks = Some G_5.
Proof.
  unfold fingerExtensions, detectASLLetter.
  repeat (match goal with
          | |- context [bind (?l !! ?i) _] => destruct (l !! i); cbn [bind]
          end;
          try (let H := fresh in intros H; discriminate H)).
  intros H. injection H as -> -> -> -> ->. reflexivity.
Qed.

(** Nor does the full classifier return one of the five late digits. *)
Lemma classifyGesture_late_digits landmarks handedness g :
  classifyGesture landmarks handedness = Some g ->
  g <> G_6 /\ g <> G_7 /\ g <> G_8 /\ g <> G_9 /\ g <> G_0.
Proof.
  rewrite classifyGesture_unfold.
  destruct (detectASLLetter landmarks) as [letter|] eqn:Hletter;
    cbn [bind]; [|discriminate].
  destruct (negb _).
  - intros H. injection H as <-.
    exact (detectASLLetter_late_digits landmarks letter Hletter).
  - intros H. apply detectCommonGestures_range in H.
    repeat split; intros ->; simpl in H;
      repeat (destruct H as [H|H]; [discriminate H|]); exact H.
Qed.

Lemma classifyGesture_fist_thumb landmarks handedness :
  fingerExtensions landmarks = Some (true, false, false, false, false) ->
  classifyGesture landmarks handedness = Some G_a.
Proof.
  intros H. rewrite classifyGesture_unfold.
  now rewrite (detectASLLetter_fist_thumb landmarks H).
Qed.

(** C10: on a skeleton of 21 landmarks the letter classifier returns a
    gesture, and that gesture is none of ["6"], ["7"], ["8"], ["9"] and
    ["0"]: the rule of ["6"] repeats the test of ["4"] and the rules of
    ["7"], ["8"], ["9"] and ["0"] repeat the test of ["5"], so a hand that
    passes the first test is classified ["4"] and a hand that passes the
    second is classified ["5"]. *)
Theorem late_digits_unreachable (landmarks : list HandLandmark) :
  length landmarks = 21 ->
  exists g,
    detectASLLetter landmarks = Some g /\
    (g <> G_6 /\ g <> G_7 /\ g <> G_8 /\ g <> G_9 /\ g <> G_0) /\
    (fingerExtensions landmarks = Some (false, true, true, true, true) ->
     g = G_4) /\
    (fingerExtensions landmarks = Some (true, true, true, true, true) ->
     g = G_5).
Proof.
  intros Hlen.
  destruct (detectASLLetter_total landmarks) as [g Hg]; [lia|].
  exists g. split; [exact Hg|]. split; [|split].
  - exact (detectASLLetter_late_digits landmarks g Hg).
  - intros H4. apply detectASLLetter_four_fingers in H4. congruence.
  - intros H5. apply detectASLLetter_open_hand in H5. congruence.
Qed.

Lemma late_digits_unreachable_witness :
  length zeroHand = 21 /\
  exists g,
    detectASLLetter zeroHand = Some g /\
    g <> G_6 /\ g <> G_7 /\ g <> G_8 /\ g <> G_9 /\ g <> G_0.
Proof.
  split; [reflexivity|].
  destruct (late_digits_unreachable zeroHand eq_refl) as (g & Hg & Hno & _).
  exists g. split; assumption.
Defined.

(** C8: the two finger-extension tests disagree on some landmarks.  A
    short straight finger (wrist, base, middle joint and tip in line, the
    tip less than a fifth of the palm length beyond the base) is extended
    for the tip-base-joint test and not for the wrist-relative one; a
    finger whose middle joint lies on the wrist side of the base is
    extended for the wrist-relative test and not for the other. *)
Theorem finger_extension_tests_differ :
  (exists tip base midJoint wrist,
     isFingerExtended tip base midJoint = true /\
     MediaPipeGestureDetector.isFingerExtended tip midJoint base wrist
       = false) /\
  (exists tip base midJoint wrist,
     isFingerExtended tip base midJoint = false /\
     MediaPipeGestureDetector.isFingerExtended tip midJoint base wrist
       = true).
Proof.
  split.
  - exists (point 0 4.5 0), (point 0 4 0), (point 0 4.25 0), origin.
    split; vm_compute; reflexivity.
  - exists (point 0 2 0), (point 0 1 0), (point 0 0.5 0), origin.
    split; vm_compute; reflexivity.
Qed.

(** ** Frames without an accepted hand *)

Lemma processHands_all_skipped self clock handednesses :
  forall rest i,
    (forall j landmarks,
       rest !! j = Some landmarks ->
       exists handedness,
         handednesses !! (i + j) = Some handedness /\
         (handedness.(score) <? self.(confidenceThreshold))%float = true) ->
    processHands self clock rest handednesses i = Some (self, []).
Proof.
  induction rest as [|landmarks rest IH]; intros i Hlow; [reflexivity|].
  cbn [processHands].
  destruct (Hlow 0 landmarks eq_refl) as (handedness & Hh & Hscore).
  rewrite Nat.add_0_r in Hh. rewrite Hh. cbn [bind]. rewrite Hscore.
  apply IH. intros j lm Hj.
  destruct (Hlow (S j) lm Hj) as (h & Hh' & Hs).
  exists h. split; [|exact Hs]. now rewrite <- Nat.add_succ_comm in Hh'.
Qed.

(** C4, as the code has it: when every hand of the frame is reported with a
    score below [confidenceThreshold] nothing is delivered; a frame with
    no hand at all resets the detector (empty history, [lastStableGesture]
    idle), and a frame with hands, all below the threshold, leaves the
    detector as it was. *)
Theorem frame_without_accepted_hand
    (self : Detector) (clock : nat -> Z) (results : Results) :
  (forall i landmarks,
     handsOf results !! i = Some landmarks ->
     exists handedness,
       results.(multiHandedness) !! i = Some handedness /\
       (handedness.(score) <? self.(confidenceThreshold))%float = true) ->
  exists self',
    processHandResults self clock results = Some (self', []) /\
    (handsOf results = [] ->
     self' = resetToIdle self /\
     gestureHistory self' = [] /\ lastStableGesture self' = G_idle) /\
    (handsOf results <> [] -> self' = self).
Proof.
  intros Hlow. unfold processHandResults, handsOf in *.
  destruct (multiHandLandmarks results) as [[|landmarks rest]|].
  - exists (resetToIdle self). repeat split. congruence.
  - exists self. split.
    + apply processHands_all_skipped. exact Hlow.
    + split; [discriminate|reflexivity].
  - exists (resetToIdle self). repeat split. congruence.
Qed.

Lemma frame_without_accepted_hand_witness :
  (exists self',
     processHandResults afterThreeA noon (frameOf [] 0.9)
       = Some (self', []) /\
     gestureHistory self' = [] /\ lastStableGesture self' = G_idle) /\
  processHandResults afterThreeA noon (frameOf [fistThumb] 0.5)
    = Some (afterThreeA, []).
Proof.
  split.
  - destruct (frame_without_accepted_hand afterThreeA noon (frameOf [] 0.9))
      as (self' & Hrun & Hreset & _).
    + intros [|i] landmarks Hi; discriminate Hi.
    + exists self'. split; [exact Hrun|].
      destruct (Hreset eq_refl) as (_ & Hh & Hl). now split.
  - destruct (frame_without_accepted_hand afterThreeA noon
                (frameOf [fistThumb] 0.5))
      as (self' & Hrun & _ & Hkeep).
    + intros [|[|i]] landmarks Hi; try discriminate Hi.
      eexists. split; [reflexivity|]. vm_compute. reflexivity.
    + rewrite Hrun. now rewrite Hkeep by discriminate.
Defined.

(** C4 fails as stated: the detector [afterThreeA] is reached by three
    frames of a fist with the thumb out; on the next frame the only hand
    has score 0.5, below the threshold 0.7, and the detector is left as it
    was, with a history of three entries and [lastStableGesture] ["a"]. *)
Lemma low_confidence_frame_is_no_reset :
  let results := frameOf [fistThumb] 0.5 in
  (exists deliveries,
     run initial (repeat (Frame noon (frameOf [fistThumb] 0.9)) 3)
       = Some (afterThreeA, deliveries)) /\
  (forall handedness,
     In handedness results.(multiHandedness) ->
     (afterThreeA.(confidenceThreshold) <=? handedness.(score))%float
       = false) /\
  processHandResults afterThreeA noon results = Some (afterThreeA, []) /\
  gestureHistory afterThreeA = [G_a; G_a; G_a] /\
  lastStableGesture afterThreeA = G_a.
Proof.
  intros results. split; [eexists; vm_compute; reflexivity|].
  split.
  - intros handedness [<-|[]]. vm_compute. reflexivity.
  - split; [vm_compute; reflexivity|]. split; reflexivity.
Qed.

(** ** Deliveries per frame *)

Lemma tl_skipn {A : Type} (l : list A) : tl l = skipn 1 l.
Proof. destruct l; reflexivity. Qed.

(** A gesture among the last [c + 1] entries is among the last [c + 2]
    entries after a push. *)
Lemma push_keeps_recent {A : Type} (v w : A) (c : nat) (l : list A) :
  length l <= c \/ In v (skipn (length l - S c) l) ->
  length (push_bounded l w) <= S c \/
  In v (skipn (length (push_bounded l w) - S (S c)) (push_bounded l w)).
Proof.
  intros [Hshort|Hin].
  - left. rewrite length_push_bounded.
    destruct (Nat.leb_spec 5 (length l)); lia.
  - destruct (Nat.le_gt_cases 5 (length l)) as [Hfull|Hroom].
    + rewrite push_bounded_full by exact Hfull.
      rewrite last_length.
      assert (Htl : S (length (tl l)) = length l)
        by (destruct l; simpl in *; lia).
      rewrite Htl.
      destruct (Nat.le_gt_cases (length l) (S c)) as [Hle|Hgt];
        [left; exact Hle|right].
      rewrite skipn_app. apply in_or_app. left.
      rewrite tl_skipn, skipn_skipn.
      now replace (length l - S (S c) + 1) with (length l - S c) by lia.
    + right. rewrite push_bounded_room by exact Hroom.
      rewrite last_length, skipn_app. apply in_or_app. left.
      now replace (S (length l) - S (S c)) with (length l - S c) by lia.
Qed.

Lemma settled_after_emit self now gesture :
  settled (markStable (pushHistory self gesture) gesture now) gesture 0.
Proof.
  split; [reflexivity|]. right. cbn [markStable pushHistory gestureHistory].
  apply (nth_error_In _ 0). rewrite nth_error_skipn, Nat.add_0_r.
  apply push_bounded_last.
Qed.

(** While fewer updates than the stability threshold have passed since
    the last delivery, an update delivers nothing. *)
Lemma settled_step self gesture c now next :
  settled self gesture c ->
  (Z.of_nat c + 2 <= stabilityThreshold self)%Z ->
  updateGestureHistory self now next = (pushHistory self next, []) /\
  settled (pushHistory self next) gesture (S c).
Proof.
  intros [Hlast Hrecent] Hthr.
  pose proof (push_keeps_recent gesture next c _ Hrecent) as Hafter.
  split; [|split; [exact Hlast|exact Hafter]].
  apply updateGestureHistory_quiet.
  destruct (isGestureStable (pushHistory self next) next) eqn:Hstable;
    [right|left; reflexivity].
  apply isGestureStable_recent in Hstable; [|simpl; lia].
  cbn [pushHistory gestureHistory stabilityThreshold] in Hstable.
  destruct Hstable as [Hlen Hall].
  destruct Hafter as [Hshort|Hin]; [lia|].
  symmetry. rewrite Hlast. apply Hall.
  revert Hin. apply In_skipn_le. lia.
Qed.

Lemma processHands_quiet clock handednesses :
  forall rest i self gesture c r,
    settled self gesture c ->
    (Z.of_nat
       (c + 1 + acceptedHands self.(confidenceThreshold) rest handednesses i)
     <= stabilityThreshold self)%Z ->
    processHands self clock rest handednesses i = Some r ->
    snd r = [].
Proof.
  induction rest as [|landmarks rest IH]; intros i self gesture c r Hs Hthr Hrun.
  - injection Hrun as <-. reflexivity.
  - cbn [processHands acceptedHands] in Hrun, Hthr.
    destruct (handednesses !! i) as [handedness|]; cbn [bind] in Hrun;
      [|discriminate].
    destruct (PrimFloat.ltb _ _).
    + eapply IH; [exact Hs| |exact Hrun]. lia.
    + destruct (classifyGesture _ _) as [next|]; cbn [bind] in Hrun;
        [|discriminate].
      destruct (settled_step self gesture c (clock i) next Hs) as [Hq Hs'];
        [lia|].
      rewrite Hq in Hrun.
      destruct (processHands (pushHistory self next) _ _ _ _) as [r'|] eqn:Hr;
        cbn [bind] in Hrun; [|discriminate].
      injection Hrun as <-. cbn [snd app].
      eapply (IH _ _ _ (S c)); [exact Hs'| |exact Hr].
      cbn [pushHistory confidenceThreshold stabilityThreshold]. lia.
Qed.

Lemma processHands_at_most_one clock handednesses :
  forall rest i self r,
    (Z.of_nat (acceptedHands self.(confidenceThreshold) rest handednesses i)
     <= stabilityThreshold self)%Z ->
    processHands self clock rest handednesses i = Some r ->
    length (snd r) <= 1.
Proof.
  induction rest as [|landmarks rest IH]; intros i self r Hthr Hrun.
  - injection Hrun as <-. simpl. lia.
  - cbn [processHands acceptedHands] in Hrun, Hthr.
    destruct (handednesses !! i) as [handedness|]; cbn [bind] in Hrun;
      [|discriminate].
    destruct (PrimFloat.ltb _ _).
    + eapply IH; [|exact Hrun]. lia.
    + destruct (classifyGesture _ _) as [next|]; cbn [bind] in Hrun;
        [|discriminate].
      destruct (isGestureStable (pushHistory self next) next) eqn:Hstable.
      * destruct (Gesture_eq_dec next (lastStableGesture self)) as [Heq|Hneq].
        -- rewrite updateGestureHistory_quiet in Hrun by (right; exact Heq).
           destruct (processHands (pushHistory self next) _ _ _ _)
             as [r'|] eqn:Hr; cbn [bind] in Hrun; [|discriminate].
           injection Hrun as <-. cbn [snd app].
           eapply IH; [|exact Hr].
           cbn [pushHistory confidenceThreshold stabilityThreshold]. lia.
        -- rewrite (updateGestureHistory_emit_eq _ _ _ Hstable Hneq) in Hrun.
           destruct (processHands _ _ _ _ _) as [r'|] eqn:Hr;
             cbn [bind] in Hrun; [|discriminate].
           injection Hrun as <-. cbn [snd app length].
           assert (Hq : snd r' = []).
           { apply (processHands_quiet clock handednesses rest (S i) _ next 0
                      r' (settled_after_emit self (clock i) next));
               [|exact Hr].
             cbn [markStable pushHistory confidenceThreshold
                    stabilityThreshold]. lia. }
           rewrite Hq. simpl. lia.
      * rewrite updateGestureHistory_quiet in Hrun by (left; exact Hstable).
        destruct (processHands (pushHistory self next) _ _ _ _)
          as [r'|] eqn:Hr; cbn [bind] in Hrun; [|discriminate].
        injection Hrun as <-. cbn [snd app].
        eapply IH; [|exact Hr].
        cbn [pushHistory confidenceThreshold stabilityThreshold]. lia.
Qed.

Lemma updateGestureHistory_at_most_one self now gesture :
  length (snd (updateGestureHistory self now gesture)) <= 1.
Proof.
  unfold updateGestureHistory.
  destruct (cooldownGate _ _ _); [simpl; lia|].
  destruct (_ && _); simpl; lia.
Qed.

Lemma processHands_at_most_accepted clock handednesses :
  forall rest i self r,
    processHands self clock rest handednesses i = Some r ->
    length (snd r)
    <= acceptedHands self.(confidenceThreshold) rest handednesses i.
Proof.
  induction rest as [|landmarks rest IH]; intros i self r Hrun.
  - injection Hrun as <-. simpl. lia.
  - cbn [processHands acceptedHands] in *.
    destruct (handednesses !! i) as [handedness|]; cbn [bind] in Hrun;
      [|discriminate].
    destruct (PrimFloat.ltb _ _).
    + apply IH in Hrun. lia.
    + destruct (classifyGesture _ _) as [next|]; cbn [bind] in Hrun;
        [|discriminate].
      pose proof (updateGestureHistory_at_most_one self (clock i) next) as H1.
      destruct (updateGestureHistory_config self (clock i) next)
        as (_ & Hconf & _).
      destruct (updateGestureHistory self (clock i) next)
        as [self' delivered].
      destruct (processHands self' _ _ _ _) as [r'|] eqn:Hr;
        cbn [bind] in Hrun; [|discriminate].
      injection Hrun as <-. cbn [snd fst] in *.
      apply IH in Hr. rewrite Hconf in Hr. rewrite length_app. lia.
Qed.

(** On a well-formed frame the loop runs to its end. *)
Lemma processHands_total clock handednesses :
  forall rest i self,
    (forall landmarks, In landmarks rest -> 21 <= length landmarks) ->
    i + length rest <= length handednesses ->
    exists r, processHands self clock rest handednesses i = Some r.
Proof.
  induction rest as [|landmarks rest IH]; intros i self Hlm Hlen.
  - eexists. reflexivity.
  - cbn [processHands]. cbn [length] in Hlen.
    destruct (nth_error_defined handednesses i) as [handedness ->]; [lia|].
    cbn [bind].
    assert (Hrest : forall lm, In lm rest -> 21 <= length lm)
      by (intros lm Hin; apply Hlm; now right).
    destruct (PrimFloat.ltb _ _).
    + apply IH; [exact Hrest|lia].
    + destruct (classifyGesture_total landmarks (label handedness))
        as [next ->]; [apply Hlm; now left|].
      cbn [bind].
      destruct (updateGestureHistory self (clock i) next)
        as [self' delivered].
      destruct (IH (S i) self' Hrest) as [r' ->]; [lia|].
      cbn [bind]. eexists. reflexivity.
Qed.

(** C6, as the code has it: on a well-formed frame the handler returns,
    it delivers at most one prediction per hand it accepts, and it
    delivers at most one prediction in the whole frame when the number of
    accepted hands does not exceed [stabilityThreshold] (as with the
    default threshold 3 and the two hands the tracker is configured
    for). *)
Theorem deliveries_per_frame
    (self : Detector) (clock : nat -> Z) (results : Results) :
  wellFormed results ->
  let accepted :=
    acceptedHands self.(confidenceThreshold) (handsOf results)
      results.(multiHandedness) 0 in
  exists self' delivered,
    processHandResults self clock results = Some (self', delivered) /\
    length delivered <= accepted /\
    ((Z.of_nat accepted <= stabilityThreshold self)%Z ->
     length delivered <= 1).
Proof.
  intros [Hlen Hlm] accepted. subst accepted.
  unfold processHandResults, handsOf in *.
  destruct (multiHandLandmarks results) as [[|landmarks rest]|].
  - exists (resetToIdle self), []. simpl. repeat split; lia.
  - destruct (processHands_total clock (multiHandedness results)
                (landmarks :: rest) 0 self Hlm Hlen) as [[self' delivered] Hrun].
    exists self', delivered. split; [exact Hrun|]. split.
    + apply (processHands_at_most_accepted _ _ _ _ _ _ Hrun).
    + intros Hthr. apply (processHands_at_most_one _ _ _ _ _ _ Hthr Hrun).
  - exists (resetToIdle self), []. simpl. repeat split; lia.
Qed.

Lemma deliveries_per_frame_witness :
  wellFormed (frameOf [fistThumb; zeroHand] 0.9) /\
  exists self' delivered,
    processHandResults (pushHistory (pushHistory initial G_a) G_a) noon
      (frameOf [fistThumb; zeroHand] 0.9) = Some (self', delivered) /\
    length delivered <= 1.
Proof.
  assert (Hwf : wellFormed (frameOf [fistThumb; zeroHand] 0.9)).
  { split; [simpl; lia|].
    intros landmarks [<-|[<-|[]]]; simpl; lia. }
  split; [exact Hwf|].
  destruct (deliveries_per_frame
              (pushHistory (pushHistory initial G_a) G_a) noon
              (frameOf [fistThumb; zeroHand] 0.9) Hwf)
    as (self' & delivered & Hrun & _ & Hone).
  exists self', delivered. split; [exact Hrun|].
  apply Hone. vm_compute. discriminate.
Defined.

(** C6 fails as stated: with [stabilityThreshold] set to 1, a frame with
    two accepted hands classified as ["a"] and ["c"] delivers two
    predictions. *)
Lemma two_deliveries_in_one_frame :
  let self := updateConfig initial (withThreshold 1) in
  let results := frameOf [fistThumb; zeroHand] 0.9 in
  reachable self /\
  wellFormed results /\
  processHandResults self noon results =
    Some ({| gestureHistory := [G_a; G_c];
             lastStableGesture := G_c;
             stabilityThreshold := 1;
             confidenceThreshold := 0.7;
             lastGestureTime := 43200000;
             gestureCooldown := 1000 |},
          [Build_GesturePrediction G_a 1 "A" true;
           Build_GesturePrediction G_c 0.5 "C" true]).
Proof.
  intros self results. split; [|split].
  - apply (reachable_handle initial (Configure (withThreshold 1)) _ []);
      [constructor|reflexivity].
  - split; [simpl; lia|].
    intros landmarks [<-|[<-|[]]]; simpl; lia.
  - vm_compute. reflexivity.
Qed.

(** ** Scenarios A and B *)

(** Scenario B: three frames of a fist with the thumb out deliver ["a"]
    once; three frames without a hand then deliver nothing and leave the
    detector with an empty history and [lastStableGesture] idle. *)
Example scenario_B :
  exists self',
    run initial
      (repeat (Frame noon (frameOf [fistThumb] 0.9)) 3
       ++ repeat (Frame noon (frameOf [] 0.9)) 3) =
    Some (self',
          [[]; []; [Build_GesturePrediction G_a 1 "A" true]; []; []; []]) /\
    gestureHistory self' = [] /\
    lastStableGesture self' = G_idle.
Proof. eexists. vm_compute. repeat split. Qed.


Lemma fistThumbFrame_handle self e :
  fistThumbFrame e ->
  confidenceThreshold self = 0.7%float ->
  exists now, handle self e = Some (updateGestureHistory self now G_a).
Proof.
  intros (clock & results & landmarks & handedness
          & -> & Hhands & Hh & Hscore & Hflags) Hthr.
  exists (clock 0). cbn [handle]. unfold processHandResults.
  rewrite Hhands. apply (processHands_single _ _ _ handedness).
  - exact Hh.
  - now rewrite Hthr.
  - now apply classifyGesture_fist_thumb.
Qed.

(** C9: from the initial detector (stability threshold 3), five frames
    that each hold one accepted hand with the thumb as the only extended
    finger deliver nothing on the first two frames, one prediction of
    ["a"] on the third and nothing on the last two. *)
Theorem scenario_A (events : list Event) :
  length events = 5 ->
  Forall fistThumbFrame events ->
  exists self',
    run initial events =
      Some (self',
            [[]; []; [Build_GesturePrediction G_a 1 "A" true]; []; []]) /\
    lastStableGesture self' = G_a /\
    gestureHistory self' = [G_a; G_a; G_a; G_a; G_a].
Proof.
  intros Hlen Hall.
  destruct events as [|e1 [|e2 [|e3 [|e4 [|e5 [|e6 events]]]]]];
    try discriminate Hlen.
  inversion_clear Hall as [|? ? H1 Hall1].
  inversion_clear Hall1 as [|? ? H2 Hall2].
  inversion_clear Hall2 as [|? ? H3 Hall3].
  inversion_clear Hall3 as [|? ? H4 Hall4].
  inversion_clear Hall4 as [|? ? H5 _].
  set (s1 := pushHistory initial G_a).
  set (s2 := pushHistory s1 G_a).
  destruct (fistThumbFrame_handle initial e1 H1 eq_refl) as [now1 R1].
  destruct (fistThumbFrame_handle s1 e2 H2 eq_refl) as [now2 R2].
  destruct (fistThumbFrame_handle s2 e3 H3 eq_refl) as [now3 R3].
  set (s3 := markStable (pushHistory s2 G_a) G_a now3).
  set (s4 := pushHistory s3 G_a).
  destruct (fistThumbFrame_handle s3 e4 H4 eq_refl) as [now4 R4].
  destruct (fistThumbFrame_handle s4 e5 H5 eq_refl) as [now5 R5].
  rewrite updateGestureHistory_quiet in R1 by (left; reflexivity).
  rewrite updateGestureHistory_quiet in R2 by (left; reflexivity).
  rewrite (updateGestureHistory_emit_eq s2 now3 G_a) in R3
    by (reflexivity || discriminate).
  rewrite updateGestureHistory_quiet in R4 by (right; reflexivity).
  rewrite updateGestureHistory_quiet in R5 by (right; reflexivity).
  exists (pushHistory s4 G_a).
  cbn [run]. rewrite R1. cbn [bind fst snd]. fold s1.
  rewrite R2. cbn [bind fst snd]. fold s2.
  rewrite R3. cbn [bind fst snd]. fold s3.
  rewrite R4. cbn [bind fst snd]. fold s4.
  rewrite R5. cbn [bind fst snd].
  repeat split.
Qed.

Lemma scenario_A_witness :
  exists self',
    run initial (repeat (Frame noon (frameOf [fistThumb] 0.9)) 5) =
      Some (self',
            [[]; []; [Build_GesturePrediction G_a 1 "A" true]; []; []]) /\
    lastStableGesture self' = G_a /\
    gestureHistory self' = [G_a; G_a; G_a; G_a; G_a].
Proof.
  apply (scenario_A (repeat (Frame noon (frameOf [fistThumb] 0.9)) 5)).
  - reflexivity.
  - apply Forall_forall. intros e He. apply repeat_spec in He. subst e.
    exists noon, (frameOf [fistThumb] 0.9), fistThumb,
      {| label := Right; score := 0.9 |}.
    repeat split; vm_compute; reflexivity.
Defined.

(** * Further properties of the real-time detector *)

(** ** What the classifier accepts and returns *)

Lemma detectASLLetter_short landmarks :
  length landmarks < 21 -> detectASLLetter landmarks = None.
Proof.
  intros Hlen. unfold detectASLLetter.
  assert (H20 : landmarks !! 20 = None) by (apply nth_error_None; lia).
  rewrite H20.
  repeat match goal with
         | |- bind (?l !! ?i) _ = None => destruct (l !! i); cbn [bind]
         end; reflexivity.
Qed.

(** X1: the classifier throws exactly on a hand with fewer than 21
    landmarks. *)
Theorem classifyGesture_throws_iff_short
    (landmarks : list HandLandmark) (handedness : Label) :
  classifyGesture landmarks handedness = None <-> length landmarks < 21.
Proof.
  split.
  - intros Hnone.
    destruct (Nat.lt_ge_cases (length landmarks) 21) as [Hlt|Hge];
      [exact Hlt|].
    destruct (classifyGesture_total landmarks handedness Hge) as [g Hg].
    congruence.
  - intros Hlen. rewrite classifyGesture_unfold.
    now rewrite detectASLLetter_short.
Qed.

Lemma detectASLLetter_range landmarks g :
  detectASLLetter landmarks = Some g -> In g classifiable.
Proof.
  unfold detectASLLetter, isCurvedGesture, isThumbBetweenFingers,
    isIndexMiddleCrossed.
  cascade; intros H; injection H as <-; simpl; tauto.
Qed.

(** Stretched index, middle, ring and little fingers are the digit 4 or
    5, so the stop test is never consulted with a positive answer. *)
Lemma stop_is_a_digit landmarks :
  detectASLLetter landmarks = Some G_idle ->
  isStopGesture landmarks = Some true ->
  False.
Proof.
  unfold detectASLLetter, isStopGesture.
  cbn -[nth_error isFingerExtended isCurvedGesture isThumbBetweenFingers
        isIndexMiddleCrossed isThumbIndexTouching isThumbIndexCircle].
  repeat (match goal with
          | |- context [bind (?l !! ?i) _] => destruct (l !! i); cbn [bind]
          end;
          try (let H := fresh in intros H; discriminate H)).
  repeat match goal with
         | |- context [isFingerExtended ?a ?b ?c] =>
             destruct (isFingerExtended a b c)
         end;
    cbn [andb negb]; cbv iota;
    try (intros _ H; discriminate H);
    try (intros H; discriminate H).
Qed.

Lemma detectCommonGestures_wait landmarks :
  detectCommonGestures landmarks = Some G_wait ->
  isStopGesture landmarks = Some true.
Proof.
  unfold detectCommonGestures.
  destruct (isStopGesture landmarks) as [[|]|]; [reflexivity| |];
    cascade; intros H; discriminate H.
Qed.

(** X2: the classifier returns exactly 20 of the 44 gestures: each of the
    digits 1 to 5, the letters a, c, e, f, i, l, m, o, q, r, the macro
    gestures hello, thanks, no, help and idle is returned for some hand,
    and no hand is ever classified as one of the other 24 (b, d, g, h, j,
    k, n, p, s, t, u, v, w, x, y, z, 6, 7, 8, 9, 0, wait, yes, repeat). *)
Theorem classifyGesture_range (g : Gesture) :
  (exists landmarks handedness,
     classifyGesture landmarks handedness = Some g) <->
  In g classifiable.
Proof.
  split.
  - intros (landmarks & handedness & Hg).
    rewrite classifyGesture_unfold in Hg.
    destruct (detectASLLetter landmarks) as [letter|] eqn:Hletter;
      cbn [bind] in Hg; [|discriminate].
    destruct (Gesture_eq_dec letter G_idle) as [->|Hletter'].
    + cbn in Hg.
      destruct (Gesture_eq_dec g G_wait) as [->|Hwait].
      * exfalso. apply (stop_is_a_digit landmarks Hletter).
        now apply detectCommonGestures_wait.
      * apply detectCommonGestures_range in Hg. simpl in *.
        repeat (destruct Hg as [Hg|Hg]; [subst g; tauto|]). tauto.
    + apply Gesture_eqb_neq in Hletter'. rewrite Hletter' in Hg.
      injection Hg as <-. exact (detectASLLetter_range _ _ Hletter).
  - intros Hin. exists (sampleHandFor g), Right. simpl in Hin.
    repeat (destruct Hin as [<-|Hin]; [vm_compute; reflexivity|]).
    destruct Hin.
Qed.


(** ** The cooldown setting *)

Lemma updateGestureHistory_cooldown self c now g :
  updateGestureHistory (updateConfig self (withCooldown c)) now g =
  (updateConfig (fst (updateGestureHistory self now g)) (withCooldown c),
   snd (updateGestureHistory self now g)).
Proof.
  destruct (isGestureStable (pushHistory self g) g) eqn:Hstable.
  - destruct (Gesture_eq_dec g (lastStableGesture self)) as [Heq|Hneq].
    + rewrite (updateGestureHistory_quiet self) by (right; exact Heq).
      now rewrite updateGestureHistory_quiet by (right; exact Heq).
    + rewrite (updateGestureHistory_emit_eq self) by assumption.
      now rewrite updateGestureHistory_emit_eq by assumption.
  - rewrite (updateGestureHistory_quiet self) by (left; exact Hstable).
    now rewrite updateGestureHistory_quiet by (left; exact Hstable).
Qed.

Lemma processHands_cooldown c clock handednesses :
  forall rest i self,
    processHands (updateConfig self (withCooldown c)) clock rest
      handednesses i =
    match processHands self clock rest handednesses i with
    | Some r => Some (updateConfig (fst r) (withCooldown c), snd r)
    | None => None
    end.
Proof.
  induction rest as [|landmarks rest IH]; intros i self; [reflexivity|].
  cbn [processHands].
  destruct (handednesses !! i) as [handedness|]; cbn [bind]; [|reflexivity].
  change (confidenceThreshold (updateConfig self (withCooldown c)))
    with (confidenceThreshold self).
  destruct (PrimFloat.ltb _ _); [apply IH|].
  destruct (classifyGesture _ _) as [g|]; cbn [bind]; [|reflexivity].
  rewrite updateGestureHistory_cooldown.
  destruct (updateGestureHistory self (clock i) g) as [self1 out].
  cbn [fst snd]. rewrite IH.
  destruct (processHands self1 _ _ _ _) as [r|]; reflexivity.
Qed.

(** X3: [gestureCooldown] has no effect on what a frame does: with any
    other cooldown value the frame throws or not alike, delivers the same
    predictions and leaves the same detector, up to the stored cooldown
    value itself. *)
Theorem cooldown_has_no_effect
    (self : Detector) (c : Z) (clock : nat -> Z) (results : Results) :
  processHandResults (updateConfig self (withCooldown c)) clock results =
  match processHandResults self clock results with
  | Some (self', delivered) =>
      Some (updateConfig self' (withCooldown c), delivered)
  | None => None
  end.
Proof.
  unfold processHandResults.
  destruct (multiHandLandmarks results) as [[|landmarks rest]|];
    try reflexivity.
  rewrite processHands_cooldown.
  destruct (processHands self _ _ _ _) as [[self' delivered]|]; reflexivity.
Qed.

(** ** What a frame does to the detector *)

Lemma last_default {A : Type} (l : list A) (d d' : A) :
  l <> [] -> last l d = last l d'.
Proof.
  induction l as [|a l IH]; [congruence|]. intros _.
  destruct l as [|b l]; [reflexivity|].
  cbn [last] in *. apply IH. discriminate.
Qed.

Lemma last_app_default {A : Type} (l1 l2 : list A) (d : A) :
  last (l1 ++ l2) d = last l2 (last l1 d).
Proof.
  induction l1 as [|a l1 IH]; [reflexivity|].
  destruct l1 as [|b l1].
  - destruct l2 as [|c l2]; [reflexivity|].
    change (last ([a] ++ c :: l2) d) with (last (c :: l2) d).
    apply last_default. discriminate.
  - change (last ((a :: b :: l1) ++ l2) d) with (last ((b :: l1) ++ l2) d).
    rewrite IH. reflexivity.
Qed.

Lemma changes_app previous l1 l2 :
  changes previous (l1 ++ l2) <->
  changes previous l1 /\ changes (last l1 previous) l2.
Proof.
  revert previous. induction l1 as [|g l1 IH]; intros previous.
  - simpl. tauto.
  - change (changes previous ((g :: l1) ++ l2))
      with (g <> previous /\ changes g (l1 ++ l2)).
    rewrite IH. cbn [changes].
    replace (last (g :: l1) previous) with (last l1 g); [tauto|].
    symmetry. apply (last_app_default [g] l1 previous).
Qed.

(** One history update: what it delivers and what it leaves. *)
Lemma updateGestureHistory_effect self now g :
  let r := updateGestureHistory self now g in
  lastStableGesture (fst r) =
    last (map gesture (snd r)) (lastStableGesture self) /\
  changes (lastStableGesture self) (map gesture (snd r)) /\
  Forall (fun p => p.(isStable) = true /\
                   p.(text) = gestureToText p.(gesture)) (snd r) /\
  (snd r = [] -> lastGestureTime (fst r) = lastGestureTime self) /\
  (snd r <> [] -> lastGestureTime (fst r) = now).
Proof.
  destruct (isGestureStable (pushHistory self g) g) eqn:Hstable.
  - destruct (Gesture_eq_dec g (lastStableGesture self)) as [Heq|Hneq].
    + rewrite updateGestureHistory_quiet by (right; exact Heq).
      simpl. repeat split; try constructor; congruence.
    + rewrite updateGestureHistory_emit_eq by assumption.
      simpl. repeat split; try assumption; try discriminate.
      repeat constructor.
  - rewrite updateGestureHistory_quiet by (left; exact Hstable).
    simpl. repeat split; try constructor; congruence.
Qed.

Lemma processHands_effect clock handednesses :
  forall rest i self r,
    processHands self clock rest handednesses i = Some r ->
    lastStableGesture (fst r) =
      last (map gesture (snd r)) (lastStableGesture self) /\
    changes (lastStableGesture self) (map gesture (snd r)) /\
    Forall (fun p => p.(isStable) = true /\
                     p.(text) = gestureToText p.(gesture)) (snd r) /\
    (snd r = [] -> lastGestureTime (fst r) = lastGestureTime self) /\
    (snd r <> [] ->
     exists j, i <= j < i + length rest /\
               lastGestureTime (fst r) = clock j).
Proof.
  induction rest as [|landmarks rest IH]; intros i self r Hrun.
  - injection Hrun as <-. simpl. repeat split; try constructor.
    intros H; now destruct H.
  - cbn [processHands] in Hrun.
    destruct (handednesses !! i) as [handedness|]; cbn [bind] in Hrun;
      [|discriminate].
    destruct (PrimFloat.ltb _ _).
    + destruct (IH _ _ _ Hrun) as (Hlast & Hch & Hall & Hquiet & Hloud).
      repeat split; try assumption.
      intros Hne. destruct (Hloud Hne) as (j & Hj & Htime).
      exists j. cbn [length]. split; [lia|exact Htime].
    + destruct (classifyGesture _ _) as [g|]; cbn [bind] in Hrun;
        [|discriminate].
      pose proof (updateGestureHistory_effect self (clock i) g) as Hup.
      destruct (updateGestureHistory self (clock i) g) as [self1 out].
      cbn [fst snd] in Hup.
      destruct Hup as (Hlast1 & Hch1 & Hall1 & Hquiet1 & Hloud1).
      destruct (processHands self1 _ _ _ _) as [r'|] eqn:Hr;
        cbn [bind] in Hrun; [|discriminate].
      injection Hrun as <-. cbn [fst snd].
      destruct (IH _ _ _ Hr) as (Hlast & Hch & Hall & Hquiet & Hloud).
      rewrite map_app. repeat split.
      * rewrite Hlast, Hlast1. symmetry. apply last_app_default.
      * apply changes_app. split; [exact Hch1|]. now rewrite <- Hlast1.
      * apply Forall_app. split; assumption.
      * intros Hnil. apply app_eq_nil in Hnil as [Hout Hr'].
        rewrite (Hquiet Hr'). exact (Hquiet1 Hout).
      * intros Hne. cbn [length].
        destruct (snd r') as [|p' l'] eqn:Hs.
        -- rewrite app_nil_r in Hne. exists i. split; [lia|].
           rewrite (Hquiet eq_refl). exact (Hloud1 Hne).
        -- destruct Hloud as (j & Hj & Htime); [discriminate|].
           exists j. split; [lia|exact Htime].
Qed.

(** X4: a frame that reports hands never touches the three settings; it
    leaves [lastStableGesture] at the gesture of the last prediction it
    delivers, and unchanged when it delivers none; it leaves
    [lastGestureTime] unchanged when it delivers nothing and otherwise at
    a clock reading taken while one of its hands was processed. *)
Theorem frame_effect_on_detector
    (self self' : Detector) (clock : nat -> Z) (results : Results)
    (delivered : list GesturePrediction) :
  handsOf results <> [] ->
  processHandResults self clock results = Some (self', delivered) ->
  (stabilityThreshold self' = stabilityThreshold self /\
   confidenceThreshold self' = confidenceThreshold self /\
   gestureCooldown self' = gestureCooldown self) /\
  lastStableGesture self' =
    last (map gesture delivered) (lastStableGesture self) /\
  (delivered = [] -> lastGestureTime self' = lastGestureTime self) /\
  (delivered <> [] ->
   exists j, j < length (handsOf results) /\
             lastGestureTime self' = clock j).
Proof.
  unfold processHandResults, handsOf.
  destruct (multiHandLandmarks results) as [[|landmarks rest]|];
    try congruence.
  intros _ Hrun. split; [exact (processHands_config _ _ _ _ _ _ Hrun)|].
  destruct (processHands_effect _ _ _ _ _ _ Hrun)
    as (Hlast & _ & _ & Hquiet & Hloud).
  cbn [fst snd] in *. repeat split; try assumption.
  intros Hne. destruct (Hloud Hne) as (j & Hj & Htime).
  exists j. split; [lia|exact Htime].
Qed.

Lemma frame_effect_on_detector_witness :
  exists self',
    processHandResults (pushHistory (pushHistory initial G_a) G_a) noon
      (frameOf [fistThumb] 0.9) =
    Some (self', [Build_GesturePrediction G_a 1 "A" true]) /\
    lastStableGesture self' = G_a /\
    stabilityThreshold self' = 3%Z.
Proof.
  eexists. split; [vm_compute; reflexivity|].
  match goal with
  | |- lastStableGesture ?d = _ /\ _ =>
      destruct (frame_effect_on_detector
                  (pushHistory (pushHistory initial G_a) G_a) d noon
                  (frameOf [fistThumb] 0.9)
                  [Build_GesturePrediction G_a 1 "A" true])
        as ((Hthr & _) & Hlast & _)
  end.
  - discriminate.
  - vm_compute. reflexivity.
  - split; [exact Hlast|exact Hthr].
Defined.

Lemma handle_effect self e self' delivered :
  hasHands e ->
  handle self e = Some (self', delivered) ->
  lastStableGesture self' =
    last (map gesture delivered) (lastStableGesture self) /\
  changes (lastStableGesture self) (map gesture delivered) /\
  Forall (fun p => p.(isStable) = true /\
                   p.(text) = gestureToText p.(gesture)) delivered.
Proof.
  destruct e as [clock results|config]; cbn [handle hasHands].
  - unfold processHandResults, handsOf.
    destruct (multiHandLandmarks results) as [[|landmarks rest]|];
      try congruence.
    intros _ Hrun.
    destruct (processHands_effect _ _ _ _ _ _ Hrun)
      as (Hlast & Hch & Hall & _).
    cbn [fst snd] in *. repeat split; assumption.
  - intros _ H. injection H as <- <-. simpl. repeat split. constructor.
Qed.

(** X5: as long as every frame of a session reports a hand, no two
    predictions delivered in a row carry the same gesture, the first one
    differs from the [lastStableGesture] the session started with, every
    prediction is flagged stable and carries the display text of its
    gesture, and [lastStableGesture] ends at the gesture delivered last. *)
Theorem deliveries_never_repeat
    (self self' : Detector) (events : list Event)
    (deliveries : list (list GesturePrediction)) :
  Forall hasHands events ->
  run self events = Some (self', deliveries) ->
  changes (lastStableGesture self) (map gesture (concat deliveries)) /\
  Forall (fun p => p.(isStable) = true /\
                   p.(text) = gestureToText p.(gesture))
    (concat deliveries) /\
  lastStableGesture self' =
    last (map gesture (concat deliveries)) (lastStableGesture self).
Proof.
  intros Hall. revert self self' deliveries.
  induction Hall as [|e events He _ IH]; intros self self' deliveries Hrun.
  - injection Hrun as <- <-. simpl. repeat split. constructor.
  - cbn [run] in Hrun.
    destruct (handle self e) as [[self1 out]|] eqn:Hhandle;
      cbn [bind] in Hrun; [|discriminate].
    cbn [fst snd] in Hrun.
    destruct (run self1 events) as [[self2 outs]|] eqn:Hrest;
      cbn [bind] in Hrun; [|discriminate].
    injection Hrun as <- <-. cbn [fst snd concat].
    destruct (handle_effect _ _ _ _ He Hhandle) as (Hlast1 & Hch1 & Hall1).
    destruct (IH _ _ _ Hrest) as (Hch & Hall2 & Hlast).
    rewrite map_app. repeat split.
    + apply changes_app. split; [exact Hch1|]. now rewrite <- Hlast1.
    + apply Forall_app. split; assumption.
    + rewrite Hlast, Hlast1. symmetry. apply last_app_default.
Qed.

Lemma deliveries_never_repeat_witness :
  exists self',
    run initial
      [Frame noon (frameOf [fistThumb] 0.9);
       Configure (withThreshold 1);
       Frame noon (frameOf [fistThumb; zeroHand] 0.9)] =
    Some (self',
          [[]; [];
           [Build_GesturePrediction G_a 1 "A" true;
            Build_GesturePrediction G_c (1 / 3) "C" true]]) /\
    changes G_idle [G_a; G_c] /\
    lastStableGesture self' = G_c.
Proof.
  eexists. split; [vm_compute; reflexivity|].
  match goal with
  | |- _ /\ lastStableGesture ?d = _ =>
      destruct (deliveries_never_repeat initial d
                  [Frame noon (frameOf [fistThumb] 0.9);
                   Configure (withThreshold 1);
                   Frame noon (frameOf [fistThumb; zeroHand] 0.9)]
                  [[]; [];
                   [Build_GesturePrediction G_a 1 "A" true;
                    Build_GesturePrediction G_c (1 / 3) "C" true]])
        as (Hch & _ & Hlast)
  end.
  - repeat constructor; discriminate.
  - vm_compute. reflexivity.
  - split; [exact Hch|exact Hlast].
Defined.

(** ** Thresholds out of the buffer's reach *)

Lemma updateGestureHistory_over_capacity self now g :
  length (gestureHistory self) <= 5 ->
  (5 < stabilityThreshold self)%Z ->
  updateGestureHistory self now g = (pushHistory self g, []).
Proof.
  intros Hlen Hthr. apply updateGestureHistory_quiet. left.
  unfold isGestureStable. cbn [pushHistory gestureHistory stabilityThreshold].
  destruct (Z.ltb_spec
              (Z.of_nat (length (push_bounded (gestureHistory self) g)))
              (stabilityThreshold self)) as [_|Hge]; [reflexivity|].
  rewrite length_push_bounded in Hge.
  destruct (Nat.leb_spec 5 (length (gestureHistory self))); lia.
Qed.

Lemma processHands_over_capacity clock handednesses :
  forall rest i self r,
    length (gestureHistory self) <= 5 ->
    (5 < stabilityThreshold self)%Z ->
    processHands self clock rest handednesses i = Some r ->
    snd r = [].
Proof.
  induction rest as [|landmarks rest IH]; intros i self r Hlen Hthr Hrun.
  - injection Hrun as <-. reflexivity.
  - cbn [processHands] in Hrun.
    destruct (handednesses !! i) as [handedness|]; cbn [bind] in Hrun;
      [|discriminate].
    destruct (PrimFloat.ltb _ _); [eapply IH; eassumption|].
    destruct (classifyGesture _ _) as [g|]; cbn [bind] in Hrun;
      [|discriminate].
    rewrite updateGestureHistory_over_capacity in Hrun by assumption.
    destruct (processHands (pushHistory self g) _ _ _ _) as [r'|] eqn:Hr;
      cbn [bind] in Hrun; [|discriminate].
    injection Hrun as <-. cbn [snd app].
    eapply IH; [| |exact Hr].
    + cbn [pushHistory gestureHistory]. rewrite length_push_bounded.
      destruct (Nat.leb_spec 5 (length (gestureHistory self))); lia.
    + exact Hthr.
Qed.

(** X6: with [stabilityThreshold] above 5, the capacity of the history,
    a detector of a session never delivers anything. *)
Theorem threshold_above_capacity_is_silent
    (self self' : Detector) (clock : nat -> Z) (results : Results)
    (delivered : list GesturePrediction) :
  reachable self ->
  (5 < stabilityThreshold self)%Z ->
  processHandResults self clock results = Some (self', delivered) ->
  delivered = [].
Proof.
  intros Hreach Hthr. unfold processHandResults.
  destruct (multiHandLandmarks results) as [[|landmarks rest]|];
    try (intros H; injection H as _ <-; reflexivity).
  intros Hrun.
  apply (processHands_over_capacity _ _ _ _ _ _
           (reachable_history_bounded self Hreach) Hthr Hrun).
Qed.

Lemma threshold_above_capacity_is_silent_witness :
  exists self',
    processHandResults (updateConfig initial (withThreshold 6)) noon
      (frameOf [fistThumb; fistThumb] 0.9) = Some (self', []).
Proof.
  assert (Hreach : reachable (updateConfig initial (withThreshold 6))).
  { apply (reachable_handle initial (Configure (withThreshold 6)) _ []);
      [constructor|reflexivity]. }
  destruct (processHandResults (updateConfig initial (withThreshold 6)) noon
              (frameOf [fistThumb; fistThumb] 0.9))
    as [[self' delivered]|] eqn:Hrun.
  - exists self'. f_equal. f_equal.
    apply (threshold_above_capacity_is_silent _ self' noon
             (frameOf [fistThumb; fistThumb] 0.9) delivered Hreach);
      [simpl; lia|exact Hrun].
  - vm_compute in Hrun. discriminate Hrun.
Defined.

(** ** Confidence of a delivery *)

Lemma skipn_split {A : Type} (a b : nat) (l : list A) :
  a <= b -> skipn a l = firstn (b - a) (skipn a l) ++ skipn b l.
Proof.
  intros Hab. rewrite <- (firstn_skipn (b - a) (skipn a l)) at 1.
  rewrite skipn_skipn. now replace (b - a + a) with b by lia.
Qed.

Lemma ratio_at_least (t k n : nat) :
  1 <= t -> t <= k -> k <= n -> n <= 5 ->
  (number_of_nat t / 5 <=? number_of_nat k / number_of_nat n)%float = true.
Proof.
  intros Ht Hk Hn H5.
  assert (Hts : t = 1 \/ t = 2 \/ t = 3 \/ t = 4 \/ t = 5) by lia.
  assert (Hks : k = 1 \/ k = 2 \/ k = 3 \/ k = 4 \/ k = 5) by lia.
  assert (Hns : n = 1 \/ n = 2 \/ n = 3 \/ n = 4 \/ n = 5) by lia.
  destruct Hts as [->|[->|[->|[->| ->]]]];
    destruct Hks as [->|[->|[->|[->| ->]]]]; try lia;
    destruct Hns as [->|[->|[->|[->| ->]]]]; try lia;
    vm_compute; reflexivity.
Qed.

(** X7: with a stability threshold [t] between 1 and 5, every delivered
    prediction has a confidence of at least [t / 5]: at least 0.6 with the
    default threshold 3. *)
Theorem confidence_at_least_threshold_share
    (self : Detector) (now : Z) (g : Gesture) (p : GesturePrediction) :
  (1 <= stabilityThreshold self <= 5)%Z ->
  In p (snd (updateGestureHistory self now g)) ->
  (number_of_nat (Z.to_nat (stabilityThreshold self)) / 5
   <=? p.(confidence))%float = true.
Proof.
  intros Hthr Hin.
  destruct (isGestureStable (pushHistory self g) g) eqn:Hstable.
  2:{ rewrite updateGestureHistory_quiet in Hin by (left; exact Hstable).
      destruct Hin. }
  destruct (Gesture_eq_dec g (lastStableGesture self)) as [Heq|Hneq].
  { rewrite updateGestureHistory_quiet in Hin by (right; exact Heq).
    destruct Hin. }
  rewrite (updateGestureHistory_emit_eq _ _ _ Hstable Hneq) in Hin.
  destruct Hin as [<-|[]]. cbn [confidence].
  apply isGestureStable_recent in Hstable; [|simpl; lia].
  cbn [pushHistory gestureHistory stabilityThreshold] in Hstable.
  destruct Hstable as [Hlen Hall].
  set (history := push_bounded (gestureHistory self) g) in *.
  rewrite calculateConfidence_ratio.
  2:{ cbn [markStable pushHistory gestureHistory]. fold history.
      intros Hnil. rewrite Hnil in Hlen. simpl in Hlen. lia. }
  cbn [markStable pushHistory gestureHistory]. fold history.
  set (t := Z.to_nat (stabilityThreshold self)) in *.
  apply ratio_at_least; try lia.
  - rewrite (skipn_split _ (length history - t)) by lia.
    rewrite count_occ_app, (count_occ_all g (skipn _ history)) by exact Hall.
    rewrite length_skipn. lia.
  - etransitivity; [apply count_occ_le_length|]. rewrite length_skipn. lia.
Qed.

Lemma confidence_at_least_threshold_share_witness :
  In (Build_GesturePrediction G_a 1 "A" true)
     (snd (updateGestureHistory
             (pushHistory (pushHistory initial G_a) G_a) 0 G_a)) /\
  (0.6 <=? 1)%float = true.
Proof.
  assert (Hin : In (Build_GesturePrediction G_a 1 "A" true)
                  (snd (updateGestureHistory
                          (pushHistory (pushHistory initial G_a) G_a) 0 G_a)))
    by (vm_compute; left; reflexivity).
  split; [exact Hin|].
  apply (confidence_at_least_threshold_share
           (pushHistory (pushHistory initial G_a) G_a) 0%Z G_a
           (Build_GesturePrediction G_a 1 "A" true));
    [simpl; lia|exact Hin].
Defined.

(** ** Runs of history updates *)

Lemma feed_cons self now g inputs :
  feed self ((now, g) :: inputs) =
  (fst (feed (fst (updateGestureHistory self now g)) inputs),
   snd (updateGestureHistory self now g)
   :: snd (feed (fst (updateGestureHistory self now g)) inputs)).
Proof.
  cbn [feed]. destruct (updateGestureHistory self now g) as [self1 out].
  cbn [fst snd]. destruct (feed self1 inputs). reflexivity.
Qed.

Lemma feed_app self inputs1 inputs2 :
  feed self (inputs1 ++ inputs2) =
  (fst (feed (fst (feed self inputs1)) inputs2),
   snd (feed self inputs1) ++ snd (feed (fst (feed self inputs1)) inputs2)).
Proof.
  revert self. induction inputs1 as [|[now g] inputs1 IH]; intros self.
  - cbn [app feed fst snd]. now destruct (feed self inputs2).
  - rewrite <- app_comm_cons, !feed_cons, IH. reflexivity.
Qed.

(** The loop over the hands of a frame is a run of history updates, one
    per accepted hand. *)
Lemma processHands_feed clock handednesses :
  forall rest i self r,
    processHands self clock rest handednesses i = Some r ->
    exists inputs,
      length inputs
        = acceptedHands self.(confidenceThreshold) rest handednesses i /\
      fst (feed self inputs) = fst r /\
      concat (snd (feed self inputs)) = snd r.
Proof.
  induction rest as [|landmarks rest IH]; intros i self r Hrun.
  - injection Hrun as <-. exists []. now simpl.
  - cbn [processHands acceptedHands] in *.
    destruct (handednesses !! i) as [handedness|]; cbn [bind] in Hrun;
      [|discriminate].
    destruct (PrimFloat.ltb _ _); [exact (IH _ _ _ Hrun)|].
    destruct (classifyGesture _ _) as [g|]; cbn [bind] in Hrun;
      [|discriminate].
    destruct (updateGestureHistory_config self (clock i) g)
      as (_ & Hconf & _).
    destruct (updateGestureHistory self (clock i) g) as [self1 out] eqn:Hup.
    destruct (processHands self1 _ _ _ _) as [r'|] eqn:Hr;
      cbn [bind] in Hrun; [|discriminate].
    injection Hrun as <-.
    destruct (IH _ _ _ Hr) as (inputs & Hlen & Hfst & Hsnd).
    exists ((clock i, g) :: inputs). rewrite feed_cons, Hup.
    cbn [fst snd concat length] in *.
    rewrite Hlen, Hfst, Hsnd, Hconf. repeat split.
Qed.

Lemma lastn_all {A : Type} (n : nat) (l : list A) :
  length l <= n -> lastn n l = l.
Proof.
  intros Hl. unfold lastn. now replace (length l - n) with 0 by lia.
Qed.

Lemma push_bounded_lastn {A : Type} (l : list A) (v : A) :
  length l <= 5 -> push_bounded l v = lastn 5 (l ++ [v]).
Proof.
  intros Hl. unfold lastn. rewrite last_length.
  destruct (Nat.eq_dec (length l) 5) as [H5|Hlt].
  - rewrite push_bounded_full by lia. rewrite H5. cbn [Nat.sub].
    destruct l; [discriminate|reflexivity].
  - rewrite push_bounded_room by lia.
    now replace (S (length l) - 5) with 0 by lia.
Qed.

Lemma lastn_app_lastn {A : Type} (n : nat) (l r : list A) :
  lastn n (lastn n l ++ r) = lastn n (l ++ r).
Proof.
  destruct (Nat.le_gt_cases (length l) n) as [Hle|Hgt].
  - now rewrite (lastn_all n l) by exact Hle.
  - pose proof (firstn_skipn (length l - n) l) as Hsplit.
    change (lastn n l) with (skipn (length l - n) l).
    assert (H1 : length (skipn (length l - n) l) = n)
      by (rewrite length_skipn; lia).
    assert (H0 : length (firstn (length l - n) l) = length l - n)
      by (rewrite length_firstn; lia).
    set (l0 := firstn (length l - n) l) in *.
    set (l1 := skipn (length l - n) l) in *.
    clearbody l0 l1. subst l. unfold lastn.
    rewrite <- app_assoc, (skipn_app _ l0), !length_app.
    rewrite (skipn_all2 l0) by lia. cbn [app]. f_equal. lia.
Qed.

(** X8: the history is the last five gestures pushed: after any run of
    history updates from a history of at most five entries, it holds the
    last five entries of the old history followed by the new gestures. *)
Theorem history_is_last_five_pushed
    (self : Detector) (inputs : list (Z * Gesture)) :
  length (gestureHistory self) <= 5 ->
  gestureHistory (fst (feed self inputs)) =
  lastn 5 (gestureHistory self ++ map snd inputs).
Proof.
  revert self. induction inputs as [|[now g] inputs IH]; intros self Hlen.
  - cbn [feed fst map]. rewrite app_nil_r. symmetry. now apply lastn_all.
  - rewrite feed_cons. cbn [fst map].
    rewrite IH; rewrite updateGestureHistory_history.
    + rewrite push_bounded_lastn by exact Hlen.
      rewrite lastn_app_lastn. now rewrite <- app_assoc.
    + rewrite length_push_bounded.
      destruct (Nat.leb_spec 5 (length (gestureHistory self))); lia.
Qed.

Lemma history_is_last_five_pushed_witness :
  gestureHistory
    (fst (feed initial
            [(0, G_a); (1, G_b); (2, G_c); (3, G_d); (4, G_e); (5, G_f);
             (6, G_g)]%Z)) =
  [G_c; G_d; G_e; G_f; G_g].
Proof.
  rewrite (history_is_last_five_pushed initial) by (simpl; lia).
  reflexivity.
Defined.

(** ** Debouncing *)

Lemma updateGestureHistory_short self now g :
  (Z.of_nat (length (gestureHistory self)) + 1 < stabilityThreshold self)%Z ->
  updateGestureHistory self now g = (pushHistory self g, []).
Proof.
  intros Hshort. apply updateGestureHistory_quiet. left.
  unfold isGestureStable. cbn [pushHistory gestureHistory stabilityThreshold].
  destruct (Z.ltb_spec
              (Z.of_nat (length (push_bounded (gestureHistory self) g)))
              (stabilityThreshold self)) as [_|Hge]; [reflexivity|].
  rewrite length_push_bounded in Hge.
  destruct (Nat.leb_spec 5 (length (gestureHistory self))); lia.
Qed.

(** X9: the first updates deliver nothing, whatever gestures they push:
    as long as the history and the pushed gestures together are fewer than
    [stabilityThreshold], every update is silent and leaves
    [lastStableGesture] and [lastGestureTime] as they were. *)
Theorem silent_below_threshold
    (self : Detector) (inputs : list (Z * Gesture)) :
  (Z.of_nat (length (gestureHistory self) + length inputs)
   < stabilityThreshold self)%Z ->
  snd (feed self inputs) = repeat [] (length inputs) /\
  lastStableGesture (fst (feed self inputs)) = lastStableGesture self /\
  lastGestureTime (fst (feed self inputs)) = lastGestureTime self.
Proof.
  revert self. induction inputs as [|[now g] inputs IH]; intros self Hlen.
  - now simpl.
  - cbn [length] in Hlen. rewrite feed_cons.
    rewrite updateGestureHistory_short by lia. cbn [fst snd length repeat].
    destruct (IH (pushHistory self g)) as (Hout & Hlast & Htime).
    + cbn [pushHistory gestureHistory stabilityThreshold].
      rewrite length_push_bounded.
      destruct (Nat.leb_spec 5 (length (gestureHistory self))); lia.
    + rewrite Hout, Hlast, Htime. repeat split.
Qed.

Lemma silent_below_threshold_witness :
  snd (feed initial [(0, G_a); (1, G_a)]%Z) = [[]; []].
Proof.
  apply (silent_below_threshold initial [(0, G_a); (1, G_a)]%Z).
  simpl. lia.
Defined.

(** The inputs that push [g] at each of the given clock readings. *)
Lemma feed_steady_quiet g :
  forall times self,
    (Z.of_nat (length (gestureHistory self) + length times)
     < stabilityThreshold self)%Z ->
    length (gestureHistory self) + length times <= 5 ->
    let r := feed self (map (fun t => (t, g)) times) in
    snd r = repeat [] (length times) /\
    gestureHistory (fst r) = gestureHistory self ++ repeat g (length times) /\
    lastStableGesture (fst r) = lastStableGesture self /\
    stabilityThreshold (fst r) = stabilityThreshold self.
Proof.
  induction times as [|t times IH]; intros self Hthr H5 r; subst r.
  - cbn [map feed fst snd length repeat]. now rewrite app_nil_r.
  - cbn [map length] in *. rewrite feed_cons.
    rewrite updateGestureHistory_short by lia. cbn [fst snd repeat].
    assert (Hpush : gestureHistory (pushHistory self g)
                    = gestureHistory self ++ [g]).
    { cbn [pushHistory gestureHistory]. apply push_bounded_room. lia. }
    destruct (IH (pushHistory self g)) as (Hout & Hh & Hlast & Ht).
    + rewrite Hpush, last_length.
      cbn [pushHistory stabilityThreshold]. lia.
    + rewrite Hpush, last_length. lia.
    + rewrite Hout, Hh, Hlast, Ht, Hpush, <- app_assoc. repeat split.
Qed.

Lemma feed_steady_settled g :
  forall times self,
    lastStableGesture self = g ->
    let r := feed self (map (fun t => (t, g)) times) in
    snd r = repeat [] (length times) /\
    lastStableGesture (fst r) = g /\
    lastGestureTime (fst r) = lastGestureTime self.
Proof.
  induction times as [|t times IH]; intros self Hlast r; subst r.
  - now simpl.
  - cbn [map length]. rewrite feed_cons.
    rewrite updateGestureHistory_quiet by (right; now symmetry).
    cbn [fst snd repeat].
    destruct (IH (pushHistory self g) Hlast) as (Hout & Hl & Ht).
    rewrite Hout, Hl, Ht. repeat split.
Qed.

Lemma isGestureStable_all self g :
  (1 <= stabilityThreshold self)%Z ->
  (stabilityThreshold self <= Z.of_nat (length (gestureHistory self)))%Z ->
  (forall v, In v (gestureHistory self) -> v = g) ->
  isGestureStable self g = true.
Proof.
  intros H1 Hlen Hall. unfold isGestureStable.
  destruct (Z.ltb_spec (Z.of_nat (length (gestureHistory self)))
              (stabilityThreshold self)); [lia|].
  rewrite slice_last by lia. apply forallb_forall. intros v Hv.
  apply Gesture_eqb_eq, Hall.
  revert Hv. apply (In_skipn_le v _ 0). lia.
Qed.

(** X10: from an empty history (a new detector, or one just reset), with a
    stability threshold [t] between 1 and 5, a gesture other than
    [lastStableGesture] that is pushed over and over is delivered exactly
    once, on push number [t], with confidence 1; the pushes before and
    after it deliver nothing. *)
Theorem steady_gesture_delivered_once
    (self : Detector) (g : Gesture) (before after : list Z) (now : Z) :
  gestureHistory self = [] ->
  g <> lastStableGesture self ->
  (1 <= stabilityThreshold self <= 5)%Z ->
  Z.of_nat (length before) = (stabilityThreshold self - 1)%Z ->
  let steady := map (fun t => (t, g)) in
  let r := feed self (steady before ++ (now, g) :: steady after) in
  snd r =
    repeat [] (length before)
    ++ [Build_GesturePrediction g 1 (gestureToText g) true]
       :: repeat [] (length after) /\
  lastStableGesture (fst r) = g /\
  lastGestureTime (fst r) = now.
Proof.
  intros Hempty Hneq Hthr Hbefore steady r. subst steady r.
  rewrite feed_app.
  destruct (feed_steady_quiet g before self) as (Hout & Hh & Hlast & Ht);
    [rewrite Hempty; simpl; lia|rewrite Hempty; simpl; lia|].
  rewrite Hempty in Hh. cbn [app] in Hh.
  set (s1 := fst (feed self (map (fun t => (t, g)) before))) in *.
  rewrite Hout. cbn [fst snd]. rewrite feed_cons.
  assert (Hpush : gestureHistory (pushHistory s1 g)
                  = repeat g (length before) ++ [g]).
  { cbn [pushHistory gestureHistory]. rewrite Hh.
    apply push_bounded_room. rewrite repeat_length. lia. }
  assert (Hstable : isGestureStable (pushHistory s1 g) g = true).
  { apply isGestureStable_all.
    - cbn [pushHistory stabilityThreshold]. lia.
    - rewrite Hpush, last_length, repeat_length.
      cbn [pushHistory stabilityThreshold]. lia.
    - rewrite Hpush. intros v Hv. apply in_app_or in Hv as [Hv|[Hv|[]]].
      + now apply repeat_spec in Hv.
      + now symmetry. }
  rewrite (updateGestureHistory_emit_eq s1 now g Hstable)
    by (rewrite Hlast; exact Hneq).
  cbn [fst snd].
  destruct (feed_steady_settled g after
              (markStable (pushHistory s1 g) g now) eq_refl)
    as (Hout' & Hlast' & Htime').
  assert (Hconf :
    calculateConfidence (markStable (pushHistory s1 g) g now) g = 1%float).
  { rewrite calculateConfidence_ratio.
    - cbn [markStable gestureHistory]. rewrite Hpush.
      rewrite last_length, repeat_length.
      set (n := S (length before)).
      assert (Hn : 1 <= n <= 5) by (subst n; lia).
      replace (Nat.min 5 n) with n by lia.
      rewrite Nat.sub_diag. cbn [skipn].
      rewrite count_occ_all.
      + rewrite last_length, repeat_length. fold n. now apply ratio_full.
      + intros v Hv. apply in_app_or in Hv as [Hv|[Hv|[]]].
        * now apply repeat_spec in Hv.
        * now symmetry.
    - cbn [markStable gestureHistory]. rewrite Hpush.
      destruct (repeat g (length before)); discriminate. }
  rewrite Hout', Hlast', Htime', Hconf. cbn [markStable lastGestureTime].
  repeat split.
Qed.

Lemma steady_gesture_delivered_once_witness :
  snd (feed (resetToIdle afterThreeA)
         [(10, G_a); (20, G_a); (30, G_a); (40, G_a)]%Z) =
  [[]; []; [Build_GesturePrediction G_a 1 "A" true]; []].
Proof.
  apply (steady_gesture_delivered_once (resetToIdle afterThreeA) G_a
           [10; 20]%Z [40]%Z 30%Z).
  - reflexivity.
  - discriminate.
  - simpl. lia.
  - reflexivity.
Defined.

(** * Properties of the macro-gesture detector *)

Lemma macro_frame_cases self results self' delivered :
  MacroDetector.processHandResults self results = Some (self', delivered) ->
  (self' = self /\ delivered = []) \/
  (exists g,
     self' = MacroDetector.pushHistory self g /\ delivered = []) \/
  (exists g,
     self' = MacroDetector.setLastGesture
               (MacroDetector.pushHistory self g) g /\
     delivered = [g] /\
     g <> MacroDetector.lastGesture self /\
     MacroDetector.isGestureConsistent
       (MacroDetector.pushHistory self g) g = true).
Proof.
  unfold MacroDetector.processHandResults.
  assert (Hno :
    forall r,
      (if negb (Gesture_eqb (MacroDetector.lastGesture self) G_idle)
       then
         if MacroDetector.isGestureConsistent
              (MacroDetector.pushHistory self G_idle) G_idle
         then (MacroDetector.setLastGesture
                 (MacroDetector.pushHistory self G_idle) G_idle, [G_idle])
         else (MacroDetector.pushHistory self G_idle, [])
       else (self, [])) = r ->
      Some r = Some (self', delivered) ->
      (self' = self /\ delivered = []) \/
      (exists g,
         self' = MacroDetector.pushHistory self g /\ delivered = []) \/
      (exists g,
         self' = MacroDetector.setLastGesture
                   (MacroDetector.pushHistory self g) g /\
         delivered = [g] /\
         g <> MacroDetector.lastGesture self /\
         MacroDetector.isGestureConsistent
           (MacroDetector.pushHistory self g) g = true)).
  { intros r Hr H. injection H as ->. revert Hr.
    destruct (Gesture_eqb (MacroDetector.lastGesture self) G_idle) eqn:Hidle;
      cbn [negb].
    - intros H. injection H as <- <-. now left.
    - apply Gesture_eqb_neq in Hidle.
      destruct (MacroDetector.isGestureConsistent _ _) eqn:Hc;
        intros H; injection H as <- <-.
      + right. right. exists G_idle. repeat split; congruence.
      + right. left. now exists G_idle. }
  destruct (multiHandLandmarks results) as [[|hand rest]|];
    try (apply Hno; reflexivity).
  clear Hno.
  destruct (MacroDetector.detections _ _ _) as [hands|]; cbn [bind];
    [|discriminate].
  destruct (Nat.eqb _ 0).
  - intros H. injection H as <- <-. now left.
  - destruct (MacroDetector.classifyGesture _) as [g|]; cbn [bind];
      [|discriminate].
    destruct (MacroDetector.isGestureConsistent _ _) eqn:Hc; cbn [andb].
    + destruct (Gesture_eqb g _) eqn:Hg; cbn [negb];
        intros H; injection H as <- <-.
      * right. left. now exists g.
      * apply Gesture_eqb_neq in Hg. right. right. exists g.
        repeat split; assumption.
    + intros H. injection H as <- <-. right. left. now exists g.
Qed.

(** X11: the macro detector calls its callback at most once per frame;
    over a whole session no two gestures delivered in a row are the same
    and the first differs from [lastGesture] at the start (so the first
    gesture of a new detector is never idle); [lastGesture] ends at the
    gesture delivered last. *)
Theorem macro_deliveries_never_repeat
    (self self' : MacroDetector.Detector) (frames : list Results)
    (deliveries : list (list Gesture)) :
  MacroDetector.run self frames = Some (self', deliveries) ->
  Forall (fun delivered => length delivered <= 1) deliveries /\
  changes (MacroDetector.lastGesture self) (concat deliveries) /\
  MacroDetector.lastGesture self' =
    last (concat deliveries) (MacroDetector.lastGesture self).
Proof.
  revert self self' deliveries.
  induction frames as [|results frames IH]; intros self self' deliveries Hrun.
  - injection Hrun as <- <-. simpl. repeat split. constructor.
  - cbn [MacroDetector.run] in Hrun.
    destruct (MacroDetector.processHandResults self results)
      as [[self1 out]|] eqn:Hframe; cbn [bind] in Hrun; [|discriminate].
    cbn [fst snd] in Hrun.
    destruct (MacroDetector.run self1 frames) as [[self2 outs]|] eqn:Hrest;
      cbn [bind] in Hrun; [|discriminate].
    injection Hrun as <- <-. cbn [fst snd concat].
    destruct (IH _ _ _ Hrest) as (Hone & Hch & Hlast).
    destruct (macro_frame_cases _ _ _ _ Hframe)
      as [[-> ->]|[(g & -> & ->)|(g & -> & -> & Hneq & _)]].
    + cbn [app]. repeat split; try assumption.
      constructor; [simpl; lia|exact Hone].
    + cbn [app]. repeat split; try assumption.
      constructor; [simpl; lia|exact Hone].
    + cbn [app changes]. repeat split; try assumption.
      * constructor; [simpl; lia|exact Hone].
      * rewrite Hlast. cbn [MacroDetector.setLastGesture
                              MacroDetector.lastGesture].
        symmetry. apply (last_app_default [g]).
Qed.

Lemma macro_history_step self results self' delivered :
  MacroDetector.processHandResults self results = Some (self', delivered) ->
  MacroDetector.gestureHistory self' = MacroDetector.gestureHistory self \/
  exists g,
    MacroDetector.gestureHistory self' =
      push_bounded (MacroDetector.gestureHistory self) g.
Proof.
  intros Hframe.
  destruct (macro_frame_cases _ _ _ _ Hframe)
    as [[-> ->]|[(g & -> & ->)|(g & -> & -> & _)]].
  - now left.
  - right. now exists g.
  - right. now exists g.
Qed.

(** X12: in every detector a session can reach, the history of the macro
    detector holds at most five gestures. *)
Theorem macro_history_capacity_five (self : MacroDetector.Detector) :
  MacroDetector.reachable self ->
  length (MacroDetector.gestureHistory self) <= 5.
Proof.
  induction 1 as [|self results self' delivered _ IH Hframe].
  - simpl. lia.
  - destruct (macro_history_step _ _ _ _ Hframe) as [->|[g ->]];
      [exact IH|].
    rewrite length_push_bounded.
    destruct (Nat.leb_spec 5 (length (MacroDetector.gestureHistory self)));
      lia.
Qed.

Lemma macro_history_capacity_five_witness :
  length (MacroDetector.gestureHistory MacroDetector.initial) <= 5.
Proof.
  apply macro_history_capacity_five. constructor.
Defined.

Lemma macro_deliveries_never_repeat_witness :
  exists self',
    MacroDetector.run MacroDetector.initial
      [frameOf [flagsHand true false false false false] 0.9;
       frameOf [flagsHand true false false false false] 0.9;
       frameOf [flagsHand false true false false false; zeroHand] 0.9;
       frameOf [] 0.9; frameOf [] 0.9] =
    Some (self', [[G_yes]; []; [G_no]; [G_idle]; []]) /\
    changes G_idle [G_yes; G_no; G_idle] /\
    MacroDetector.lastGesture self' = G_idle.
Proof.
  eexists. split; [vm_compute; reflexivity|].
  match goal with
  | |- _ /\ MacroDetector.lastGesture ?d = _ =>
      destruct (macro_deliveries_never_repeat MacroDetector.initial d
                  [frameOf [flagsHand true false false false false] 0.9;
                   frameOf [flagsHand true false false false false] 0.9;
                   frameOf [flagsHand false true false false false; zeroHand]
                     0.9;
                   frameOf [] 0.9; frameOf [] 0.9]
                  [[G_yes]; []; [G_no]; [G_idle]; []])
        as (_ & Hch & Hlast)
  end.
  - vm_compute. reflexivity.
  - split; [exact Hch|exact Hlast].
Defined.

(** ** Consistency *)

Lemma count_occ_two (g1 g2 : Gesture) (l : list Gesture) :
  g1 <> g2 ->
  count_occ Gesture_eq_dec l g1 + count_occ Gesture_eq_dec l g2 <= length l.
Proof.
  intros Hneq. induction l as [|g l IH]; [simpl; lia|].
  cbn [count_occ length].
  destruct (Gesture_eq_dec g g1), (Gesture_eq_dec g g2); try lia.
  congruence.
Qed.

Lemma macro_consistent_full self g :
  5 <= length (MacroDetector.gestureHistory self) ->
  MacroDetector.isGestureConsistent self g = true <->
  3 <= count_occ Gesture_eq_dec
         (lastn 5 (MacroDetector.gestureHistory self)) g.
Proof.
  intros Hlen. unfold MacroDetector.isGestureConsistent.
  destruct (Nat.ltb_spec (length (MacroDetector.gestureHistory self)) 5);
    [lia|].
  rewrite length_filter_count, (slice_last 5) by lia.
  change (skipn (length (MacroDetector.gestureHistory self) - Z.to_nat 5)
            (MacroDetector.gestureHistory self))
    with (lastn 5 (MacroDetector.gestureHistory self)).
  apply Nat.leb_le.
Qed.

(** X13: once the history of the macro detector holds five gestures, a
    gesture is consistent exactly when it fills at least three of the
    last five entries, so at most one gesture is consistent at a time;
    while the history holds fewer than five, every gesture is. *)
Theorem macro_consistency_is_majority
    (self : MacroDetector.Detector) (g1 g2 : Gesture) :
  (length (MacroDetector.gestureHistory self) < 5 ->
   MacroDetector.isGestureConsistent self g1 = true) /\
  (5 <= length (MacroDetector.gestureHistory self) ->
   (MacroDetector.isGestureConsistent self g1 = true <->
    3 <= count_occ Gesture_eq_dec
           (lastn 5 (MacroDetector.gestureHistory self)) g1) /\
   (MacroDetector.isGestureConsistent self g1 = true ->
    MacroDetector.isGestureConsistent self g2 = true ->
    g1 = g2)).
Proof.
  split.
  - intros Hlt. unfold MacroDetector.isGestureConsistent.
    now destruct (Nat.ltb_spec (length (MacroDetector.gestureHistory self)) 5);
      [|lia].
  - intros Hlen. split; [now apply macro_consistent_full|].
    intros H1 H2.
    apply macro_consistent_full in H1; [|exact Hlen].
    apply macro_consistent_full in H2; [|exact Hlen].
    destruct (Gesture_eq_dec g1 g2) as [Heq|Hneq]; [exact Heq|].
    pose proof (count_occ_two g1 g2
                  (lastn 5 (MacroDetector.gestureHistory self)) Hneq) as Hsum.
    unfold lastn in Hsum at 3. rewrite length_skipn in Hsum. lia.
Qed.

(** ** Frames of the macro detector *)

Lemma macro_detections_one landmarks entry :
  MacroDetector.detections [landmarks] [entry] 0 =
  Some [ {| MacroDetector.landmarks := landmarks;
            MacroDetector.handedness := entry.(label);
            MacroDetector.confidence := entry.(score) |} ].
Proof.
  cbn [MacroDetector.detections nth_error bind]. now rewrite copy_landmarks.
Qed.

(** X14: while the history of the macro detector holds fewer than four
    gestures there is no debouncing: a frame whose first confident hand is
    classified as a gesture other than [lastGesture] delivers it at once. *)
Theorem macro_no_debounce_at_start
    (self : MacroDetector.Detector) (results : Results)
    (hands : list MacroDetector.HandDetection) (g : Gesture) :
  length (MacroDetector.gestureHistory self) < 4 ->
  handsOf results <> [] ->
  MacroDetector.detections (handsOf results) results.(multiHandedness) 0
    = Some hands ->
  MacroDetector.classifyGesture
    (filter (fun hand => (hand.(MacroDetector.confidence) >? 0.6)%float)
       hands) = Some g ->
  filter (fun hand => (hand.(MacroDetector.confidence) >? 0.6)%float) hands
    <> [] ->
  g <> MacroDetector.lastGesture self ->
  MacroDetector.processHandResults self results =
  Some ({| MacroDetector.lastGesture := g;
           MacroDetector.gestureHistory :=
             MacroDetector.gestureHistory self ++ [g] |}, [g]).
Proof.
  intros Hlen Hhands Hdet Hclass Hhigh Hneq.
  unfold MacroDetector.processHandResults, handsOf in *.
  destruct (multiHandLandmarks results) as [[|hand rest]|]; try congruence.
  rewrite Hdet. cbn [bind].
  destruct (filter _ hands) as [|h high] eqn:Hf; [congruence|].
  cbn [length Nat.eqb]. rewrite Hclass. cbn [bind].
  unfold MacroDetector.isGestureConsistent.
  cbn [MacroDetector.pushHistory MacroDetector.gestureHistory
         MacroDetector.lastGesture].
  rewrite push_bounded_room by lia. rewrite last_length.
  destruct (Nat.ltb_spec (S (length (MacroDetector.gestureHistory self))) 5);
    [|lia].
  apply Gesture_eqb_neq in Hneq. rewrite Hneq.
  cbn [andb negb MacroDetector.setLastGesture MacroDetector.pushHistory
         MacroDetector.gestureHistory MacroDetector.lastGesture].
  unfold MacroDetector.setLastGesture, MacroDetector.pushHistory.
  cbn [MacroDetector.gestureHistory].
  now rewrite push_bounded_room by lia.
Qed.

Lemma macro_no_debounce_at_start_witness :
  MacroDetector.processHandResults MacroDetector.initial
    (frameOf [flagsHand true false false false false] 0.9) =
  Some ({| MacroDetector.lastGesture := G_yes;
           MacroDetector.gestureHistory := [G_yes] |}, [G_yes]).
Proof.
  apply (macro_no_debounce_at_start MacroDetector.initial
           (frameOf [flagsHand true false false false false] 0.9)
           [ {| MacroDetector.landmarks :=
                  flagsHand true false false false false;
                MacroDetector.handedness := Right;
                MacroDetector.confidence := 0.9 |} ] G_yes).
  - simpl. lia.
  - discriminate.
  - vm_compute. reflexivity.
  - vm_compute. reflexivity.
  - vm_compute. discriminate.
  - discriminate.
Defined.

Lemma macro_detections_scores :
  forall rest handednesses index hands,
    MacroDetector.detections rest handednesses index = Some hands ->
    forall hand,
      In hand hands ->
      exists j entry,
        handednesses !! j = Some entry /\
        hand.(MacroDetector.confidence) = entry.(score).
Proof.
  induction rest as [|landmarks rest IH]; intros hd index hands Hdet hand Hin.
  - injection Hdet as <-. destruct Hin.
  - cbn [MacroDetector.detections] in Hdet.
    destruct (hd !! index) as [entry|] eqn:He; cbn [bind] in Hdet;
      [|discriminate].
    destruct (MacroDetector.detections rest hd (S index)) as [hands'|] eqn:Hr;
      cbn [bind] in Hdet; [|discriminate].
    injection Hdet as <-. destruct Hin as [<-|Hin].
    + exists index, entry. now split.
    + exact (IH _ _ _ Hr hand Hin).
Qed.

Lemma macro_detections_total :
  forall rest handednesses index,
    index + length rest <= length handednesses ->
    exists hands, MacroDetector.detections rest handednesses index = Some hands.
Proof.
  induction rest as [|landmarks rest IH]; intros hd index Hlen.
  - now exists [].
  - cbn [MacroDetector.detections]. cbn [length] in Hlen.
    destruct (nth_error_defined hd index) as [entry ->]; [lia|].
    destruct (IH hd (S index)) as [hands ->]; [lia|].
    cbn [bind]. eexists. reflexivity.
Qed.

Lemma filter_none {A : Type} (f : A -> bool) (l : list A) :
  (forall a, In a l -> f a = false) -> filter f l = [].
Proof.
  induction l as [|a l IH]; intros Hall; [reflexivity|].
  cbn [filter]. rewrite (Hall a) by now left.
  apply IH. intros b Hb. apply Hall. now right.
Qed.

(** X15: a frame of the macro detector in which no hand has a score above
    0.6 (a score of exactly 0.6 does not pass) changes nothing and
    delivers nothing, and so does a frame without hands when
    [lastGesture] is idle. *)
Theorem macro_frame_without_confident_hand
    (self : MacroDetector.Detector) (results : Results) :
  length (handsOf results) <= length results.(multiHandedness) ->
  (forall entry,
     In entry results.(multiHandedness) ->
     (entry.(score) >? 0.6)%float = false) ->
  (handsOf results = [] -> MacroDetector.lastGesture self = G_idle) ->
  MacroDetector.processHandResults self results = Some (self, []).
Proof.
  intros Hlen Hlow Hidle.
  unfold MacroDetector.processHandResults, handsOf in *.
  destruct (multiHandLandmarks results) as [[|hand rest]|].
  - rewrite Hidle by reflexivity. reflexivity.
  - destruct (macro_detections_total (hand :: rest)
                (multiHandedness results) 0 Hlen) as [hands Hdet].
    rewrite Hdet. cbn [bind].
    rewrite filter_none; [reflexivity|].
    intros h Hh.
    destruct (macro_detections_scores _ _ _ _ Hdet h Hh)
      as (j & entry & Hj & ->).
    apply Hlow. exact (nth_error_In _ _ Hj).
  - rewrite Hidle by reflexivity. reflexivity.
Qed.

Lemma macro_frame_without_confident_hand_witness :
  MacroDetector.processHandResults MacroDetector.initial
    (frameOf [zeroHand; fistThumb] 0.6) = Some (MacroDetector.initial, []).
Proof.
  apply (macro_frame_without_confident_hand MacroDetector.initial
           (frameOf [zeroHand; fistThumb] 0.6)).
  - simpl. lia.
  - intros entry [<-|[<-|[]]]; vm_compute; reflexivity.
  - discriminate.
Defined.

(** X16: only the first hand with a score above 0.6 counts: the frame
    does what a frame holding that hand alone would do. *)
Theorem macro_first_confident_hand_decides
    (self : MacroDetector.Detector) (results : Results)
    (hands others : list MacroDetector.HandDetection)
    (h : MacroDetector.HandDetection) :
  MacroDetector.detections (handsOf results) results.(multiHandedness) 0
    = Some hands ->
  filter (fun hand => (hand.(MacroDetector.confidence) >? 0.6)%float) hands
    = h :: others ->
  MacroDetector.processHandResults self results =
  MacroDetector.processHandResults self
    {| multiHandLandmarks := Some [h.(MacroDetector.landmarks)];
       multiHandedness :=
         [ {| label := h.(MacroDetector.handedness);
              score := h.(MacroDetector.confidence) |} ] |}.
Proof.
  intros Hdet Hf.
  assert (Hh : (h.(MacroDetector.confidence) >? 0.6)%float = true).
  { assert (Hin : In h (filter
                         (fun hand =>
                            (hand.(MacroDetector.confidence) >? 0.6)%float)
                         hands)) by (rewrite Hf; now left).
    apply filter_In in Hin. exact (proj2 Hin). }
  unfold MacroDetector.processHandResults at 2.
  cbn [multiHandLandmarks multiHandedness].
  rewrite macro_detections_one. cbn [bind label score filter].
  destruct h as [lm hd conf].
  cbn [MacroDetector.landmarks MacroDetector.handedness
         MacroDetector.confidence] in *.
  rewrite Hh. cbn [length Nat.eqb].
  unfold MacroDetector.processHandResults, handsOf in *.
  destruct (multiHandLandmarks results) as [[|hand rest]|].
  - injection Hdet as <-. discriminate Hf.
  - rewrite Hdet. cbn [bind]. rewrite Hf. reflexivity.
  - injection Hdet as <-. discriminate Hf.
Qed.

Lemma macro_first_confident_hand_decides_witness :
  MacroDetector.processHandResults MacroDetector.initial
    {| multiHandLandmarks :=
         Some [zeroHand; flagsHand true false false false false; fistThumb];
       multiHandedness :=
         [ {| label := Left; score := 0.5 |};
           {| label := Right; score := 0.9 |};
           {| label := Left; score := 0.8 |} ] |} =
  MacroDetector.processHandResults MacroDetector.initial
    {| multiHandLandmarks := Some [flagsHand true false false false false];
       multiHandedness := [ {| label := Right; score := 0.9 |} ] |}.
Proof.
  apply (macro_first_confident_hand_decides MacroDetector.initial
           {| multiHandLandmarks :=
                Some [zeroHand; flagsHand true false false false false;
                      fistThumb];
              multiHandedness :=
                [ {| label := Left; score := 0.5 |};
                  {| label := Right; score := 0.9 |};
                  {| label := Left; score := 0.8 |} ] |}
           [ {| MacroDetector.landmarks := zeroHand;
                MacroDetector.handedness := Left;
                MacroDetector.confidence := 0.5 |};
             {| MacroDetector.landmarks :=
                  flagsHand true false false false false;
                MacroDetector.handedness := Right;
                MacroDetector.confidence := 0.9 |};
             {| MacroDetector.landmarks := fistThumb;
                MacroDetector.handedness := Left;
                MacroDetector.confidence := 0.8 |} ]
           [ {| MacroDetector.landmarks := fistThumb;
                MacroDetector.handedness := Left;
                MacroDetector.confidence := 0.8 |} ]
           {| MacroDetector.landmarks :=
                flagsHand true false false false false;
              MacroDetector.handedness := Right;
              MacroDetector.confidence := 0.9 |});
    vm_compute; reflexivity.
Defined.

Lemma macro_classifyGesture_none_iff
    (hand : MacroDetector.HandDetection)
    (rest : list MacroDetector.HandDetection) :
  MacroDetector.classifyGesture (hand :: rest) = None <->
  length hand.(MacroDetector.landmarks) < 21.
Proof.
  split.
  - intros Hnone.
    destruct (Nat.lt_ge_cases (length (MacroDetector.landmarks hand)) 21)
      as [Hlt|Hge]; [exact Hlt|exfalso].
    revert Hnone. unfold MacroDetector.classifyGesture.
    read_all Hge. cascade; discriminate.
  - intros Hlen. unfold MacroDetector.classifyGesture.
    assert (H20 : MacroDetector.landmarks hand !! 20 = None)
      by (apply nth_error_None; lia).
    rewrite H20.
    repeat match goal with
           | |- bind (?l !! ?i) _ = None => destruct (l !! i); cbn [bind]
           end; reflexivity.
Qed.

(** X17: the macro classifier returns idle without looking at anything
    when it is given no hand, and otherwise throws exactly when the first
    hand has fewer than 21 landmarks. *)
Theorem macro_classifier_throws_iff_short
    (hand : MacroDetector.HandDetection)
    (rest : list MacroDetector.HandDetection) :
  MacroDetector.classifyGesture [] = Some G_idle /\
  (MacroDetector.classifyGesture (hand :: rest) = None <->
   length hand.(MacroDetector.landmarks) < 21).
Proof.
  split; [reflexivity|apply macro_classifyGesture_none_iff].
Qed.

(** X18: the macro classifier returns exactly the eight macro gestures:
    each of hello, thanks, help, wait, yes, no, repeat and idle is
    returned for some hand, and nothing else ever is. *)
Theorem macro_classifier_range (g : Gesture) :
  (exists hands, MacroDetector.classifyGesture hands = Some g) <->
  In g [G_hello; G_thanks; G_help; G_wait; G_yes; G_no; G_repeat; G_idle].
Proof.
  split.
  - intros [[|hand rest] Hg].
    + injection Hg as <-. simpl. tauto.
    + revert Hg. unfold MacroDetector.classifyGesture.
      cascade; intros H; injection H as <-; simpl; tauto.
  - intros Hin.
    exists [ {| MacroDetector.landmarks := macroHandFor g;
                MacroDetector.handedness := Right;
                MacroDetector.confidence := 1 |} ].
    simpl in Hin.
    repeat (destruct Hin as [<-|Hin]; [vm_compute; reflexivity|]).
    destruct Hin.
Qed.

(** * Properties of the text cues *)

Lemma startsWith_spec (t sub : TextCues.JSString) :
  TextCues.startsWith t sub = true <-> exists post, t = sub ++ post.
Proof.
  revert t. induction sub as [|a sub IH]; intros t.
  - split; [intros _; now exists t|intros _; destruct t; reflexivity].
  - destruct t as [|b t]; cbn [TextCues.startsWith].
    + split; [discriminate|]. intros [post H]. discriminate H.
    + rewrite andb_true_iff, N.eqb_eq, IH. split.
      * intros [-> [post ->]]. now exists post.
      * intros [post H]. injection H as -> ->. split; [reflexivity|].
        now exists post.
Qed.

Lemma includes_spec (t sub : TextCues.JSString) :
  TextCues.includes t sub = true <-> exists pre post, t = pre ++ sub ++ post.
Proof.
  induction t as [|b t IH]; cbn [TextCues.includes].
  - rewrite orb_false_r, startsWith_spec. split.
    + intros [post H]. now exists [], post.
    + intros (pre & post & H). destruct pre; [now exists post|discriminate].
  - rewrite orb_true_iff, startsWith_spec, IH. split.
    + intros [[post H]|(pre & post & H)].
      * now exists [], post.
      * exists (b :: pre), post. now rewrite H.
    + intros (pre & post & H). destruct pre as [|c pre].
      * left. now exists post.
      * right. injection H as _ ->. now exists pre, post.
Qed.

(** A text that includes a phrase includes every part of the phrase. *)
Lemma includes_part (t before part after : TextCues.JSString) :
  TextCues.includes t (before ++ part ++ after) = true ->
  TextCues.includes t part = true.
Proof.
  rewrite !includes_spec. intros (pre & post & ->).
  exists (pre ++ before), (after ++ post). now rewrite <- !app_assoc.
Qed.

Lemma firstKeyword_none lowerText entries :
  TextCues.firstKeyword lowerText entries = None ->
  forall keyword g,
    In (keyword, g) entries -> TextCues.includes lowerText keyword = false.
Proof.
  induction entries as [|[kw g'] entries IH]; intros Hnone keyword g Hin.
  - destruct Hin.
  - cbn [TextCues.firstKeyword] in Hnone.
    destruct (TextCues.includes lowerText kw) eqn:Hkw; [discriminate|].
    destruct Hin as [H|Hin]; [injection H as <- _; exact Hkw|].
    exact (IH Hnone keyword g Hin).
Qed.

Lemma not_includes_phrase t (before part after : TextCues.JSString) :
  TextCues.includes t part = false ->
  TextCues.includes t (before ++ part ++ after) = false.
Proof.
  intros Hpart.
  destruct (TextCues.includes t (before ++ part ++ after)) eqn:H;
    [|reflexivity].
  apply includes_part in H. congruence.
Qed.

(** X19: three of the six phrase patterns of [detectGestureFromText] can
    never decide: a text that includes "can you repeat", "wait a moment"
    or "i need help" includes the keyword "repeat", "wait" or "help", and
    the keyword scan answers first.  The function is the keyword scan
    followed by the phrases "say again", "hold on" and "assistance". *)
Theorem phrases_shadowed_by_keywords
    (toLowerCase : TextCues.JSString -> TextCues.JSString)
    (text : TextCues.JSString) :
  let lowerText := toLowerCase text in
  TextCues.detectGestureFromText toLowerCase text =
  match TextCues.firstKeyword lowerText TextCues.keywordMap with
  | Some g => g
  | None =>
      if TextCues.includes lowerText (TextCues.str "say again")
      then G_repeat
      else if TextCues.includes lowerText (TextCues.str "hold on")
      then G_wait
      else if TextCues.includes lowerText (TextCues.str "assistance")
      then G_help
      else G_idle
  end.
Proof.
  intros lowerText. unfold TextCues.detectGestureFromText. fold lowerText.
  destruct (TextCues.firstKeyword lowerText TextCues.keywordMap) eqn:Hscan;
    [reflexivity|].
  pose proof (firstKeyword_none _ _ Hscan) as Hnone.
  assert (H1 : TextCues.includes lowerText (TextCues.str "can you repeat")
               = false).
  { change (TextCues.str "can you repeat")
      with (TextCues.str "can you " ++ TextCues.str "repeat" ++ []).
    apply not_includes_phrase, (Hnone _ G_repeat). simpl. tauto. }
  assert (H2 : TextCues.includes lowerText (TextCues.str "wait a moment")
               = false).
  { change (TextCues.str "wait a moment")
      with ([] ++ TextCues.str "wait" ++ TextCues.str " a moment").
    apply not_includes_phrase, (Hnone _ G_wait). simpl. tauto. }
  assert (H3 : TextCues.includes lowerText (TextCues.str "i need help")
               = false).
  { change (TextCues.str "i need help")
      with (TextCues.str "i need " ++ TextCues.str "help" ++ []).
    apply not_includes_phrase, (Hnone (TextCues.str "help") G_help).
    simpl. tauto. }
  rewrite H1, H2, H3. reflexivity.
Qed.

(** The first operand of a chain of [||]. *)
Ltac leftmost_disjunct c :=
  lazymatch c with
  | orb ?a _ => leftmost_disjunct a
  | _ => c
  end.

(** X20: in [detectEmotionFromText] the word "amazing" always answers
    happy, so its second mention among the surprised words never
    decides; the function answers by the first of five word groups that
    the lower-case text mentions, in the order happy, sad, angry,
    surprised, confused. *)
Theorem emotion_is_first_group_mentioned
    (toLowerCase : TextCues.JSString -> TextCues.JSString)
    (text : TextCues.JSString) :
  let lowerText := toLowerCase text in
  TextCues.detectEmotionFromText toLowerCase text =
  if mentions lowerText
       ["happy"; "great"; "good"; "wonderful"; "excellent"; "amazing"]%string
  then TextCues.happy
  else if mentions lowerText
       ["sad"; "sorry"; "unfortunately"; "bad"; "terrible"; "awful"]%string
  then TextCues.sad
  else if mentions lowerText
       ["angry"; "mad"; "furious"; "upset"; "annoyed"; "frustrated"]%string
  then TextCues.angry
  else if mentions lowerText
       ["wow"; "surprised"; "incredible"; "unbelievable"; "shocked"]%string
  then TextCues.surprised
  else if mentions lowerText
       ["confused"; "unclear"; "don't understand"; "puzzled"; "lost"]%string
  then TextCues.confused
  else TextCues.neutral.
Proof.
  intros lowerText. unfold TextCues.detectEmotionFromText, mentions.
  fold lowerText. cbn [existsb].
  repeat match goal with
         | |- context [TextCues.includes lowerText (TextCues.str ?w)] =>
             generalize (TextCues.includes lowerText (TextCues.str w));
             intros ?
         end.
  repeat (match goal with
          | |- (if ?c then _ else _) = _ =>
              let b := leftmost_disjunct c in
              is_var b; destruct b
          end;
          cbn [orb]; try reflexivity).
Qed.

(** X21: whatever gesture the macro detector delivers, the emotion the
    real-time translator derives from the text it shows for it is
    neutral: none of the seven texts mentions an emotion word. *)
Theorem translator_emotion_is_neutral (g : Gesture) :
  TextCues.detectEmotionFromText TextCues.asciiLower
    (TextCues.gestureToText g) = TextCues.neutral.
Proof. destruct g; vm_compute; reflexivity. Qed.

(** * Properties of frame skipping *)

Lemma div_succ (m k : Z) :
  (0 <= m)%Z -> (0 < k)%Z ->
  ((m + 1) / k = m / k + (if (m + 1) mod k =? 0 then 1 else 0))%Z.
Proof.
  intros Hm Hk.
  pose proof (Z.div_mod m k ltac:(lia)) as Hdm.
  pose proof (Z.mod_pos_bound m k Hk) as Hr.
  destruct (Z.eq_dec (m mod k + 1) k) as [Hfull|Hpart].
  - assert (Hmod : ((m + 1) mod k = 0)%Z).
    { symmetry. apply (Z.mod_unique_pos _ _ (m / k + 1)); lia. }
    rewrite Hmod. cbn [Z.eqb].
    symmetry. apply (Z.div_unique_pos _ _ _ 0); lia.
  - assert (Hmod : ((m + 1) mod k = m mod k + 1)%Z).
    { symmetry. apply (Z.mod_unique_pos _ _ (m / k)); lia. }
    rewrite Hmod.
    destruct (Z.eqb_spec (m mod k + 1) 0); [lia|].
    rewrite Z.add_0_r.
    symmetry. apply (Z.div_unique_pos _ _ _ (m mod k + 1)); lia.
Qed.

Lemma remainderIsZero_abs (a k : Z) :
  (0 <= a)%Z -> k <> 0%Z ->
  ModelDetector.remainderIsZero a k = (a mod Z.abs k =? 0)%Z.
Proof.
  intros Ha Hk. unfold ModelDetector.remainderIsZero.
  destruct (Z.eqb_spec k 0); [contradiction|].
  destruct (Z.abs_spec k) as [[Hpos ->]|[Hneg ->]].
  - now rewrite Z.rem_mod_nonneg by lia.
  - rewrite <- (Z.opp_involutive k) at 1. rewrite Z.rem_opp_r by lia.
    now rewrite Z.rem_mod_nonneg by lia.
Qed.

Lemma animate_detecting n :
  forall self,
    ModelDetector.isDetecting self = true ->
    (0 <= ModelDetector.frameCount self)%Z ->
    ModelDetector.frameSkip self <> 0%Z ->
    let k := Z.abs (ModelDetector.frameSkip self) in
    let r := ModelDetector.animate n self in
    ModelDetector.frameCount (fst r)
      = (ModelDetector.frameCount self + Z.of_nat n)%Z /\
    length (snd r) = n /\
    (forall j, j < n ->
       nth j (snd r) false
       = ((ModelDetector.frameCount self + Z.of_nat j + 1) mod k =? 0)%Z) /\
    Z.of_nat (count_occ bool_dec (snd r) true)
      = ((ModelDetector.frameCount self + Z.of_nat n) / k
         - ModelDetector.frameCount self / k)%Z.
Proof.
  induction n as [|n IH]; intros self Hdet Hcount Hskip k r; subst r.
  - cbn [ModelDetector.animate fst snd length count_occ].
    rewrite Z.add_0_r. repeat split; lia.
  - cbn [ModelDetector.animate]. unfold ModelDetector.processFrame.
    rewrite Hdet. cbn [negb].
    set (self1 := {| ModelDetector.isDetecting := true;
                     ModelDetector.frameCount :=
                       (ModelDetector.frameCount self + 1)%Z;
                     ModelDetector.frameSkip :=
                       ModelDetector.frameSkip self |}).
    destruct (IH self1 eq_refl) as (Hc & Hl & Hn & Ht);
      [cbn; lia|exact Hskip|].
    cbn [ModelDetector.frameCount ModelDetector.frameSkip self1] in *.
    fold k in Hc, Hn, Ht.
    destruct (ModelDetector.animate n self1) as [self2 calls].
    cbn [fst snd] in *.
    rewrite remainderIsZero_abs by lia. fold k.
    assert (Hk : (0 < k)%Z) by (subst k; lia).
    repeat split.
    + lia.
    + cbn [length]. lia.
    + intros [|j] Hj; cbn [nth].
      * now rewrite Z.add_0_r.
      * rewrite Hn by lia. do 2 f_equal. lia.
    + cbn [count_occ].
      replace (ModelDetector.frameCount self + Z.of_nat (S n))%Z
        with (ModelDetector.frameCount self + 1 + Z.of_nat n)%Z by lia.
      pose proof (div_succ (ModelDetector.frameCount self) k Hcount Hk)
        as Hstep.
      destruct ((ModelDetector.frameCount self + 1) mod k =? 0)%Z;
        destruct (bool_dec _ true); try congruence; lia.
Qed.

(** X22: with a frame-skip setting [k] other than 0, the animation-frame
    callback [processFrame] of a running model detector calls
    [captureAndProcessFrame] on exactly the animation frames whose number
    is a multiple of [|k|]: in the first [n] frames after a start it makes
    [n / |k|] such calls.  With the setting 0 it counts frames and never
    makes the call.  This is about the calls that [processFrame] makes: it
    says nothing on whether a call captures an image, nor on the calls from
    the retry timer. *)
Theorem processFrame_calls_every_kth_frame
    (self : ModelDetector.Detector) (n : nat) :
  ModelDetector.isDetecting self = true ->
  ModelDetector.frameCount self = 0%Z ->
  let k := Z.abs (ModelDetector.frameSkip self) in
  let r := ModelDetector.animate n self in
  ModelDetector.frameCount (fst r) = Z.of_nat n /\
  length (snd r) = n /\
  (ModelDetector.frameSkip self <> 0%Z ->
   (forall j, j < n ->
      (nth j (snd r) false = true <-> (k | Z.of_nat (S j))%Z)) /\
   Z.of_nat (count_occ bool_dec (snd r) true) = (Z.of_nat n / k)%Z) /\
  (ModelDetector.frameSkip self = 0%Z ->
   forall j, nth j (snd r) false = false).
Proof.
  intros Hdet Hzero k r. subst r.
  destruct (Z.eq_dec (ModelDetector.frameSkip self) 0) as [Hk0|Hk].
  - assert (Hall : forall m s,
              ModelDetector.isDetecting s = true ->
              ModelDetector.frameSkip s = 0%Z ->
              ModelDetector.frameCount (fst (ModelDetector.animate m s))
                = (ModelDetector.frameCount s + Z.of_nat m)%Z /\
              length (snd (ModelDetector.animate m s)) = m /\
              forall j, nth j (snd (ModelDetector.animate m s)) false = false).
    { induction m as [|m IHm]; intros s Hs Hs0.
      - cbn. repeat split; try lia. intros [|j]; reflexivity.
      - cbn [ModelDetector.animate]. unfold ModelDetector.processFrame.
        rewrite Hs. cbn [negb].
        set (s1 := {| ModelDetector.isDetecting := true;
                      ModelDetector.frameCount :=
                        (ModelDetector.frameCount s + 1)%Z;
                      ModelDetector.frameSkip := ModelDetector.frameSkip s |}).
        destruct (IHm s1 eq_refl Hs0) as (Hc & Hl & Hn).
        destruct (ModelDetector.animate m s1) as [s2 calls].
        cbn [fst snd ModelDetector.frameCount ModelDetector.frameSkip s1] in *.
        unfold ModelDetector.remainderIsZero. rewrite Hs0. cbn [Z.eqb].
        repeat split; [lia|cbn [length]; lia|].
        intros [|j]; cbn [nth]; [reflexivity|apply Hn]. }
    destruct (Hall n self Hdet Hk0) as (Hc & Hl & Hn).
    rewrite Hzero in Hc.
    split; [lia|]. split; [exact Hl|].
    split; [intros H; contradiction|intros _; exact Hn].
  - destruct (animate_detecting n self Hdet ltac:(lia) Hk)
      as (Hc & Hl & Hn & Ht).
    rewrite Hzero in *. fold k in Hn, Ht.
    assert (Hkpos : (0 < k)%Z) by (subst k; lia).
    split; [lia|]. split; [exact Hl|].
    split; [intros _|intros H; contradiction].
    split.
    + intros j Hj. rewrite Hn by assumption.
      replace (0 + Z.of_nat j + 1)%Z with (Z.of_nat (S j)) by lia.
      rewrite Z.eqb_eq. apply Z.mod_divide. lia.
    + rewrite Ht, Z.div_0_l by lia.
      now rewrite Z.add_0_l, Z.sub_0_r.
Qed.

Lemma processFrame_calls_every_kth_frame_witness :
  snd (ModelDetector.animate 11
         {| ModelDetector.isDetecting := true;
            ModelDetector.frameCount := 0;
            ModelDetector.frameSkip := 5 |}) =
  [false; false; false; false; true; false; false; false; false; true; false]
  /\ Z.of_nat 2 = (Z.of_nat 11 / 5)%Z.
Proof.
  split; [reflexivity|].
  destruct (processFrame_calls_every_kth_frame
              {| ModelDetector.isDetecting := true;
                 ModelDetector.frameCount := 0;
                 ModelDetector.frameSkip := 5 |} 11 eq_refl eq_refl)
    as (_ & _ & Hk & _).
  destruct Hk as [_ Hcount]; [discriminate|]. exact Hcount.
Defined.

(** * Further edge cases of the two detectors *)

(** X23: with a stability threshold of 0 or less the detector does not
    stop debouncing: [slice] then starts at index [- stabilityThreshold],
    and a gesture is stable exactly when every entry of the history from
    that index on is that gesture (the whole history for 0, nothing at all
    once the index is past the end). *)
Theorem nonpositive_threshold_compares_from_index
    (self : Detector) (g : Gesture) :
  (stabilityThreshold self <= 0)%Z ->
  isGestureStable self g = true <->
  forall i v,
    (- stabilityThreshold self <= Z.of_nat i)%Z ->
    gestureHistory self !! i = Some v ->
    v = g.
Proof.
  intros Hthr. unfold isGestureStable.
  destruct (Z.ltb_spec (Z.of_nat (length (gestureHistory self)))
              (stabilityThreshold self)); [lia|].
  unfold slice.
  destruct (Z.ltb_spec (- stabilityThreshold self) 0); [lia|].
  rewrite forallb_skipn_index. split.
  - intros Hall i v Hi Hv. apply Gesture_eqb_eq. apply (Hall i v); [lia|exact Hv].
  - intros Hall i v Hi Hv. apply Gesture_eqb_eq.
    assert (i < length (gestureHistory self))
      by (apply nth_error_Some; congruence).
    apply (Hall i v); [lia|exact Hv].
Qed.

Lemma nonpositive_threshold_compares_from_index_witness :
  isGestureStable
    (pushHistory (pushHistory (updateConfig initial (withThreshold (-1))) G_a)
       G_b) G_b = true.
Proof.
  apply (nonpositive_threshold_compares_from_index
           (pushHistory
              (pushHistory (updateConfig initial (withThreshold (-1))) G_a)
              G_b) G_b).
  - simpl. lia.
  - intros [|[|i]] v Hi Hv.
    + exfalso. apply Hi. reflexivity.
    + injection Hv as <-. reflexivity.
    + destruct i; discriminate Hv.
Defined.

(** X24: [updateConfig] changes the settings its argument names and
    nothing else, and two updates in a row are one update with the later
    value of each setting. *)
Theorem updateConfig_composes (self : Detector) (first second : Config) :
  updateConfig (updateConfig self first) second
    = updateConfig self (mergeConfig first second) /\
  gestureHistory (updateConfig self first) = gestureHistory self /\
  lastStableGesture (updateConfig self first) = lastStableGesture self /\
  lastGestureTime (updateConfig self first) = lastGestureTime self /\
  (first.(cfg_stabilityThreshold) = None ->
   stabilityThreshold (updateConfig self first) = stabilityThreshold self) /\
  (first.(cfg_confidenceThreshold) = None ->
   confidenceThreshold (updateConfig self first) = confidenceThreshold self) /\
  (first.(cfg_gestureCooldown) = None ->
   gestureCooldown (updateConfig self first) = gestureCooldown self).
Proof.
  destruct first as [[c1|] [t1|] [d1|]], second as [[c2|] [t2|] [d2|]];
    cbn; repeat split; congruence.
Qed.

(** ** When a frame throws *)

Lemma classifyGesture_none_iff landmarks handedness :
  classifyGesture landmarks handedness = None <-> length landmarks < 21.
Proof.
  split.
  - intros Hnone.
    destruct (Nat.lt_ge_cases (length landmarks) 21) as [Hlt|Hge];
      [exact Hlt|].
    destruct (classifyGesture_total landmarks handedness Hge) as [g Hg].
    congruence.
  - intros Hlen. rewrite classifyGesture_unfold.
    now rewrite detectASLLetter_short.
Qed.

Lemma processHands_throws_iff clock handednesses :
  forall rest i self,
    processHands self clock rest handednesses i = None <->
    exists j landmarks,
      rest !! j = Some landmarks /\
      match handednesses !! (i + j) with
      | None => True
      | Some entry =>
          (entry.(score) <? self.(confidenceThreshold))%float = false /\
          length landmarks < 21
      end.
Proof.
  induction rest as [|landmarks rest IH]; intros i self.
  - split; [discriminate|]. intros (j & lm & Hj & _). destruct j; discriminate.
  - cbn [processHands].
    assert (Hshift :
      forall s,
        confidenceThreshold s = confidenceThreshold self ->
        (processHands s clock rest handednesses (S i) = None <->
         exists j lm,
           rest !! j = Some lm /\
           match handednesses !! (i + S j) with
           | None => True
           | Some entry =>
               (entry.(score) <? self.(confidenceThreshold))%float = false /\
               length lm < 21
           end)).
    { intros s Hs. rewrite IH, Hs. split; intros (j & lm & Hj & H);
        exists j, lm; (split; [exact Hj|]);
        now replace (i + S j) with (S i + j) in * by lia. }
    destruct (handednesses !! i) as [entry|] eqn:He; cbn [bind].
    + destruct (PrimFloat.ltb (score entry) _) eqn:Hskip.
      * rewrite (Hshift self eq_refl). split.
        -- intros (j & lm & Hj & H). now exists (S j), lm.
        -- intros ([|j] & lm & Hj & H).
           ++ rewrite Nat.add_0_r, He in H. destruct H. congruence.
           ++ now exists j, lm.
      * destruct (classifyGesture landmarks (label entry)) as [g|] eqn:Hg;
          cbn [bind].
        -- destruct (updateGestureHistory_config self (clock i) g)
             as (_ & Hconf & _).
           destruct (updateGestureHistory self (clock i) g) as [s out].
           cbn [fst] in Hconf.
           destruct (processHands s clock rest handednesses (S i))
             as [r|] eqn:Hr; cbn [bind].
           ++ split; [discriminate|].
              intros ([|j] & lm & Hj & H).
              ** rewrite Nat.add_0_r, He in H. injection Hj as <-.
                 destruct H as [_ Hlen].
                 apply (classifyGesture_none_iff _ (label entry)) in Hlen.
                 congruence.
              ** assert (Hnone : processHands s clock rest handednesses (S i)
                                 = None)
                   by (apply (Hshift s Hconf); now exists j, lm).
                 congruence.
           ++ split; [intros _|reflexivity].
              apply (Hshift s Hconf) in Hr.
              destruct Hr as (j & lm & Hj & H). now exists (S j), lm.
        -- split; [intros _|reflexivity].
           exists 0, landmarks. split; [reflexivity|].
           rewrite Nat.add_0_r, He. split; [exact Hskip|].
           now apply (classifyGesture_none_iff _ (label entry)).
    + split; [intros _|reflexivity].
      exists 0, landmarks. split; [reflexivity|].
      now rewrite Nat.add_0_r, He.
Qed.

(** X25: the frame handler of the real-time detector throws exactly when
    some hand of the frame has no handedness entry, or has a score that is
    not below [confidenceThreshold] and fewer than 21 landmarks.  A hand
    below the threshold may have any number of landmarks, and a frame
    without hands never throws. *)
Theorem frame_throws_iff
    (self : Detector) (clock : nat -> Z) (results : Results) :
  processHandResults self clock results = None <->
  exists j landmarks,
    handsOf results !! j = Some landmarks /\
    match results.(multiHandedness) !! j with
    | None => True
    | Some entry =>
        (entry.(score) <? self.(confidenceThreshold))%float = false /\
        length landmarks < 21
    end.
Proof.
  unfold processHandResults, handsOf.
  destruct (multiHandLandmarks results) as [[|landmarks rest]|].
  - split; [discriminate|]. intros (j & lm & Hj & _). destruct j; discriminate.
  - apply (processHands_throws_iff clock _ (landmarks :: rest) 0 self).
  - split; [discriminate|]. intros (j & lm & Hj & _). destruct j; discriminate.
Qed.

Lemma macro_detections_none_iff :
  forall rest handednesses index,
    index <= length handednesses ->
    (MacroDetector.detections rest handednesses index = None <->
     length handednesses < index + length rest).
Proof.
  induction rest as [|landmarks rest IH]; intros hd index Hindex.
  - cbn [MacroDetector.detections length]. split; [discriminate|lia].
  - cbn [MacroDetector.detections length].
    destruct (hd !! index) as [entry|] eqn:He; cbn [bind].
    + assert (Hlt : index < length hd) by (apply nth_error_Some; congruence).
      destruct (MacroDetector.detections rest hd (S index)) as [hands|] eqn:Hr;
        cbn [bind].
      * split; [discriminate|]. intros Hlen.
        assert (MacroDetector.detections rest hd (S index) = None)
          by (apply IH; lia).
        congruence.
      * apply IH in Hr; [|lia]. split; [lia|reflexivity].
    + apply nth_error_None in He. split; [lia|reflexivity].
Qed.

Lemma macro_first_confident :
  forall rest handednesses index hands,
    MacroDetector.detections rest handednesses index = Some hands ->
    match filter
            (fun hand => (hand.(MacroDetector.confidence) >? 0.6)%float)
            hands with
    | [] => None
    | h :: _ => Some h.(MacroDetector.landmarks)
    end = firstConfident rest handednesses index.
Proof.
  induction rest as [|landmarks rest IH]; intros hd index hands Hdet.
  - injection Hdet as <-. reflexivity.
  - cbn [MacroDetector.detections firstConfident] in *.
    destruct (hd !! index) as [entry|]; cbn [bind] in Hdet; [|discriminate].
    destruct (MacroDetector.detections rest hd (S index)) as [hands'|] eqn:Hr;
      cbn [bind] in Hdet; [|discriminate].
    injection Hdet as <-. cbn [filter MacroDetector.confidence].
    destruct (PrimFloat.ltb _ (score entry)).
    + cbn [MacroDetector.landmarks]. now rewrite copy_landmarks.
    + exact (IH _ _ _ Hr).
Qed.

(** X26: the frame handler of the macro detector throws exactly when the
    frame reports hands and either has fewer handedness entries than
    hands or the first hand with a score above 0.6 has fewer than 21
    landmarks; the landmarks of every other hand are never looked at. *)
Theorem macro_frame_throws_iff
    (self : MacroDetector.Detector) (results : Results) :
  MacroDetector.processHandResults self results = None <->
  handsOf results <> [] /\
  (length results.(multiHandedness) < length (handsOf results) \/
   exists landmarks,
     firstConfident (handsOf results) results.(multiHandedness) 0
       = Some landmarks /\
     length landmarks < 21).
Proof.
  unfold MacroDetector.processHandResults, handsOf.
  destruct (multiHandLandmarks results) as [[|hand rest]|].
  - destruct (negb _); [destruct (MacroDetector.isGestureConsistent _ _)|];
      (split; [discriminate|intros [H _]; congruence]).
  - set (hands0 := hand :: rest).
    destruct (MacroDetector.detections hands0 (multiHandedness results) 0)
      as [hands|] eqn:Hdet; cbn [bind].
    + pose proof (macro_first_confident _ _ _ _ Hdet) as Hfirst.
      assert (Hlen : ~ length (multiHandedness results) < length hands0).
      { intros Hlt.
        assert (MacroDetector.detections hands0 (multiHandedness results) 0
                = None) by (apply macro_detections_none_iff; lia).
        congruence. }
      destruct (filter _ hands) as [|h high] eqn:Hf.
      * cbn [length Nat.eqb]. split; [discriminate|].
        intros [_ [Hlt|(lm & Hlm & _)]]; [contradiction|congruence].
      * cbn [length Nat.eqb].
        destruct (MacroDetector.classifyGesture (h :: high)) as [g|] eqn:Hg;
          cbn [bind].
        -- split.
           ++ destruct (_ && _); discriminate.
           ++ intros [_ [Hlt|(lm & Hlm & Hshort)]]; [contradiction|].
              rewrite <- Hfirst in Hlm. injection Hlm as <-.
              apply (macro_classifyGesture_none_iff h high) in Hshort.
              congruence.
        -- split; [intros _|reflexivity].
           split; [discriminate|]. right.
           exists (MacroDetector.landmarks h). split; [now rewrite <- Hfirst|].
           now apply (macro_classifyGesture_none_iff h high).
    + split; [intros _|reflexivity].
      split; [discriminate|]. left.
      apply macro_detections_none_iff in Hdet; lia.
  - destruct (negb _); [destruct (MacroDetector.isGestureConsistent _ _)|];
      (split; [discriminate|intros [H _]; congruence]).
Qed.
